(** * Training/validation session of torchmodels (main_old.py, data_input.py)

    A shallow embedding of [Session] and [SkeletonDataset]: the session
    object is a record, its methods are computations in a small
    state/exception/trace monad, and every call to an external collaborator
    (model, optimizer, schedule, loss scaler, progress logger, checkpoint
    manager) is recorded as an event of the trace. *)

From Stdlib Require Import List ZArith QArith String Bool Lia.
Import ListNotations.
Open Scope string_scope.
Open Scope Z_scope.

Set Implicit Arguments.

(** ** Python values used by the session *)

(** Exceptions the embedded code can raise. *)
Inductive exn : Type :=
| AttributeError (attr : string)
| TypeError (msg : string)
| ValueError (msg : string)
| KeyError (key : string)
| IndexError
| ZeroDivisionError
| ExternalError (msg : string).

Definition result (A : Type) : Type := (exn + A)%type.

(** [a // b] on Python ints (floor division, [ZeroDivisionError] on 0). *)
Definition py_floordiv (a b : Z) : result Z :=
  if b =? 0 then inl ZeroDivisionError else inr (a / b).

(** [x or default] for an optional string: [None] and [""] are falsy. *)
Definition py_or (x : option string) (default : string) : string :=
  match x with
  | None => default
  | Some s => if String.eqb s "" then default else s
  end.

(** [range(n)]. *)
Definition py_range (n : Z) : list Z :=
  map Z.of_nat (seq 0 (Z.to_nat n)).

(** Index normalisation of a slice bound against a sequence of length [len]. *)
Definition slice_bound (i len : Z) : Z :=
  if i <? 0 then Z.max 0 (i + len) else Z.min i len.

(** [l[start:stop]] with Python's clamping and negative indices. *)
Definition py_slice {A : Type} (l : list A) (start stop : Z) : list A :=
  let len := Z.of_nat (List.length l) in
  let lo := slice_bound start len in
  let hi := slice_bound stop len in
  firstn (Z.to_nat (hi - lo)) (skipn (Z.to_nat lo) l).

(** Dense arrays: a feature tensor per sample and an integer class label. *)
Definition Features : Type := list Q.
Definition Label : Type := Z.

(** ** Configuration (the fields of [self._config] the session reads) *)

Record Config : Type := mkConfig {
  session_id : option string;
  session_type : option string;
  debug : bool;
  tuning : bool;
  out_path : string;
  batch_size : Z;
  grad_accum_step : Z;
  test_batch_size : Z;
  mixed_precision : bool;
  epochs : Z;
  lr_scheduler : string;
  disable_shuffle : bool;
  fixed_seed : option Z;
  training_features_path : string;
  training_labels_path : string;
  validation_features_path : string;
  validation_labels_path : string
}.

(** The [config] argument of [start]: the model configuration dictionary. *)
Record ModelConfig : Type := mkModelConfig {
  mc_optimizer : string;
  mc_base_lr : Q;
  mc_lr_scheduler : string;
  mc_epochs : option Z;
  mc_steps_per_epoch : option (option Z)
}.

(** ** data_input.py *)

Record SkeletonDataset : Type := mkDataset {
  features_data : list Features;
  labels_data : list Label
}.

(** A Python argument list: positional arguments and keyword arguments. *)
Inductive pyarg : Type :=
| PStr (s : string)
| PBool (b : bool).

Definition kwargs_get_bool (kw : list (string * pyarg)) (key : string) (default : bool) : bool :=
  match find (fun p => String.eqb (fst p) key) kw with
  | Some (_, PBool b) => b
  | Some (_, PStr s) => negb (String.eqb s "")
  | None => default
  end.

(** ** The session object *)

Inductive batch_fun : Type := single_batch_ref | single_batch_accum_ref.
Inductive forward_fun : Type := default_forward_ref | amp_forward_ref.

Record DataLoader : Type := mkDataLoader {
  dl_dataset : SkeletonDataset;
  dl_batch_size : Z;
  dl_shuffle : bool;
  dl_drop_last : bool
}.

(** Modelled from the spec: the metric states of metrics.py's
    [MetricsContainer] (not part of the sources at hand), after section 4.3:
    a running weighted mean for the loss, and hit counters over a running
    count for accuracy and top-k accuracy. *)
Record MeanMetric : Type := mkMean { mean_value : Q; running_count : Z }.
Record HitMetric : Type := mkHit { hits : Z; seen : Z }.
Record ModeMetrics : Type := mkMode {
  m_loss : MeanMetric;
  m_accuracy : HitMetric;
  m_top5_accuracy : HitMetric
}.
Record MetricsContainer : Type := mkMetrics {
  training_metrics : ModeMetrics;
  validation_metrics : ModeMetrics
}.

Record Session : Type := mkSession {
  _config : Config;
  _session_id : string;
  is_resume : bool;
  _session_type : option string;      (* [None]: the attribute was never assigned *)
  log_path : string;
  checkpoint_path : string;
  config_path : string;
  _batch_fun : batch_fun;
  _gradient_accumulation_steps : Z;
  _forward : forward_fun;
  _loss_scale : bool;                 (* a [GradScaler] or [None] *)
  _model_training : bool;             (* [self._model.training] *)
  _lr_scheduler : bool;               (* a schedule object or [None] *)
  _starting_epoch : Z;
  _data_loader : list (string * DataLoader);
  _num_training_batches : option Z;
  _num_validation_batches : option Z;
  _metrics : MetricsContainer;
  _reporter : bool                    (* a reporter callable or [None] *)
}.

(** Optimizer, loss function, progress logger and checkpoint manager are
    objects the session only calls; their calls are events of the trace and
    they have no field here.  The model is such an object too, except for
    its training flag, which the batch functions read: [_model_training] is
    that flag, meaningful once [_initialize_model] has built the model. *)

(** ** External collaborators

    Code outside the two source files: wall clock, file system, the model
    and its loss, the schedule factory and the checkpoint manager. *)

Definition Prediction : Type := list Q.

Record Env : Type := mkEnv {
  strftime : string -> string;
  torch_version : string;
  path_join : string -> string -> string -> string;
  load_and_merge_configuration : Config -> string -> result Config;
  np_load_features : string -> list Features;
  np_load_labels : string -> list Label;
  sampler : nat -> list nat;                  (* index order of a shuffled pass *)
  model : Features -> Prediction;             (* per-sample forward pass *)
  cross_entropy : Prediction -> Label -> Q;   (* per-sample loss *)
  create_learning_rate_scheduler : string -> bool;
  load_latest : string -> result Z            (* the checkpoint's epoch *)
}.

(** Calls to collaborators, in program order. *)
Inductive event : Type :=
| EvImportDatasetConstants
| EvGraph
| EvImportModel
| EvModelConstruct
| EvLossFunction
| EvCreateOptimizer
| EvCreateScheduler
| EvCheckpointManager
| EvLoadLatest
| EvDataLoader (key : string) (size : Z) (shuffle drop_last : bool)
| EvPrintSummary
| EvPrintConfig
| EvMakedirs
| EvOpenLog
| EvProgressLogger
| EvSaveConfiguration
| EvBeginSession (ty : string)
| EvEndSession
| EvCloseLog
| EvModelTrain
| EvModelEval
| EvZeroGrad
| EvAutocast
| EvForward (samples : nat) (loss_quotient : Z)
| EvBackward (scaled : bool)
| EvUpdateMetrics (training : bool) (count : Z)
| EvOptimizerStep
| EvScalerStep
| EvScalerUpdate
| EvUpdateEpochMode (mode : Z)
| EvLrUpdate
| EvBeginEpoch (epoch : Z)
| EvBeginEpochMode (mode : Z)
| EvEndEpoch
| EvSchedulerStep
| EvReporter (epoch : Z)
| EvSaveCheckpoint (epoch : Z)
| EvResetAll
| EvSaveWeights.

(** ** The monad of session methods: state, exceptions and the trace *)

Record Outcome (A : Type) : Type := mkOutcome {
  value : result A;
  final : Session;
  emitted : list event
}.

Definition M (A : Type) : Type := Session -> Outcome A.

Definition ret {A : Type} (a : A) : M A :=
  fun s => mkOutcome (inr a) s [].

Definition raise {A : Type} (e : exn) : M A :=
  fun s => mkOutcome (inl e) s [].

Definition bind {A B : Type} (m : M A) (k : A -> M B) : M B :=
  fun s =>
    let o := m s in
    match value o with
    | inl e => mkOutcome (inl e) (final o) (emitted o)
    | inr a =>
        let o' := k a (final o) in
        mkOutcome (value o') (final o') (emitted o ++ emitted o')
    end.

Definition emit (ev : event) : M unit :=
  fun s => mkOutcome (inr tt) s [ev].

Definition get : M Session :=
  fun s => mkOutcome (inr s) s [].

Definition modify (f : Session -> Session) : M unit :=
  fun s => mkOutcome (inr tt) (f s) [].

Definition lift {A : Type} (r : result A) : M A :=
  match r with
  | inl e => raise e
  | inr a => ret a
  end.

Declare Scope session_scope.
Delimit Scope session_scope with session.
Notation "x <- m ;; k" := (bind m (fun x => k))
  (at level 61, m at next level, right associativity) : session_scope.
Notation "m ;;; k" := (bind m (fun _ => k))
  (at level 61, right associativity) : session_scope.

(** The same sequencing for computations that only can raise. *)
Definition rbind {A B : Type} (r : result A) (k : A -> result B) : result B :=
  match r with
  | inl e => inl e
  | inr a => k a
  end.

(** [for x in l: body(x)]. *)
Fixpoint for_each {A : Type} (l : list A) (body : A -> M unit) : M unit :=
  match l with
  | [] => ret tt
  | x :: rest => bind (body x) (fun _ => for_each rest body)
  end.

(** [when c: m]. *)
Definition when (c : bool) (m : M unit) : M unit :=
  if c then m else ret tt.

(** ** Library models: dictionaries, DataLoader, losses *)

Definition dict_set {V : Type} (d : list (string * V)) (k : string) (v : V) : list (string * V) :=
  (k, v) :: filter (fun p => negb (String.eqb (fst p) k)) d.

Definition dict_get {V : Type} (d : list (string * V)) (k : string) : result V :=
  match find (fun p => String.eqb (fst p) k) d with
  | Some (_, v) => inr v
  | None => inl (KeyError k)
  end.

(** Consecutive groups of [k] elements; the last one may be shorter. *)
Fixpoint chunks_aux {A : Type} (fuel k : nat) (l : list A) : list (list A) :=
  match fuel with
  | O => []
  | S fuel' =>
      match l with
      | [] => []
      | _ :: _ => firstn k l :: chunks_aux fuel' k (skipn k l)
      end
  end.

Definition chunks {A : Type} (k : nat) (l : list A) : list (list A) :=
  chunks_aux (List.length l) k l.

(** A batch as the loader collates it: features, labels and sample indices. *)
Definition Batch : Type := (list Features * list Label * list nat)%type.

Definition batch_len (b : Batch) : nat :=
  match b with (_, label, _) => List.length label end.

Fixpoint collate (samples : list (Features * Label * nat)) : Batch :=
  match samples with
  | [] => ([], [], [])
  | (f, l, i) :: rest =>
      match collate rest with
      | (fs, ls, ixs) => (f :: fs, l :: ls, i :: ixs)
      end
  end.

(** [nn.CrossEntropyLoss()] with its default mean reduction.  In exact
    arithmetic a division by zero yields 0 where the tensor code yields nan. *)
Definition sum_Q (l : list Q) : Q := fold_right Qplus 0%Q l.

Definition loss_function (ce : Prediction -> Label -> Q)
    (y_pred : list Prediction) (label : list Label) : Q :=
  (sum_Q (map (fun p => ce (fst p) (snd p)) (combine y_pred label))
   / inject_Z (Z.of_nat (List.length label)))%Q.

(** ** Modelled from the spec: metrics.py *)

(** Modelled from the spec: [MetricsContainer] lives in metrics.py, which is
    not among the sources; section 4.3 gives the update of the loss metric as
    [new_mean = old_mean + (batch_mean - old_mean) * count / running_count]. *)
Definition update_mean (m : MeanMetric) (batch_mean : Q) (count : Z) : MeanMetric :=
  let rc := running_count m + count in
  mkMean (mean_value m + (batch_mean - mean_value m) * inject_Z count / inject_Z rc)%Q rc.

(** Modelled from the spec: index of the highest score (first one on ties). *)
Fixpoint argmax_aux (best_i : Z) (best : Q) (i : Z) (scores : list Q) : Z :=
  match scores with
  | [] => best_i
  | x :: rest =>
      if Qle_bool x best then argmax_aux best_i best (i + 1) rest
      else argmax_aux i x (i + 1) rest
  end.

Definition argmax (scores : Prediction) : Z :=
  match scores with
  | [] => 0
  | x :: rest => argmax_aux 0 x 1 rest
  end.

(** Modelled from the spec: the label is among the [k] highest scores. *)
Definition in_top_k (k : nat) (scores : Prediction) (label : Label) : bool :=
  match (if label <? 0 then None else nth_error scores (Z.to_nat label)) with
  | None => false
  | Some own =>
      Nat.ltb (List.length (filter (fun x => negb (Qle_bool x own)) scores)) k
  end.

Definition count_true (l : list bool) : Z :=
  Z.of_nat (List.length (filter (fun b => b) l)).

(** Modelled from the spec: accuracy counts the samples whose argmax equals
    the label and divides by the running count. *)
Definition update_hits (h : HitMetric) (matches : list bool) (count : Z) : HitMetric :=
  mkHit (hits h + count_true matches) (seen h + count).

Definition hit_value (h : HitMetric) : Q :=
  (inject_Z (hits h) / inject_Z (seen h))%Q.

(** Modelled from the spec: one observation (loss, (predictions, labels),
    count) for one mode. *)
Definition update_mode (mm : ModeMetrics) (loss : Q)
    (y_pred : list Prediction) (label : list Label) (count : Z) : ModeMetrics :=
  let pairs := combine y_pred label in
  mkMode
    (update_mean (m_loss mm) loss count)
    (update_hits (m_accuracy mm)
       (map (fun p => argmax (fst p) =? snd p) pairs) count)
    (update_hits (m_top5_accuracy mm)
       (map (fun p => in_top_k 5 (fst p) (snd p)) pairs) count).

Definition zero_mode : ModeMetrics :=
  mkMode (mkMean 0%Q 0) (mkHit 0 0) (mkHit 0 0).

Definition zero_metrics : MetricsContainer :=
  mkMetrics zero_mode zero_mode.

Definition update_training (mc : MetricsContainer) (loss : Q)
    (y_pred : list Prediction) (label : list Label) (count : Z) : MetricsContainer :=
  mkMetrics (update_mode (training_metrics mc) loss y_pred label count)
            (validation_metrics mc).

Definition update_validation (mc : MetricsContainer) (loss : Q)
    (y_pred : list Prediction) (label : list Label) (count : Z) : MetricsContainer :=
  mkMetrics (training_metrics mc)
            (update_mode (validation_metrics mc) loss y_pred label count).

(** ** Attribute assignment on the session object *)

Definition set_model_training (b : bool) (s : Session) : Session :=
  mkSession (_config s) (_session_id s) (is_resume s) (_session_type s)
    (log_path s) (checkpoint_path s) (config_path s) (_batch_fun s)
    (_gradient_accumulation_steps s) (_forward s) (_loss_scale s)
    b (_lr_scheduler s) (_starting_epoch s) (_data_loader s)
    (_num_training_batches s) (_num_validation_batches s) (_metrics s)
    (_reporter s).

Definition set_lr_scheduler (b : bool) (s : Session) : Session :=
  mkSession (_config s) (_session_id s) (is_resume s) (_session_type s)
    (log_path s) (checkpoint_path s) (config_path s) (_batch_fun s)
    (_gradient_accumulation_steps s) (_forward s) (_loss_scale s)
    (_model_training s) b (_starting_epoch s) (_data_loader s)
    (_num_training_batches s) (_num_validation_batches s) (_metrics s)
    (_reporter s).

Definition set_starting_epoch (e : Z) (s : Session) : Session :=
  mkSession (_config s) (_session_id s) (is_resume s) (_session_type s)
    (log_path s) (checkpoint_path s) (config_path s) (_batch_fun s)
    (_gradient_accumulation_steps s) (_forward s) (_loss_scale s)
    (_model_training s) (_lr_scheduler s) e (_data_loader s)
    (_num_training_batches s) (_num_validation_batches s) (_metrics s)
    (_reporter s).

Definition set_data_loader (key : string) (dl : DataLoader) (s : Session) : Session :=
  mkSession (_config s) (_session_id s) (is_resume s) (_session_type s)
    (log_path s) (checkpoint_path s) (config_path s) (_batch_fun s)
    (_gradient_accumulation_steps s) (_forward s) (_loss_scale s)
    (_model_training s) (_lr_scheduler s) (_starting_epoch s)
    (dict_set (_data_loader s) key dl)
    (_num_training_batches s) (_num_validation_batches s) (_metrics s)
    (_reporter s).

Definition set_num_training_batches (n : option Z) (s : Session) : Session :=
  mkSession (_config s) (_session_id s) (is_resume s) (_session_type s)
    (log_path s) (checkpoint_path s) (config_path s) (_batch_fun s)
    (_gradient_accumulation_steps s) (_forward s) (_loss_scale s)
    (_model_training s) (_lr_scheduler s) (_starting_epoch s) (_data_loader s)
    n (_num_validation_batches s) (_metrics s) (_reporter s).

Definition set_num_validation_batches (n : option Z) (s : Session) : Session :=
  mkSession (_config s) (_session_id s) (is_resume s) (_session_type s)
    (log_path s) (checkpoint_path s) (config_path s) (_batch_fun s)
    (_gradient_accumulation_steps s) (_forward s) (_loss_scale s)
    (_model_training s) (_lr_scheduler s) (_starting_epoch s) (_data_loader s)
    (_num_training_batches s) n (_metrics s) (_reporter s).

Definition set_metrics (m : MetricsContainer) (s : Session) : Session :=
  mkSession (_config s) (_session_id s) (is_resume s) (_session_type s)
    (log_path s) (checkpoint_path s) (config_path s) (_batch_fun s)
    (_gradient_accumulation_steps s) (_forward s) (_loss_scale s)
    (_model_training s) (_lr_scheduler s) (_starting_epoch s) (_data_loader s)
    (_num_training_batches s) (_num_validation_batches s) m (_reporter s).

Definition set_reporter (r : bool) (s : Session) : Session :=
  mkSession (_config s) (_session_id s) (is_resume s) (_session_type s)
    (log_path s) (checkpoint_path s) (config_path s) (_batch_fun s)
    (_gradient_accumulation_steps s) (_forward s) (_loss_scale s)
    (_model_training s) (_lr_scheduler s) (_starting_epoch s) (_data_loader s)
    (_num_training_batches s) (_num_validation_batches s) (_metrics s) r.

(** [self._session_type]: an [AttributeError] when it was never assigned. *)
Definition getattr_session_type : M string :=
  fun s =>
    match _session_type s with
    | Some ty => ret ty s
    | None => raise (AttributeError "_session_type") s
    end.

Section Program.

Variable env : Env.

Open Scope session_scope.

(** ** data_input.py: SkeletonDataset *)

(** [SkeletonDataset.__init__(self, features_path, label_path, **kwargs)]:
    exactly two positional arguments after [self]; anything else is a
    [TypeError] raised by the call itself. *)
Definition SkeletonDataset__init__ (args : list pyarg)
    (kwargs : list (string * pyarg)) : result SkeletonDataset :=
  match args with
  | [PStr features_path; PStr label_path] =>
      let fd := np_load_features env features_path in
      let ld := np_load_labels env label_path in
      if kwargs_get_bool kwargs "debug" false
      then inr (mkDataset (firstn 100 fd) (firstn 100 ld))
      else inr (mkDataset fd ld)
  | [_; _] => inl (ExternalError "np.load")
  | _ => inl (TypeError "__init__() takes 3 positional arguments")
  end.

Definition SkeletonDataset__len__ (ds : SkeletonDataset) : nat :=
  List.length (labels_data ds).

Definition SkeletonDataset__getitem__ (ds : SkeletonDataset) (item : nat)
    : result (Features * Label * nat) :=
  match nth_error (features_data ds) item, nth_error (labels_data ds) item with
  | Some f, Some l => inr (f, l, item)
  | _, _ => inl IndexError
  end.

(** ** torch.utils.data.DataLoader *)

Definition DataLoader_new (ds : SkeletonDataset) (size : Z)
    (shuffle drop_last : bool) : result DataLoader :=
  if size <=? 0
  then inl (ValueError "batch_size should be a positive integer value")
  else inr (mkDataLoader ds size shuffle drop_last).

Definition DataLoader_len (dl : DataLoader) : Z :=
  let n := Z.of_nat (SkeletonDataset__len__ (dl_dataset dl)) in
  if dl_drop_last dl then n / dl_batch_size dl
  else (n + dl_batch_size dl - 1) / dl_batch_size dl.

(** The index groups of one pass over the loader. *)
Definition loader_index_batches (dl : DataLoader) : list (list nat) :=
  let k := Z.to_nat (dl_batch_size dl) in
  let n := SkeletonDataset__len__ (dl_dataset dl) in
  let groups := chunks k (if dl_shuffle dl then sampler env n else seq 0 n) in
  if dl_drop_last dl
  then filter (fun g => Nat.eqb (List.length g) k) groups
  else groups.

Fixpoint fetch_samples (ds : SkeletonDataset) (idxs : list nat)
    : result (list (Features * Label * nat)) :=
  match idxs with
  | [] => inr []
  | i :: rest =>
      rbind (SkeletonDataset__getitem__ ds i) (fun x =>
      rbind (fetch_samples ds rest) (fun xs => inr (x :: xs)))
  end.

Definition fetch_batch (ds : SkeletonDataset) (idxs : list nat) : result Batch :=
  rbind (fetch_samples ds idxs) (fun xs => inr (collate xs)).

(** [for features_batch, label_batch, indices in loader: body]. *)
Definition for_batches (dl : DataLoader) (body : Batch -> M unit) : M unit :=
  for_each (loader_index_batches dl)
    (fun idxs => b <- lift (fetch_batch (dl_dataset dl) idxs) ;; body b).

(** ** main_old.py: Session *)

Definition Session__init__ (config : Config) : result Session :=
  let '(sid, resume, sty) :=
    match session_id config with
    | Some sid => (sid, true, None)
    | None =>
        let ty := py_or (session_type config) "training" in
        let id_fmt :=
          String.append ty
            (String.append "_%Y_%m_%d-%H_%M_%S_torch" (torch_version env)) in
        let sid := strftime env id_fmt in
        (if debug config then String.append "debug_" sid else sid, false, Some ty)
    end in
  let log_p := path_join env (out_path config) sid "logs" in
  let checkpoint_p := path_join env (out_path config) sid "checkpoints" in
  let config_p := path_join env (out_path config) sid "config.yaml" in
  rbind (if resume then load_and_merge_configuration env config config_p
         else inr config) (fun config =>
  rbind (if batch_size config =? grad_accum_step config
         then inr (single_batch_ref, 0)
         else rbind (py_floordiv (batch_size config) (grad_accum_step config))
                (fun steps => inr (single_batch_accum_ref, steps)))
        (fun strategy =>
  let '(fwd, scaler) :=
    if mixed_precision config then (amp_forward_ref, true)
    else (default_forward_ref, false) in
  inr (mkSession config sid resume sty log_p checkpoint_p config_p
         (fst strategy) (snd strategy) fwd scaler
         true false 0 [] None None zero_metrics false))).

Definition _initialize_model (model_config : option ModelConfig) : M unit :=
  emit EvImportDatasetConstants ;;;
  emit EvGraph ;;;
  emit EvImportModel ;;;
  emit EvModelConstruct ;;;
  modify (set_model_training true) ;;;
  emit EvLossFunction ;;;
  match model_config with
  | None => raise (TypeError "'NoneType' object is not subscriptable")
  | Some mc =>
      emit EvCreateOptimizer ;;;
      s <- get ;;
      let mc :=
        if String.eqb (lr_scheduler (_config s)) "onecycle"
        then mkModelConfig (mc_optimizer mc) (mc_base_lr mc) (mc_lr_scheduler mc)
               (Some (epochs (_config s))) (Some (_num_training_batches s))
        else mc in
      emit EvCreateScheduler ;;;
      modify (set_lr_scheduler
                (create_learning_rate_scheduler env (mc_lr_scheduler mc))) ;;;
      emit EvCheckpointManager ;;;
      s <- get ;;
      if is_resume s then
        emit EvLoadLatest ;;;
        cp_epoch <- lift (load_latest env (checkpoint_path s)) ;;
        modify (set_starting_epoch (cp_epoch + 1))
      else ret tt
  end.

Definition _load_data : M unit :=
  ty <- getattr_session_type ;;
  s <- get ;;
  let cfg := _config s in
  (if String.eqb ty "training" then
     let shuffle := negb (disable_shuffle cfg || debug cfg) in
     ds <- lift (SkeletonDataset__init__
                   [PStr (training_features_path cfg);
                    PStr (training_labels_path cfg);
                    PBool (debug cfg)] []) ;;
     dl <- lift (DataLoader_new ds (batch_size cfg) shuffle true) ;;
     emit (EvDataLoader "train" (batch_size cfg) shuffle true) ;;;
     modify (set_data_loader "train" dl) ;;;
     modify (set_num_training_batches (Some (DataLoader_len dl)))
   else ret tt) ;;;
  ds <- lift (SkeletonDataset__init__
                [PStr (validation_features_path cfg);
                 PStr (validation_labels_path cfg)] []) ;;
  dl <- lift (DataLoader_new ds (test_batch_size cfg) false false) ;;
  emit (EvDataLoader "val" (test_batch_size cfg) false false) ;;;
  modify (set_data_loader "val" dl) ;;;
  modify (set_num_validation_batches (Some (DataLoader_len dl))).

Definition print_summary : M unit :=
  ty <- getattr_session_type ;;
  s <- get ;;
  (if String.eqb ty "training" then
     match _num_training_batches s with
     | Some _ => ret tt
     | None => raise (TypeError "unsupported format string passed to NoneType.__format__")
     end
   else ret tt) ;;;
  match _num_validation_batches s with
  | Some _ => emit EvPrintSummary
  | None => raise (TypeError "unsupported format string passed to NoneType.__format__")
  end.

Definition _build_metrics : M unit :=
  emit EvProgressLogger ;;;
  modify (set_metrics zero_metrics).

Definition _default_forward (features : list Features) (label : list Label)
    (loss_quotient : Z) : M (list Prediction * Q) :=
  emit (EvForward (List.length features) loss_quotient) ;;;
  let y_pred := map (model env) features in
  let loss :=
    (loss_function (cross_entropy env) y_pred label / inject_Z loss_quotient)%Q in
  ret (y_pred, loss).

Definition _amp_forward (features : list Features) (label : list Label)
    (loss_quotient : Z) : M (list Prediction * Q) :=
  emit EvAutocast ;;;
  _default_forward features label loss_quotient.

(** [self._forward(...)]: the function reference chosen at construction. *)
Definition call_forward (features : list Features) (label : list Label)
    (loss_quotient : Z) : M (list Prediction * Q) :=
  s <- get ;;
  match _forward s with
  | default_forward_ref => _default_forward features label loss_quotient
  | amp_forward_ref => _amp_forward features label loss_quotient
  end.

Definition _backward (loss : Q) : M unit :=
  s <- get ;;
  if mixed_precision (_config s) then emit (EvBackward true)
  else emit (EvBackward false).

(** [self._metrics.update_training] / [self._metrics.update_validation]. *)
Definition call_update_metrics (training : bool) (loss : Q)
    (y_pred : list Prediction) (label : list Label) (count : Z) : M unit :=
  s <- get ;;
  emit (EvUpdateMetrics training count) ;;;
  modify (set_metrics
            ((if training then update_training else update_validation)
               (_metrics s) loss y_pred label count)).

Definition _single_batch (features : list Features) (label : list Label) : M unit :=
  r <- call_forward features label 1 ;;
  let '(y_pred, loss) := r in
  s <- get ;;
  (if _model_training s then _backward loss else ret tt) ;;;
  call_update_metrics (_model_training s) loss y_pred label
    (Z.of_nat (List.length label)).

Definition _single_batch_accum (features : list Features) (label : list Label) : M unit :=
  s0 <- get ;;
  for_each (py_range (_gradient_accumulation_steps s0)) (fun step =>
    s <- get ;;
    let start := step * grad_accum_step (_config s) in
    let stop := start + grad_accum_step (_config s) in
    let x := py_slice features start stop in
    let y_true := py_slice label start stop in
    r <- call_forward x y_true (Z.of_nat (List.length y_true)) ;;
    let '(y_pred, loss) := r in
    s <- get ;;
    (if _model_training s then _backward loss else ret tt) ;;;
    call_update_metrics (_model_training s) loss y_pred y_true
      (Z.of_nat (List.length y_true))).

(** [self._batch_fun(features, label)]. *)
Definition call_batch_fun (features : list Features) (label : list Label) : M unit :=
  s <- get ;;
  match _batch_fun s with
  | single_batch_ref => _single_batch features label
  | single_batch_accum_ref => _single_batch_accum features label
  end.

(** The body of the loop of [_train_epoch], for one batch. *)
Definition train_batch (b : Batch) : M unit :=
  let '(features, label, _) := b in
  emit EvZeroGrad ;;;
  call_batch_fun features label ;;;
  s <- get ;;
  (if mixed_precision (_config s)
   then emit EvScalerStep ;;; emit EvScalerUpdate
   else emit EvOptimizerStep) ;;;
  emit (EvUpdateEpochMode 0).

Definition _train_epoch : M unit :=
  emit EvModelTrain ;;;
  modify (set_model_training true) ;;;
  s <- get ;;
  dl <- lift (dict_get (_data_loader s) "train") ;;
  for_batches dl train_batch.

(** The body of the loop of [_validate_epoch], for one batch. *)
Definition validate_batch (mode : Z) (b : Batch) : M unit :=
  let '(features, label, _) := b in
  call_batch_fun features label ;;;
  emit (EvUpdateEpochMode mode).

Definition _validate_epoch : M unit :=
  emit EvModelEval ;;;
  modify (set_model_training false) ;;;
  ty <- getattr_session_type ;;
  let mode := if String.eqb ty "training" then 1 else 0 in
  s <- get ;;
  dl <- lift (dict_get (_data_loader s) "val") ;;
  for_batches dl (validate_batch mode).

(** The body of the loop of [_start_training], for one epoch. *)
Definition training_epoch (epoch : Z) : M unit :=
  emit EvLrUpdate ;;;
  emit (EvBeginEpoch epoch) ;;;
  emit (EvBeginEpochMode 0) ;;;
  _train_epoch ;;;
  emit (EvBeginEpochMode 1) ;;;
  _validate_epoch ;;;
  emit EvEndEpoch ;;;
  s <- get ;;
  (if _lr_scheduler s then emit EvSchedulerStep else ret tt) ;;;
  (if _reporter s then emit (EvReporter epoch)
   else emit (EvSaveCheckpoint epoch)) ;;;
  emit EvResetAll ;;;
  modify (set_metrics zero_metrics).

Definition _start_training : M unit :=
  s <- get ;;
  for_each (py_range (epochs (_config s))) training_epoch ;;;
  emit EvSaveWeights.

Definition _start_validation : M unit :=
  ret tt.

Definition start (config : option ModelConfig) (reporter : bool) : M unit :=
  _initialize_model config ;;;
  _load_data ;;;
  s <- get ;;
  (if tuning (_config s) then emit EvPrintConfig else print_summary) ;;;
  modify (set_reporter reporter) ;;;
  emit EvMakedirs ;;;
  (if tuning (_config s) then emit EvOpenLog else ret tt) ;;;
  _build_metrics ;;;
  emit EvSaveConfiguration ;;;
  ty <- getattr_session_type ;;
  emit (EvBeginSession ty) ;;;
  (if String.eqb ty "training" then _start_training
   else if String.eqb ty "validation" then _start_validation
   else raise (ValueError (String.append "Unknown session type " ty))) ;;;
  emit EvEndSession ;;;
  (if tuning (_config s) then emit EvCloseLog else ret tt).

End Program.

(** ** Concrete inputs *)

Definition demo_config : Config :=
  mkConfig None (Some "training") false false "out" 4 2 6 false 10 "step"
    false None "train_x.npy" "train_y.npy" "val_x.npy" "val_y.npy".

Definition with_session_type (ty : option string) (c : Config) : Config :=
  mkConfig (session_id c) ty (debug c) (tuning c) (out_path c) (batch_size c)
    (grad_accum_step c) (test_batch_size c) (mixed_precision c) (epochs c)
    (lr_scheduler c) (disable_shuffle c) (fixed_seed c)
    (training_features_path c) (training_labels_path c)
    (validation_features_path c) (validation_labels_path c).

Definition with_session_id (sid : option string) (c : Config) : Config :=
  mkConfig sid (session_type c) (debug c) (tuning c) (out_path c) (batch_size c)
    (grad_accum_step c) (test_batch_size c) (mixed_precision c) (epochs c)
    (lr_scheduler c) (disable_shuffle c) (fixed_seed c)
    (training_features_path c) (training_labels_path c)
    (validation_features_path c) (validation_labels_path c).

Definition with_sizes (b a t : Z) (c : Config) : Config :=
  mkConfig (session_id c) (session_type c) (debug c) (tuning c) (out_path c)
    b a t (mixed_precision c) (epochs c)
    (lr_scheduler c) (disable_shuffle c) (fixed_seed c)
    (training_features_path c) (training_labels_path c)
    (validation_features_path c) (validation_labels_path c).

(** Six samples per file; the model scores two classes, and the loss of a
    sample is its first score (1 for the first sample, 2 for the second
    and so on). *)
Definition demo_env : Env :=
  mkEnv (fun fmt => fmt) "1.7" (fun a b c => String.append a (String.append "/" (String.append b (String.append "/" c))))
    (fun c _ => inr c)
    (fun _ => [[1%Q]; [2%Q]; [3%Q]; [4%Q]; [5%Q]; [6%Q]])
    (fun _ => [0; 1; 0; 1; 0; 1])
    (fun n => rev (seq 0 n))
    (fun f => match f with x :: _ => [x; 3%Q] | [] => [0%Q; 0%Q] end)
    (fun p _ => match p with x :: _ => x | [] => 0%Q end)
    (fun name => negb (String.eqb name ""))
    (fun _ => inr 3).

Definition demo_model_config : ModelConfig :=
  mkModelConfig "sgd" (1 # 10) "step" None None.

(** ** Traces used in the statements *)

(** The collaborator calls of [_initialize_model] on a fresh session. *)
Definition init_events : list event :=
  [EvImportDatasetConstants; EvGraph; EvImportModel; EvModelConstruct;
   EvLossFunction; EvCreateOptimizer; EvCreateScheduler; EvCheckpointManager].

(** The calls of [start] between data loading and the dispatch on the
    session type. *)
Definition prologue_events (is_tuning : bool) (ty : string) : list event :=
  (if is_tuning then [EvPrintConfig; EvMakedirs; EvOpenLog]
   else [EvPrintSummary; EvMakedirs])
  ++ [EvProgressLogger; EvSaveConfiguration; EvBeginSession ty].

(** Events of running a batch: forward, backward and metric updates. *)
Definition is_batch_event (ev : event) : bool :=
  match ev with
  | EvAutocast | EvForward _ _ | EvBackward _ | EvUpdateMetrics _ _ => true
  | _ => false
  end.

(** The validation loader as [_load_data] builds it. *)
Definition validation_loader (env : Env) (cfg : Config) : DataLoader :=
  mkDataLoader
    (mkDataset (np_load_features env (validation_features_path cfg))
               (np_load_labels env (validation_labels_path cfg)))
    (test_batch_size cfg) false false.

(** The session as [_initialize_model] and [_load_data] leave it when only
    the validation loader is built. *)
Definition loaded (env : Env) (mc : ModelConfig) (s : Session) : Session :=
  set_num_validation_batches
    (Some (DataLoader_len (validation_loader env (_config s))))
    (set_data_loader "val" (validation_loader env (_config s))
       (set_lr_scheduler (create_learning_rate_scheduler env (mc_lr_scheduler mc))
          (set_model_training true s))).

(** ** Batch execution as pure functions of the session

    The events and the metrics a batch leaves behind, written out; the
    lemmas of the section on batch execution show that the methods compute
    exactly these. *)

Definition forward_events (fwd : forward_fun) (samples : nat) (q : Z) : list event :=
  match fwd with
  | default_forward_ref => [EvForward samples q]
  | amp_forward_ref => [EvAutocast; EvForward samples q]
  end.

Definition micro_events (s : Session) (x : list Features) (y_true : list Label)
    (q : Z) : list event :=
  forward_events (_forward s) (List.length x) q
  ++ (if _model_training s then [EvBackward (mixed_precision (_config s))] else [])
  ++ [EvUpdateMetrics (_model_training s) (Z.of_nat (List.length y_true))].

Definition observe (env : Env) (s : Session) (m : MetricsContainer)
    (x : list Features) (y_true : list Label) (q : Z) : MetricsContainer :=
  let y_pred := map (model env) x in
  (if _model_training s then update_training else update_validation) m
    (loss_function (cross_entropy env) y_pred y_true / inject_Z q)%Q
    y_pred y_true (Z.of_nat (List.length y_true)).

(** The slice of micro-batch [step] in [_single_batch_accum]. *)
Definition micro_batch {A : Type} (s : Session) (l : list A) (step : Z) : list A :=
  py_slice l (step * grad_accum_step (_config s))
    (step * grad_accum_step (_config s) + grad_accum_step (_config s)).

Definition batch_fun_events (s : Session) (features : list Features)
    (label : list Label) : list event :=
  match _batch_fun s with
  | single_batch_ref => micro_events s features label 1
  | single_batch_accum_ref =>
      flat_map (fun step =>
                  micro_events s (micro_batch s features step)
                    (micro_batch s label step)
                    (Z.of_nat (List.length (micro_batch s label step))))
        (py_range (_gradient_accumulation_steps s))
  end.

Definition batch_fun_metrics (env : Env) (s : Session)
    (features : list Features) (label : list Label) : MetricsContainer :=
  match _batch_fun s with
  | single_batch_ref => observe env s (_metrics s) features label 1
  | single_batch_accum_ref =>
      fold_left (fun m step =>
                   observe env s m (micro_batch s features step)
                     (micro_batch s label step)
                     (Z.of_nat (List.length (micro_batch s label step))))
        (py_range (_gradient_accumulation_steps s)) (_metrics s)
  end.

(** The parameter update that closes a training batch. *)
Definition update_events (s : Session) : list event :=
  if mixed_precision (_config s) then [EvScalerStep; EvScalerUpdate]
  else [EvOptimizerStep].

(** All batches of one pass over a loader, when every sample can be fetched. *)
Fixpoint fetch_all (ds : SkeletonDataset) (groups : list (list nat))
    : result (list Batch) :=
  match groups with
  | [] => inr []
  | idxs :: rest =>
      rbind (fetch_batch ds idxs) (fun b =>
      rbind (fetch_all ds rest) (fun bs => inr (b :: bs)))
  end.

Definition loader_batches (env : Env) (dl : DataLoader) : result (list Batch) :=
  fetch_all (dl_dataset dl) (loader_index_batches env dl).

Definition train_batch_events (s : Session) (b : Batch) : list event :=
  let '(features, label, _) := b in
  EvZeroGrad :: batch_fun_events s features label
    ++ update_events s ++ [EvUpdateEpochMode 0].

Definition validate_batch_events (mode : Z) (s : Session) (b : Batch) : list event :=
  let '(features, label, _) := b in
  batch_fun_events s features label ++ [EvUpdateEpochMode mode].

(** The metrics after batch [b], from metrics [m]. *)
Definition batch_metrics (env : Env) (s : Session) (m : MetricsContainer)
    (b : Batch) : MetricsContainer :=
  let '(features, label, _) := b in
  batch_fun_metrics env (set_metrics m s) features label.

(** Events of a pass over a loader: the batch events, the gradient reset,
    the parameter update and the progress update. *)
Definition is_pass_event (ev : event) : bool :=
  match ev with
  | EvModelTrain | EvModelEval | EvZeroGrad | EvOptimizerStep | EvScalerStep
  | EvScalerUpdate | EvUpdateEpochMode _ => true
  | _ => is_batch_event ev
  end.

Definition is_scheduler_step (ev : event) : bool :=
  match ev with
  | EvSchedulerStep => true
  | _ => false
  end.

(** The epochs a trace begins, in order. *)
Fixpoint begun_epochs (t : list event) : list Z :=
  match t with
  | [] => []
  | EvBeginEpoch epoch :: rest => epoch :: begun_epochs rest
  | _ :: rest => begun_epochs rest
  end.

(** A session is ready for the epoch loop when it has a type, both loaders
    are in place and every sample of both can be fetched. *)
Definition ready (env : Env) (s : Session) (ty : string)
    (train_batches val_batches : list Batch) : Prop :=
  _session_type s = Some ty /\
  (exists dl, dict_get (_data_loader s) "train" = inr dl /\
              loader_batches env dl = inr train_batches) /\
  (exists dl, dict_get (_data_loader s) "val" = inr dl /\
              loader_batches env dl = inr val_batches).

(** The state an epoch leaves behind: evaluation mode, metrics reset. *)
Definition after_epoch (s : Session) : Session :=
  set_metrics zero_metrics (set_model_training false s).

Definition train_pass_events (s : Session) (bs : list Batch) : list event :=
  EvModelTrain :: flat_map (train_batch_events (set_model_training true s)) bs.

Definition validation_pass_events (ty : string) (s : Session) (bs : list Batch)
    : list event :=
  EvModelEval
  :: flat_map (validate_batch_events (if String.eqb ty "training" then 1 else 0)
                 (set_model_training false s)) bs.

Definition epoch_close_events (s : Session) (epoch : Z) : list event :=
  EvEndEpoch
  :: (if _lr_scheduler s then [EvSchedulerStep] else [])
  ++ [if _reporter s then EvReporter epoch else EvSaveCheckpoint epoch;
      EvResetAll].

Definition epoch_events (s : Session) (ty : string)
    (train_batches val_batches : list Batch) (epoch : Z) : list event :=
  [EvLrUpdate; EvBeginEpoch epoch; EvBeginEpochMode 0]
  ++ train_pass_events s train_batches
  ++ [EvBeginEpochMode 1]
  ++ validation_pass_events ty s val_batches
  ++ epoch_close_events s epoch.

(** A session as construction and data loading are meant to leave it: both
    loaders over the six demo samples, the strategy as [__init__] selects it
    for [cfg], and a starting epoch as restored from a checkpoint. *)
Definition demo_loader (size : Z) (drop_last : bool) : DataLoader :=
  mkDataLoader
    (mkDataset (np_load_features demo_env "x.npy") (np_load_labels demo_env "y.npy"))
    size false drop_last.

Definition demo_session (cfg : Config) (starting_epoch : Z) : Session :=
  mkSession cfg "demo" false (Some (py_or (session_type cfg) "training"))
    "out/demo/logs" "out/demo/checkpoints" "out/demo/config.yaml"
    (if batch_size cfg =? grad_accum_step cfg
     then single_batch_ref else single_batch_accum_ref)
    (if batch_size cfg =? grad_accum_step cfg
     then 0 else batch_size cfg / grad_accum_step cfg)
    (if mixed_precision cfg then amp_forward_ref else default_forward_ref)
    (mixed_precision cfg) true true starting_epoch
    [("val", demo_loader (test_batch_size cfg) false);
     ("train", demo_loader (batch_size cfg) true)]
    (Some (DataLoader_len (demo_loader (batch_size cfg) true)))
    (Some (DataLoader_len (demo_loader (test_batch_size cfg) false)))
    zero_metrics false.

Definition is_forward (ev : event) : bool :=
  match ev with
  | EvForward _ _ => true
  | _ => false
  end.

Definition demo_batches (s : Session) (key : string) : list Batch :=
  match dict_get (_data_loader s) key with
  | inr dl =>
      match loader_batches demo_env dl with
      | inr bs => bs
      | inl _ => []
      end
  | inl _ => []
  end.

(** The number of samples a trace passes through the model. *)
Fixpoint forwarded_samples (t : list event) : nat :=
  match t with
  | [] => 0%nat
  | EvForward samples _ :: rest => (samples + forwarded_samples rest)%nat
  | _ :: rest => forwarded_samples rest
  end.

(** One batch of four samples, and two sessions that differ in the
    accumulation step size only: 4 (simple strategy) and 2 (accumulating). *)
Definition demo_features : list Features := [[1%Q]; [2%Q]; [3%Q]; [4%Q]].
Definition demo_labels : list Label := [0; 1; 0; 1].
Definition demo_simple : Session := demo_session (with_sizes 4 4 6 demo_config) 0.
Definition demo_accum : Session := demo_session (with_sizes 4 2 6 demo_config) 0.


(** The metrics of the mode the model is in. *)
Definition mode_of (training : bool) (m : MetricsContainer) : ModeMetrics :=
  if training then training_metrics m else validation_metrics m.

(** An environment whose saved configuration is [saved], whatever the
    session is constructed with. *)
Definition with_saved_configuration (saved : Config) (env : Env) : Env :=
  mkEnv (strftime env) (torch_version env) (path_join env)
    (fun _ _ => inr saved)
    (np_load_features env) (np_load_labels env) (sampler env) (model env)
    (cross_entropy env) (create_learning_rate_scheduler env) (load_latest env).

(** An environment whose checkpoint manager fails to load with [e]. *)
Definition without_checkpoint (e : exn) (env : Env) : Env :=
  mkEnv (strftime env) (torch_version env) (path_join env)
    (load_and_merge_configuration env)
    (np_load_features env) (np_load_labels env) (sampler env) (model env)
    (cross_entropy env) (create_learning_rate_scheduler env) (fun _ => inl e).

(** ** The program entry *)

(** How the [__main__] block ends. *)
Inductive main_end : Type :=
| ConstructionRaised (e : exn)
    (* [Session(cf)] raised [e] *)
| NameErrorAfterRayInit (session : Session)
    (* tuning: [ray.init] ran, then the argument of [tune.run] looks up the
       name [training_helper], which the module never imports *)
| Started (o : Outcome unit).
    (* [session.start()] ran, with this outcome *)

Record MainRun : Type := mkMainRun {
  seed_set : option Z;       (* the seed given to [torch_util.set_seed], if any *)
  main_ended : main_end
}.

(** The [__main__] block: set the seed when one is configured, construct the
    session from the configuration and, with [tuning], set up the search,
    otherwise start the session without arguments. *)
Definition main (env : Env) (cf : Config) : MainRun :=
  mkMainRun (fixed_seed cf)
    match Session__init__ env cf with
    | inl e => ConstructionRaised e
    | inr session =>
        if tuning cf then NameErrorAfterRayInit session
        else Started (start env None false session)
    end.

(** ** More classes of events *)

(** An event agrees with the precision setting [mixed]: autocast and the
    loss scaler appear only under mixed precision, the plain optimizer step
    only without it, and the backward pass is scaled exactly under it. *)
Definition follows_precision (mixed : bool) (ev : event) : bool :=
  match ev with
  | EvAutocast | EvScalerStep | EvScalerUpdate => mixed
  | EvOptimizerStep => negb mixed
  | EvBackward scaled => Bool.eqb scaled mixed
  | _ => true
  end.

Definition is_autocast (ev : event) : bool :=
  match ev with
  | EvAutocast => true
  | _ => false
  end.

(** Events of evaluation: anything but the gradient reset, the backward
    pass, a parameter update, the switch to training mode, or a metric update
    of the training mode. *)
Definition is_evaluation_event (ev : event) : bool :=
  match ev with
  | EvZeroGrad | EvBackward _ | EvOptimizerStep | EvScalerStep
  | EvScalerUpdate | EvModelTrain => false
  | EvUpdateMetrics training _ => negb training
  | _ => true
  end.

(** The epochs a trace saves a checkpoint for, and the ones it reports. *)
Fixpoint saved_epochs (t : list event) : list Z :=
  match t with
  | [] => []
  | EvSaveCheckpoint epoch :: rest => epoch :: saved_epochs rest
  | _ :: rest => saved_epochs rest
  end.

Fixpoint reported_epochs (t : list event) : list Z :=
  match t with
  | [] => []
  | EvReporter epoch :: rest => epoch :: reported_epochs rest
  | _ :: rest => reported_epochs rest
  end.

Definition with_epochs (n : Z) (c : Config) : Config :=
  mkConfig (session_id c) (session_type c) (debug c) (tuning c) (out_path c)
    (batch_size c) (grad_accum_step c) (test_batch_size c) (mixed_precision c)
    n (lr_scheduler c) (disable_shuffle c) (fixed_seed c)
    (training_features_path c) (training_labels_path c)
    (validation_features_path c) (validation_labels_path c).

Definition with_flags (is_debug is_tuning mixed : bool) (c : Config) : Config :=
  mkConfig (session_id c) (session_type c) is_debug is_tuning (out_path c)
    (batch_size c) (grad_accum_step c) (test_batch_size c) mixed
    (epochs c) (lr_scheduler c) (disable_shuffle c) (fixed_seed c)
    (training_features_path c) (training_labels_path c)
    (validation_features_path c) (validation_labels_path c).






(** * Properties *)

Unset Implicit Arguments.
Open Scope list_scope.

(** ** Construction *)

Section Construction.

Variable env : Env.

(** What [__init__] leaves behind, read off a successful construction. *)
Lemma init_inversion (config : Config) (s : Session) :
  Session__init__ env config = inr s ->
  (match session_id config with
   | None =>
       is_resume s = false /\ _config s = config /\
       _session_type s = Some (py_or (session_type config) "training")
   | Some sid =>
       is_resume s = true /\ _session_type s = None /\ _session_id s = sid /\
       load_and_merge_configuration env config (config_path s) = inr (_config s)
   end) /\
  (if batch_size (_config s) =? grad_accum_step (_config s)
   then _batch_fun s = single_batch_ref /\ _gradient_accumulation_steps s = 0
   else _batch_fun s = single_batch_accum_ref /\
        grad_accum_step (_config s) <> 0 /\
        _gradient_accumulation_steps s
          = batch_size (_config s) / grad_accum_step (_config s)) /\
  _data_loader s = [] /\ _starting_epoch s = 0 /\
  _loss_scale s = mixed_precision (_config s) /\
  _forward s = (if mixed_precision (_config s) then amp_forward_ref
                else default_forward_ref).
Proof.
  unfold Session__init__.
  destruct (session_id config) as [sid|] eqn:Hsid; cbn [rbind].
  - destruct (load_and_merge_configuration env config _) as [e|cfg] eqn:Hload;
      cbn [rbind]; [discriminate|].
    destruct (batch_size cfg =? grad_accum_step cfg) eqn:Heq; cbn [rbind].
    + destruct (mixed_precision cfg) eqn:Hmp; intros [= <-]; cbn;
        rewrite ?Heq, ?Hmp; auto 10.
    + unfold py_floordiv.
      destruct (grad_accum_step cfg =? 0) eqn:Hz; cbn [rbind]; [discriminate|].
      apply Z.eqb_neq in Hz.
      destruct (mixed_precision cfg) eqn:Hmp; intros [= <-]; cbn;
        rewrite ?Heq, ?Hmp; auto 10.
  - destruct (batch_size config =? grad_accum_step config) eqn:Heq; cbn [rbind].
    + destruct (mixed_precision config) eqn:Hmp; intros [= <-]; cbn;
        rewrite ?Heq, ?Hmp; auto 10.
    + unfold py_floordiv.
      destruct (grad_accum_step config =? 0) eqn:Hz; cbn [rbind]; [discriminate|].
      apply Z.eqb_neq in Hz.
      destruct (mixed_precision config) eqn:Hmp; intros [= <-]; cbn;
        rewrite ?Heq, ?Hmp; auto 10.
Qed.

(** A fresh configuration constructs unless the step size is 0 and differs
    from the batch size. *)
Lemma init_fresh_total (config : Config) :
  session_id config = None ->
  grad_accum_step config <> 0 \/ batch_size config = grad_accum_step config ->
  exists s, Session__init__ env config = inr s.
Proof.
  intros Hsid Hok. unfold Session__init__. rewrite Hsid. cbn [rbind].
  destruct (batch_size config =? grad_accum_step config) eqn:Heq; cbn [rbind].
  - destruct (mixed_precision config); eexists; reflexivity.
  - unfold py_floordiv.
    destruct (grad_accum_step config =? 0) eqn:Hz.
    + apply Z.eqb_eq in Hz. apply Z.eqb_neq in Heq. destruct Hok; congruence.
    + cbn [rbind]. destruct (mixed_precision config); eexists; reflexivity.
Qed.

(** A session that has a type was constructed fresh. *)
Lemma typed_session_is_fresh (config : Config) (s : Session) (ty : string) :
  Session__init__ env config = inr s ->
  _session_type s = Some ty ->
  is_resume s = false.
Proof.
  intros Hinit Hty. apply init_inversion in Hinit.
  destruct Hinit as [Hid _].
  destruct (session_id config); [|tauto].
  destruct Hid as (_ & Hnone & _). congruence.
Qed.

End Construction.

(** ** Running computations *)

(** Evaluation of the monad's primitives and of attribute reads. *)
Ltac run :=
  cbn [bind emit get modify ret raise lift value final emitted app
       _build_metrics _start_validation
       _config _session_id is_resume _session_type log_path checkpoint_path
       config_path _batch_fun _gradient_accumulation_steps _forward _loss_scale
       _model_training _lr_scheduler _starting_epoch _data_loader
       _num_training_batches _num_validation_batches _metrics _reporter
       set_model_training set_lr_scheduler set_starting_epoch set_data_loader
       set_num_training_batches set_num_validation_batches set_metrics
       set_reporter].

Section Running.

Context {A B : Type}.

Lemma bind_run_inr (m : M A) (k : A -> M B) (s s' : Session) (a : A)
    (t : list event) :
  m s = mkOutcome (inr a) s' t ->
  bind m k s
  = mkOutcome (value (k a s')) (final (k a s')) (t ++ emitted (k a s')).
Proof. intros H. unfold bind. rewrite H. reflexivity. Qed.

Lemma bind_run_inl (m : M A) (k : A -> M B) (s s' : Session) (e : exn)
    (t : list event) :
  m s = mkOutcome (inl e) s' t ->
  bind m k s = mkOutcome (inl e) s' t.
Proof. intros H. unfold bind. rewrite H. reflexivity. Qed.

Lemma bind_ok (m : M A) (k : A -> M B) (s s' s'' : Session) (a : A)
    (v : result B) (t t' : list event) :
  m s = mkOutcome (inr a) s' t ->
  k a s' = mkOutcome v s'' t' ->
  bind m k s = mkOutcome v s'' (t ++ t').
Proof. intros H H'. unfold bind. rewrite H. cbn. rewrite H'. reflexivity. Qed.

Lemma bind_err (m : M A) (k : A -> M B) (s s' : Session) (e : exn)
    (t : list event) :
  m s = mkOutcome (inl e) s' t ->
  bind m k s = mkOutcome (inl e) s' t.
Proof. intros H. unfold bind. rewrite H. reflexivity. Qed.

Lemma outcome_eta (o : Outcome A) :
  mkOutcome (value o) (final o) (emitted o) = o.
Proof. destruct o; reflexivity. Qed.

End Running.

(** Attribute reads through attribute assignments. *)
Ltac simp_state :=
  cbn [_config _session_id is_resume _session_type log_path checkpoint_path
       config_path _batch_fun _gradient_accumulation_steps _forward _loss_scale
       _model_training _lr_scheduler _starting_epoch _data_loader
       _num_training_batches _num_validation_batches _metrics _reporter
       set_model_training set_lr_scheduler set_starting_epoch set_data_loader
       set_num_training_batches set_num_validation_batches set_metrics
       set_reporter].

(** One step of a sequence whose first computation is a primitive. *)
Ltac prim := eapply bind_ok; [reflexivity | simp_state].

(** ** start(): model initialisation and data loading *)

Section Start.

Variable env : Env.

Lemma initialize_model_fresh (s : Session) (mc : ModelConfig) :
  is_resume s = false ->
  _initialize_model env (Some mc) s
  = mkOutcome (inr tt)
      (set_lr_scheduler (create_learning_rate_scheduler env (mc_lr_scheduler mc))
         (set_model_training true s))
      init_events.
Proof.
  intros Hfresh. unfold _initialize_model. cbn. rewrite Hfresh. cbn.
  destruct (String.eqb (lr_scheduler (_config s)) "onecycle"); reflexivity.
Qed.

Lemma initialize_model_resume (s : Session) (mc : ModelConfig) (cp_epoch : Z) :
  is_resume s = true ->
  load_latest env (checkpoint_path s) = inr cp_epoch ->
  _initialize_model env (Some mc) s
  = mkOutcome (inr tt)
      (set_starting_epoch (cp_epoch + 1)
         (set_lr_scheduler (create_learning_rate_scheduler env (mc_lr_scheduler mc))
            (set_model_training true s)))
      (init_events ++ [EvLoadLatest]).
Proof.
  intros Hres Hcp. unfold _initialize_model. cbn. rewrite Hres. cbn.
  rewrite Hcp. cbn.
  destruct (String.eqb (lr_scheduler (_config s)) "onecycle"); reflexivity.
Qed.

Lemma initialize_model_none (s : Session) :
  _initialize_model env None s
  = mkOutcome (inl (TypeError "'NoneType' object is not subscriptable"))
      (set_model_training true s)
      (firstn 5 init_events).
Proof. reflexivity. Qed.

Lemma getattr_session_type_some (s : Session) (ty : string) :
  _session_type s = Some ty ->
  getattr_session_type s = mkOutcome (inr ty) s [].
Proof. intros H. unfold getattr_session_type. rewrite H. reflexivity. Qed.

Lemma getattr_session_type_none (s : Session) :
  _session_type s = None ->
  getattr_session_type s = mkOutcome (inl (AttributeError "_session_type")) s [].
Proof. intros H. unfold getattr_session_type. rewrite H. reflexivity. Qed.

Lemma load_data_untyped (s : Session) :
  _session_type s = None ->
  _load_data env s = mkOutcome (inl (AttributeError "_session_type")) s [].
Proof.
  intros Hty. unfold _load_data.
  apply bind_run_inl. now apply getattr_session_type_none.
Qed.

Lemma load_data_training (s : Session) :
  _session_type s = Some "training" ->
  _load_data env s
  = mkOutcome (inl (TypeError "__init__() takes 3 positional arguments")) s [].
Proof.
  intros Hty. unfold _load_data.
  erewrite bind_run_inr by (apply getattr_session_type_some, Hty).
  reflexivity.
Qed.

Lemma load_data_other (s : Session) (ty : string) :
  _session_type s = Some ty ->
  String.eqb ty "training" = false ->
  0 < test_batch_size (_config s) ->
  _load_data env s
  = mkOutcome (inr tt)
      (set_num_validation_batches
         (Some (DataLoader_len (validation_loader env (_config s))))
         (set_data_loader "val" (validation_loader env (_config s)) s))
      [EvDataLoader "val" (test_batch_size (_config s)) false false].
Proof.
  intros Hty Hne Hpos. unfold _load_data.
  erewrite bind_run_inr by (apply getattr_session_type_some, Hty).
  assert (Hle : (test_batch_size (_config s) <=? 0) = false)
    by (apply Z.leb_gt; lia).
  cbn. rewrite Hne. cbn. unfold DataLoader_new. rewrite Hle. reflexivity.
Qed.

Lemma print_summary_other (s : Session) (ty : string) (n : Z) :
  _session_type s = Some ty ->
  String.eqb ty "training" = false ->
  _num_validation_batches s = Some n ->
  print_summary s = mkOutcome (inr tt) s [EvPrintSummary].
Proof.
  intros Hty Hne Hn. unfold print_summary.
  erewrite bind_run_inr by (apply getattr_session_type_some, Hty).
  run. rewrite Hne, Hn. reflexivity.
Qed.

(** [start] on a fresh session whose type is not "training": everything up
    to the dispatch runs, then the type decides. *)
Lemma start_other (s : Session) (mc : ModelConfig) (r : bool) (ty : string) :
  is_resume s = false ->
  _session_type s = Some ty ->
  String.eqb ty "training" = false ->
  0 < test_batch_size (_config s) ->
  start env (Some mc) r s
  = if String.eqb ty "validation"
    then mkOutcome (inr tt)
           (set_metrics zero_metrics (set_reporter r (loaded env mc s)))
           (init_events
              ++ EvDataLoader "val" (test_batch_size (_config s)) false false
              :: prologue_events (tuning (_config s)) ty
              ++ EvEndSession :: (if tuning (_config s) then [EvCloseLog] else []))
    else mkOutcome (inl (ValueError (String.append "Unknown session type " ty)))
           (set_metrics zero_metrics (set_reporter r (loaded env mc s)))
           (init_events
              ++ EvDataLoader "val" (test_batch_size (_config s)) false false
              :: prologue_events (tuning (_config s)) ty).
Proof.
  intros Hfresh Hty Hne Hpos.
  destruct (tuning (_config s)) eqn:Htun;
    destruct (String.eqb ty "validation") eqn:Hval.
  - etransitivity.
    { unfold start, _build_metrics.
      eapply bind_ok; [apply initialize_model_fresh, Hfresh|].
      eapply bind_ok;
        [eapply load_data_other; [exact Hty|exact Hne|exact Hpos]|].
      prim. rewrite Htun.
      prim. prim. prim. prim. eapply bind_ok; [prim; reflexivity|]. prim.
      eapply bind_ok; [apply getattr_session_type_some; exact Hty|].
      prim. rewrite Hne, Hval.
      eapply bind_ok; [reflexivity|]. prim. reflexivity. }
    reflexivity.
  - etransitivity.
    { unfold start, _build_metrics.
      eapply bind_ok; [apply initialize_model_fresh, Hfresh|].
      eapply bind_ok;
        [eapply load_data_other; [exact Hty|exact Hne|exact Hpos]|].
      prim. rewrite Htun.
      prim. prim. prim. prim. eapply bind_ok; [prim; reflexivity|]. prim.
      eapply bind_ok; [apply getattr_session_type_some; exact Hty|].
      prim. rewrite Hne, Hval.
      apply bind_err. reflexivity. }
    reflexivity.
  - etransitivity.
    { unfold start, _build_metrics.
      eapply bind_ok; [apply initialize_model_fresh, Hfresh|].
      eapply bind_ok;
        [eapply load_data_other; [exact Hty|exact Hne|exact Hpos]|].
      prim. rewrite Htun.
      eapply bind_ok;
        [eapply print_summary_other; [exact Hty|exact Hne|reflexivity]|].
      prim. prim. prim. eapply bind_ok; [prim; reflexivity|]. prim.
      eapply bind_ok; [apply getattr_session_type_some; exact Hty|].
      prim. rewrite Hne, Hval.
      eapply bind_ok; [reflexivity|]. prim. reflexivity. }
    reflexivity.
  - etransitivity.
    { unfold start, _build_metrics.
      eapply bind_ok; [apply initialize_model_fresh, Hfresh|].
      eapply bind_ok;
        [eapply load_data_other; [exact Hty|exact Hne|exact Hpos]|].
      prim. rewrite Htun.
      eapply bind_ok;
        [eapply print_summary_other; [exact Hty|exact Hne|reflexivity]|].
      prim. prim. prim. eapply bind_ok; [prim; reflexivity|]. prim.
      eapply bind_ok; [apply getattr_session_type_some; exact Hty|].
      prim. rewrite Hne, Hval.
      apply bind_err. reflexivity. }
    reflexivity.
Qed.

Lemma prologue_has_no_batch_event (is_tuning : bool) (ty : string) :
  Forall (fun ev => is_batch_event ev = false) (prologue_events is_tuning ty).
Proof. destruct is_tuning; repeat constructor. Qed.

Lemma init_events_have_no_batch_event :
  Forall (fun ev => is_batch_event ev = false) init_events.
Proof. repeat constructor. Qed.

(** The dataset constructor refuses a third positional argument, whatever
    the arguments are. *)
Lemma dataset_rejects_third_positional (a b c : pyarg)
    (kwargs : list (string * pyarg)) :
  SkeletonDataset__init__ env [a; b; c] kwargs
  = inl (TypeError "__init__() takes 3 positional arguments").
Proof. destruct a, b; reflexivity. Qed.

End Start.

(** ** Claims about construction and start() *)

(** C3, as the code behaves: construction makes no check of the ratio of
    batch size and accumulation step size.  A fresh configuration with a
    non-zero step size (or equal sizes) always constructs; the simple
    strategy is selected when the sizes are equal, and otherwise the
    accumulating strategy with the floor of batch_size / grad_accum_step
    micro-batches, which is the exact ratio when the division is exact. *)
Theorem init_selects_strategy_without_ratio_check (env : Env) (config : Config) :
  session_id config = None ->
  grad_accum_step config <> 0 \/ batch_size config = grad_accum_step config ->
  exists s,
    Session__init__ env config = inr s /\
    _config s = config /\
    (if batch_size config =? grad_accum_step config
     then _batch_fun s = single_batch_ref /\ _gradient_accumulation_steps s = 0
     else _batch_fun s = single_batch_accum_ref /\
          _gradient_accumulation_steps s
            = batch_size config / grad_accum_step config /\
          (batch_size config mod grad_accum_step config = 0 ->
           _gradient_accumulation_steps s * grad_accum_step config
             = batch_size config)).
Proof.
  intros Hsid Hok.
  destruct (init_fresh_total env config Hsid Hok) as [s Hs].
  exists s. split; [exact Hs|].
  apply init_inversion in Hs. rewrite Hsid in Hs.
  destruct Hs as ((_ & Hcfg & _) & Hstrat & _).
  split; [exact Hcfg|].
  rewrite Hcfg in Hstrat.
  destruct (batch_size config =? grad_accum_step config); [exact Hstrat|].
  destruct Hstrat as (Hfun & Hnz & Hsteps).
  repeat split; try assumption.
  intros Hmod. rewrite Hsteps.
  rewrite Z.mul_comm. symmetry. apply Z.div_exact; assumption.
Qed.

Lemma init_selects_strategy_without_ratio_check_witness :
  exists s,
    Session__init__ demo_env (with_sizes 10 4 6 demo_config) = inr s /\
    _config s = with_sizes 10 4 6 demo_config /\
    _batch_fun s = single_batch_accum_ref /\
    _gradient_accumulation_steps s = 10 / 4 /\
    (10 mod 4 = 0 -> _gradient_accumulation_steps s * 4 = 10).
Proof.
  apply (init_selects_strategy_without_ratio_check demo_env
           (with_sizes 10 4 6 demo_config)).
  - reflexivity.
  - left. simpl. lia.
Defined.

(** C3, counterexample: batch size 10 is no multiple of step size 4, and the
    session constructs, with the accumulating strategy and 2 micro-batches. *)
Lemma init_accepts_inexact_ratio :
  batch_size (with_sizes 10 4 6 demo_config)
    mod grad_accum_step (with_sizes 10 4 6 demo_config) <> 0 /\
  exists s,
    Session__init__ demo_env (with_sizes 10 4 6 demo_config) = inr s /\
    _batch_fun s = single_batch_accum_ref /\
    _gradient_accumulation_steps s = 2.
Proof.
  split.
  - vm_compute. discriminate.
  - eexists. split; [reflexivity|]. split; reflexivity.
Qed.

(** C7, as the code behaves: a session whose type is neither "training" nor
    "validation", started with a model configuration, fails with
    [ValueError "Unknown session type ..."] at the dispatch of [start]:
    after model construction, data loading, metrics set-up, the saving of
    the configuration and [begin_session], and before any batch executes. *)
Theorem start_unknown_type_fails_at_dispatch (env : Env) (config : Config)
    (s : Session) (mc : ModelConfig) (reporter : bool) (ty : string) :
  Session__init__ env config = inr s ->
  _session_type s = Some ty ->
  ty <> "training" ->
  ty <> "validation" ->
  0 < test_batch_size (_config s) ->
  value (start env (Some mc) reporter s)
    = inl (ValueError (String.append "Unknown session type " ty)) /\
  emitted (start env (Some mc) reporter s)
    = init_events
      ++ EvDataLoader "val" (test_batch_size (_config s)) false false
      :: prologue_events (tuning (_config s)) ty /\
  Forall (fun ev => is_batch_event ev = false)
    (emitted (start env (Some mc) reporter s)).
Proof.
  intros Hinit Hty Htrain Hval Hpos.
  apply String.eqb_neq in Htrain. apply String.eqb_neq in Hval.
  rewrite (start_other env s mc reporter ty
             (typed_session_is_fresh env config s ty Hinit Hty) Hty Htrain Hpos).
  rewrite Hval. cbn [value emitted].
  repeat split.
  apply Forall_app. split; [apply init_events_have_no_batch_event|].
  constructor; [reflexivity|apply prologue_has_no_batch_event].
Qed.

Lemma start_unknown_type_fails_at_dispatch_witness :
  exists s,
    Session__init__ demo_env (with_session_type (Some "foo") demo_config) = inr s /\
    value (start demo_env (Some demo_model_config) false s)
      = inl (ValueError "Unknown session type foo") /\
    emitted (start demo_env (Some demo_model_config) false s)
      = init_events
        ++ EvDataLoader "val" 6 false false :: prologue_events false "foo" /\
    Forall (fun ev => is_batch_event ev = false)
      (emitted (start demo_env (Some demo_model_config) false s)).
Proof.
  eexists. split; [reflexivity|].
  lazymatch goal with
  | |- context [start _ _ _ ?s] =>
      refine (start_unknown_type_fails_at_dispatch demo_env
                (with_session_type (Some "foo") demo_config) s
                demo_model_config false "foo" eq_refl eq_refl _ _ _)
  end.
  - discriminate.
  - discriminate.
  - simpl. lia.
Defined.

(** C7, counterexample: for the session type "foo" the error is raised only
    after the model was constructed and the validation data was loaded. *)
Lemma start_unknown_type_after_model_and_data :
  exists s,
    Session__init__ demo_env (with_session_type (Some "foo") demo_config) = inr s /\
    value (start demo_env (Some demo_model_config) false s)
      = inl (ValueError "Unknown session type foo") /\
    In EvModelConstruct (emitted (start demo_env (Some demo_model_config) false s)) /\
    In (EvDataLoader "val" 6 false false)
       (emitted (start demo_env (Some demo_model_config) false s)).
Proof.
  eexists. split; [reflexivity|].
  split; [reflexivity|].
  split; vm_compute; tauto.
Qed.

(** C8, what the code does: for a session of type "validation" started with
    a model configuration, [start] returns normally without a validation
    pass: the model is never put in evaluation mode, no batch is run, and
    the metrics stay as they were created. *)
Theorem start_validation_runs_no_pass (env : Env) (config : Config)
    (s : Session) (mc : ModelConfig) (reporter : bool) :
  Session__init__ env config = inr s ->
  _session_type s = Some "validation" ->
  0 < test_batch_size (_config s) ->
  value (start env (Some mc) reporter s) = inr tt /\
  emitted (start env (Some mc) reporter s)
    = init_events
      ++ EvDataLoader "val" (test_batch_size (_config s)) false false
      :: prologue_events (tuning (_config s)) "validation"
      ++ EvEndSession :: (if tuning (_config s) then [EvCloseLog] else []) /\
  Forall (fun ev => is_batch_event ev = false)
    (emitted (start env (Some mc) reporter s)) /\
  ~ In EvModelEval (emitted (start env (Some mc) reporter s)) /\
  _metrics (final (start env (Some mc) reporter s)) = zero_metrics.
Proof.
  intros Hinit Hty Hpos.
  rewrite (start_other env s mc reporter "validation"
             (typed_session_is_fresh env config s _ Hinit Hty) Hty
             eq_refl Hpos).
  cbn [String.eqb Ascii.eqb Bool.eqb value emitted final].
  repeat split.
  - apply Forall_app. split; [apply init_events_have_no_batch_event|].
    constructor; [reflexivity|].
    apply Forall_app. split; [apply prologue_has_no_batch_event|].
    destruct (tuning (_config s)); repeat constructor.
  - unfold init_events, prologue_events.
    destruct (tuning (_config s)); cbn; intuition discriminate.
Qed.

Lemma start_validation_runs_no_pass_witness :
  exists s,
    Session__init__ demo_env (with_session_type (Some "validation") demo_config)
      = inr s /\
    loader_index_batches demo_env (validation_loader demo_env (_config s))
      = [[0; 1; 2; 3; 4; 5]]%nat /\
    value (start demo_env (Some demo_model_config) false s) = inr tt /\
    emitted (start demo_env (Some demo_model_config) false s)
      = init_events
        ++ EvDataLoader "val" 6 false false
        :: prologue_events false "validation" ++ [EvEndSession] /\
    Forall (fun ev => is_batch_event ev = false)
      (emitted (start demo_env (Some demo_model_config) false s)) /\
    ~ In EvModelEval (emitted (start demo_env (Some demo_model_config) false s)) /\
    _metrics (final (start demo_env (Some demo_model_config) false s))
      = zero_metrics.
Proof.
  eexists. split; [reflexivity|]. split; [reflexivity|].
  lazymatch goal with
  | |- context [start _ _ _ ?s] =>
      refine (start_validation_runs_no_pass demo_env
                (with_session_type (Some "validation") demo_config) s
                demo_model_config false eq_refl eq_refl _)
  end.
  simpl. lia.
Defined.

Section StartFailures.

Variable env : Env.

Lemma start_without_model_config (s : Session) (reporter : bool) :
  start env None reporter s
  = mkOutcome (inl (TypeError "'NoneType' object is not subscriptable"))
      (set_model_training true s) (firstn 5 init_events).
Proof. unfold start. apply bind_err. apply initialize_model_none. Qed.

Lemma start_training_fresh (s : Session) (mc : ModelConfig) (reporter : bool) :
  is_resume s = false ->
  _session_type s = Some "training" ->
  start env (Some mc) reporter s
  = mkOutcome (inl (TypeError "__init__() takes 3 positional arguments"))
      (set_lr_scheduler (create_learning_rate_scheduler env (mc_lr_scheduler mc))
         (set_model_training true s))
      init_events.
Proof.
  intros Hfresh Hty. etransitivity.
  - unfold start.
    eapply bind_ok; [apply initialize_model_fresh, Hfresh|].
    apply bind_err. apply load_data_training. exact Hty.
  - reflexivity.
Qed.

Lemma start_resumed (s : Session) (mc : ModelConfig) (reporter : bool)
    (cp_epoch : Z) :
  is_resume s = true ->
  _session_type s = None ->
  load_latest env (checkpoint_path s) = inr cp_epoch ->
  start env (Some mc) reporter s
  = mkOutcome (inl (AttributeError "_session_type"))
      (set_starting_epoch (cp_epoch + 1)
         (set_lr_scheduler (create_learning_rate_scheduler env (mc_lr_scheduler mc))
            (set_model_training true s)))
      (init_events ++ [EvLoadLatest]).
Proof.
  intros Hres Hty Hcp. etransitivity.
  - unfold start.
    eapply bind_ok; [apply initialize_model_resume; [exact Hres|exact Hcp]|].
    apply bind_err. apply load_data_untyped. exact Hty.
  - rewrite app_nil_r. reflexivity.
Qed.

End StartFailures.

(** C9, as the code behaves: a session of type "training" that is started
    with a model configuration raises [TypeError] in [_load_data], from the
    call of [SkeletonDataset] with three positional arguments: the trace ends
    with model initialisation, no data loader exists and no batch was run. *)
Theorem start_training_raises_type_error (env : Env) (config : Config)
    (s : Session) (mc : ModelConfig) (reporter : bool) :
  Session__init__ env config = inr s ->
  _session_type s = Some "training" ->
  SkeletonDataset__init__ env
    [PStr (training_features_path (_config s));
     PStr (training_labels_path (_config s));
     PBool (debug (_config s))] []
    = inl (TypeError "__init__() takes 3 positional arguments") /\
  value (start env (Some mc) reporter s)
    = inl (TypeError "__init__() takes 3 positional arguments") /\
  emitted (start env (Some mc) reporter s) = init_events /\
  _data_loader (final (start env (Some mc) reporter s)) = [] /\
  Forall (fun ev => is_batch_event ev = false)
    (emitted (start env (Some mc) reporter s)).
Proof.
  intros Hinit Hty.
  rewrite (start_training_fresh env s mc reporter
             (typed_session_is_fresh env config s _ Hinit Hty) Hty).
  cbn [value emitted final].
  apply init_inversion in Hinit.
  destruct Hinit as (_ & _ & Hdl & _).
  repeat split.
  - exact Hdl.
  - apply init_events_have_no_batch_event.
Qed.

Lemma start_training_raises_type_error_witness :
  exists s,
    Session__init__ demo_env demo_config = inr s /\
    SkeletonDataset__init__ demo_env
      [PStr "train_x.npy"; PStr "train_y.npy"; PBool false] []
      = inl (TypeError "__init__() takes 3 positional arguments") /\
    value (start demo_env (Some demo_model_config) false s)
      = inl (TypeError "__init__() takes 3 positional arguments") /\
    emitted (start demo_env (Some demo_model_config) false s) = init_events /\
    _data_loader (final (start demo_env (Some demo_model_config) false s)) = [] /\
    Forall (fun ev => is_batch_event ev = false)
      (emitted (start demo_env (Some demo_model_config) false s)).
Proof.
  eexists. split; [reflexivity|].
  lazymatch goal with
  | |- context [start _ _ _ ?s] =>
      exact (start_training_raises_type_error demo_env demo_config s
               demo_model_config false eq_refl eq_refl)
  end.
Defined.

(** C9, counterexample: [start()] without a model configuration on a
    session of type "training" raises its [TypeError] in [_initialize_model],
    when the missing configuration is subscripted: the optimizer was not yet
    created and data loading was never entered. *)
Lemma start_training_without_model_config :
  exists s,
    Session__init__ demo_env demo_config = inr s /\
    _session_type s = Some "training" /\
    value (start demo_env None false s)
      = inl (TypeError "'NoneType' object is not subscriptable") /\
    emitted (start demo_env None false s)
      = [EvImportDatasetConstants; EvGraph; EvImportModel; EvModelConstruct;
         EvLossFunction] /\
    value (start demo_env None false s)
      <> inl (TypeError "__init__() takes 3 positional arguments").
Proof.
  eexists. split; [reflexivity|]. split; [reflexivity|].
  rewrite start_without_model_config. cbn [value emitted].
  split; [reflexivity|]. split; [reflexivity|]. discriminate.
Qed.

(** C10, as the code behaves: a resumed session that is started with a model
    configuration and whose latest checkpoint loads raises
    [AttributeError] for [_session_type], which [__init__] never assigned:
    the first read, in [_load_data], fails right after the checkpoint was
    loaded and before any data is loaded. *)
Theorem start_resumed_raises_attribute_error (env : Env) (config : Config)
    (sid : string) (s : Session) (mc : ModelConfig) (reporter : bool)
    (cp_epoch : Z) :
  session_id config = Some sid ->
  Session__init__ env config = inr s ->
  load_latest env (checkpoint_path s) = inr cp_epoch ->
  _session_type s = None /\
  value (start env (Some mc) reporter s) = inl (AttributeError "_session_type") /\
  emitted (start env (Some mc) reporter s) = init_events ++ [EvLoadLatest] /\
  _starting_epoch (final (start env (Some mc) reporter s)) = cp_epoch + 1 /\
  _data_loader (final (start env (Some mc) reporter s)) = [].
Proof.
  intros Hsid Hinit Hcp.
  apply init_inversion in Hinit. rewrite Hsid in Hinit.
  destruct Hinit as ((Hres & Hty & _) & _ & Hdl & _).
  rewrite (start_resumed env s mc reporter cp_epoch Hres Hty Hcp).
  cbn [value emitted final].
  repeat split; assumption.
Qed.

Lemma start_resumed_raises_attribute_error_witness :
  exists s,
    Session__init__ demo_env (with_session_id (Some "old") demo_config) = inr s /\
    _session_type s = None /\
    value (start demo_env (Some demo_model_config) false s)
      = inl (AttributeError "_session_type") /\
    emitted (start demo_env (Some demo_model_config) false s)
      = init_events ++ [EvLoadLatest] /\
    _starting_epoch (final (start demo_env (Some demo_model_config) false s))
      = 3 + 1 /\
    _data_loader (final (start demo_env (Some demo_model_config) false s)) = [].
Proof.
  eexists. split; [reflexivity|].
  lazymatch goal with
  | |- context [start _ _ _ ?s] =>
      exact (start_resumed_raises_attribute_error demo_env
               (with_session_id (Some "old") demo_config) "old" s
               demo_model_config false 3 eq_refl eq_refl eq_refl)
  end.
Defined.

(** C10, counterexample: [start()] without a model configuration on a
    resumed session raises [TypeError] in [_initialize_model]; the read of
    [_session_type] is never reached. *)
Lemma start_resumed_without_model_config :
  exists s,
    Session__init__ demo_env (with_session_id (Some "old") demo_config) = inr s /\
    is_resume s = true /\
    value (start demo_env None false s)
      = inl (TypeError "'NoneType' object is not subscriptable") /\
    value (start demo_env None false s) <> inl (AttributeError "_session_type").
Proof.
  eexists. split; [reflexivity|]. split; [reflexivity|].
  rewrite start_without_model_config. cbn [value].
  split; [reflexivity|discriminate].
Qed.

(** ** Batch execution *)

Section Batches.
Variable env : Env.

Lemma set_metrics_same (s : Session) : set_metrics (_metrics s) s = s.
Proof. destruct s; reflexivity. Qed.

Lemma call_forward_run (s : Session) (x : list Features) (y : list Label) (q : Z) :
  call_forward env x y q s
  = mkOutcome
      (inr (map (model env) x,
            (loss_function (cross_entropy env) (map (model env) x) y / inject_Z q)%Q))
      s (forward_events (_forward s) (List.length x) q).
Proof.
  unfold call_forward.
  destruct (_forward s) eqn:Hfwd.
  - etransitivity.
    + prim. rewrite Hfwd. unfold _default_forward. prim. reflexivity.
    + reflexivity.
  - etransitivity.
    + prim. rewrite Hfwd. unfold _amp_forward, _default_forward.
      prim. prim. reflexivity.
    + reflexivity.
Qed.

Lemma backward_run (s : Session) (loss : Q) :
  _backward loss s
  = mkOutcome (inr tt) s [EvBackward (mixed_precision (_config s))].
Proof.
  unfold _backward.
  destruct (mixed_precision (_config s)) eqn:Hmp.
  - etransitivity; [prim; rewrite Hmp; reflexivity|reflexivity].
  - etransitivity; [prim; rewrite Hmp; reflexivity|reflexivity].
Qed.

Lemma update_metrics_run (s : Session) (training : bool) (loss : Q)
    (y_pred : list Prediction) (label : list Label) (count : Z) :
  call_update_metrics training loss y_pred label count s
  = mkOutcome (inr tt)
      (set_metrics ((if training then update_training else update_validation)
                      (_metrics s) loss y_pred label count) s)
      [EvUpdateMetrics training count].
Proof.
  unfold call_update_metrics.
  etransitivity; [prim; prim; reflexivity|reflexivity].
Qed.

(** One forward/backward/update round on the slice [(x, y)] with loss
    quotient [q]: the body shared by both batch functions. *)
Lemma micro_step_run (s : Session) (x : list Features) (y : list Label) (q : Z) :
  (r <- call_forward env x y q ;;
   let '(y_pred, loss) := r in
   s' <- get ;;
   (if _model_training s' then _backward loss else ret tt) ;;;
   call_update_metrics (_model_training s') loss y_pred y
     (Z.of_nat (List.length y)))%session s
  = mkOutcome (inr tt) (set_metrics (observe env s (_metrics s) x y q) s)
      (micro_events s x y q).
Proof.
  unfold micro_events, observe.
  destruct (_model_training s) eqn:Htr.
  - etransitivity.
    + eapply bind_ok; [apply call_forward_run|].
      cbv beta iota. prim. rewrite Htr.
      eapply bind_ok; [apply backward_run|].
      apply update_metrics_run.
    + reflexivity.
  - etransitivity.
    + eapply bind_ok; [apply call_forward_run|].
      cbv beta iota. prim. rewrite Htr.
      prim.
      apply update_metrics_run.
    + reflexivity.
Qed.

Lemma single_batch_run (s : Session) (features : list Features)
    (label : list Label) :
  _single_batch env features label s
  = mkOutcome (inr tt)
      (set_metrics (observe env s (_metrics s) features label 1) s)
      (micro_events s features label 1).
Proof. apply micro_step_run. Qed.

(** A loop whose body has a closed form under an invariant of the session,
    and whose events do not depend on what the body changes. *)
Lemma for_each_run {A : Type} (Inv : Session -> Prop) (body : A -> M unit)
    (upd : A -> Session -> Session) (ev : A -> Session -> list event) :
  (forall x s, Inv s -> body x s = mkOutcome (inr tt) (upd x s) (ev x s)) ->
  (forall x s, Inv s -> Inv (upd x s)) ->
  (forall x y s, Inv s -> ev x (upd y s) = ev x s) ->
  forall (l : list A) (s : Session),
    Inv s ->
    for_each l body s
    = mkOutcome (inr tt) (fold_left (fun s x => upd x s) l s)
        (flat_map (fun x => ev x s) l).
Proof.
  intros Hbody Hinv Hev l. induction l as [|x l IH]; intros s Hs.
  - reflexivity.
  - cbn [for_each fold_left flat_map].
    erewrite bind_ok; [|apply Hbody, Hs|apply IH, Hinv, Hs].
    f_equal. f_equal. apply flat_map_ext. intros y. apply Hev, Hs.
Qed.

Lemma fold_left_ext {A B : Type} (f g : A -> B -> A) (l : list B) (a : A) :
  (forall a b, f a b = g a b) -> fold_left f l a = fold_left g l a.
Proof.
  intros H. revert a. induction l as [|b l IH]; intros a; [reflexivity|].
  cbn [fold_left]. rewrite H. apply IH.
Qed.

Lemma fold_set_metrics {A : Type}
    (g : Session -> MetricsContainer -> A -> MetricsContainer)
    (l : list A) (s : Session) :
  (forall s m' m x, g (set_metrics m' s) m x = g s m x) ->
  fold_left (fun s x => set_metrics (g s (_metrics s) x) s) l s
  = set_metrics (fold_left (g s) l (_metrics s)) s.
Proof.
  intros Hg. revert s. induction l as [|x l IH]; intros s.
  - symmetry. apply set_metrics_same.
  - cbn [fold_left]. rewrite IH.
    rewrite (fold_left_ext _ (g s)) by (intros; apply Hg).
    reflexivity.
Qed.

Lemma single_batch_accum_run (s : Session) (features : list Features)
    (label : list Label) :
  _single_batch_accum env features label s
  = mkOutcome (inr tt)
      (set_metrics
         (fold_left (fun m step =>
                       observe env s m (micro_batch s features step)
                         (micro_batch s label step)
                         (Z.of_nat (List.length (micro_batch s label step))))
            (py_range (_gradient_accumulation_steps s)) (_metrics s)) s)
      (flat_map (fun step =>
                   micro_events s (micro_batch s features step)
                     (micro_batch s label step)
                     (Z.of_nat (List.length (micro_batch s label step))))
         (py_range (_gradient_accumulation_steps s))).
Proof.
  unfold _single_batch_accum.
  etransitivity.
  - prim.
    apply (for_each_run (fun _ => True) _
             (fun step s =>
                set_metrics
                  (observe env s (_metrics s) (micro_batch s features step)
                     (micro_batch s label step)
                     (Z.of_nat (List.length (micro_batch s label step)))) s)
             (fun step s =>
                micro_events s (micro_batch s features step)
                  (micro_batch s label step)
                  (Z.of_nat (List.length (micro_batch s label step))))).
    + intros step s' _.
      etransitivity; [prim; apply micro_step_run|reflexivity].
    + trivial.
    + reflexivity.
    + exact I.
  - cbn [app]. f_equal.
    apply (fold_set_metrics
             (fun s m step =>
                observe env s m (micro_batch s features step)
                  (micro_batch s label step)
                  (Z.of_nat (List.length (micro_batch s label step))))).
    reflexivity.
Qed.

Lemma call_batch_fun_run (s : Session) (features : list Features)
    (label : list Label) :
  call_batch_fun env features label s
  = mkOutcome (inr tt)
      (set_metrics (batch_fun_metrics env s features label) s)
      (batch_fun_events s features label).
Proof.
  unfold call_batch_fun, batch_fun_metrics, batch_fun_events.
  destruct (_batch_fun s) eqn:Hfun.
  - etransitivity; [prim; rewrite Hfun; apply single_batch_run|reflexivity].
  - etransitivity; [prim; rewrite Hfun; apply single_batch_accum_run|reflexivity].
Qed.

Lemma train_batch_run (s : Session) (b : Batch) :
  train_batch env b s
  = mkOutcome (inr tt) (set_metrics (batch_metrics env s (_metrics s) b) s)
      (train_batch_events s b).
Proof.
  destruct b as [[features label] indices].
  unfold train_batch, train_batch_events, batch_metrics, update_events.
  destruct (mixed_precision (_config s)) eqn:Hmp.
  - etransitivity.
    + prim. eapply bind_ok; [apply call_batch_fun_run|].
      prim. rewrite Hmp.
      eapply bind_ok; [prim; reflexivity|]. reflexivity.
    + reflexivity.
  - etransitivity.
    + prim. eapply bind_ok; [apply call_batch_fun_run|].
      prim. rewrite Hmp. prim. reflexivity.
    + reflexivity.
Qed.

Lemma validate_batch_run (mode : Z) (s : Session) (b : Batch) :
  validate_batch env mode b s
  = mkOutcome (inr tt) (set_metrics (batch_metrics env s (_metrics s) b) s)
      (validate_batch_events mode s b).
Proof.
  destruct b as [[features label] indices].
  unfold validate_batch, validate_batch_events, batch_metrics.
  etransitivity.
  - eapply bind_ok; [apply call_batch_fun_run|]. reflexivity.
  - reflexivity.
Qed.

Lemma bind_ret_l {A B : Type} (a : A) (k : A -> M B) (s : Session) :
  bind (ret a) k s = k a s.
Proof. unfold bind. cbn. apply outcome_eta. Qed.

Lemma bind_ext {A B : Type} (m m' : M A) (k k' : A -> M B) (s : Session) :
  (forall s, m s = m' s) ->
  (forall a s, k a s = k' a s) ->
  bind m k s = bind m' k' s.
Proof.
  intros Hm Hk. unfold bind. rewrite Hm.
  destruct (value (m' s)); [reflexivity|]. rewrite Hk. reflexivity.
Qed.

Lemma for_batches_run (dl : DataLoader) (bs : list Batch)
    (body : Batch -> M unit) (s : Session) :
  loader_batches env dl = inr bs ->
  for_batches env dl body s = for_each bs body s.
Proof.
  unfold loader_batches, for_batches.
  revert bs s.
  induction (loader_index_batches env dl) as [|idxs groups IH]; intros bs s.
  - intros [= <-]. reflexivity.
  - cbn [fetch_all for_each].
    destruct (fetch_batch (dl_dataset dl) idxs) as [e|b]; cbn [rbind];
      [discriminate|].
    destruct (fetch_all (dl_dataset dl) groups) as [e|bs'] eqn:Hrest;
      cbn [rbind]; [discriminate|].
    intros [= <-]. cbn [for_each lift].
    apply bind_ext.
    + intros s0. apply bind_ret_l.
    + intros _ s0. apply IH. reflexivity.
Qed.

Lemma batches_run (body : Batch -> M unit) (ev : Session -> Batch -> list event)
    (bs : list Batch) (s : Session) :
  (forall b s, body b s
     = mkOutcome (inr tt) (set_metrics (batch_metrics env s (_metrics s) b) s)
         (ev s b)) ->
  (forall b m s, ev (set_metrics m s) b = ev s b) ->
  for_each bs body s
  = mkOutcome (inr tt)
      (set_metrics (fold_left (batch_metrics env s) bs (_metrics s)) s)
      (flat_map (ev s) bs).
Proof.
  intros Hbody Hev.
  rewrite (for_each_run (fun _ => True) body
             (fun b s => set_metrics (batch_metrics env s (_metrics s) b) s)
             (fun b s => ev s b) (fun b s _ => Hbody b s) (fun _ _ _ => I)
             (fun x y s _ => Hev x _ s) bs s I).
  f_equal.
  apply (fold_set_metrics (batch_metrics env)).
  intros s0 m' m [[f l] i]. reflexivity.
Qed.

End Batches.

(** ** Epochs *)

Section Epochs.
Variable env : Env.

Lemma train_epoch_run (s : Session) (dl : DataLoader) (bs : list Batch) :
  dict_get (_data_loader s) "train" = inr dl ->
  loader_batches env dl = inr bs ->
  _train_epoch env s
  = mkOutcome (inr tt)
      (set_metrics
         (fold_left (batch_metrics env (set_model_training true s)) bs (_metrics s))
         (set_model_training true s))
      (train_pass_events s bs).
Proof.
  intros Hdl Hbs. unfold _train_epoch, train_pass_events.
  etransitivity.
  - prim. prim. prim. rewrite Hdl. prim.
    rewrite (for_batches_run env dl bs _ _ Hbs).
    apply (batches_run env (train_batch env) train_batch_events).
    + intros b s0. apply train_batch_run.
    + intros [[f l] i] m s0. reflexivity.
  - reflexivity.
Qed.

Lemma validate_epoch_run (s : Session) (ty : string) (dl : DataLoader)
    (bs : list Batch) :
  _session_type s = Some ty ->
  dict_get (_data_loader s) "val" = inr dl ->
  loader_batches env dl = inr bs ->
  _validate_epoch env s
  = mkOutcome (inr tt)
      (set_metrics
         (fold_left (batch_metrics env (set_model_training false s)) bs (_metrics s))
         (set_model_training false s))
      (validation_pass_events ty s bs).
Proof.
  intros Hty Hdl Hbs. unfold _validate_epoch, validation_pass_events.
  etransitivity.
  - prim. prim.
    eapply bind_ok; [apply getattr_session_type_some; exact Hty|].
    prim. rewrite Hdl. prim.
    rewrite (for_batches_run env dl bs _ _ Hbs).
    apply (batches_run env
             (validate_batch env (if String.eqb ty "training" then 1 else 0))
             (validate_batch_events (if String.eqb ty "training" then 1 else 0))).
    + intros b s0. apply validate_batch_run.
    + intros [[f l] i] m s0. reflexivity.
  - reflexivity.
Qed.

Lemma training_epoch_run (s : Session) (ty : string)
    (train_batches val_batches : list Batch) (epoch : Z) :
  ready env s ty train_batches val_batches ->
  training_epoch env epoch s
  = mkOutcome (inr tt) (after_epoch s)
      (epoch_events s ty train_batches val_batches epoch).
Proof.
  intros (Hty & (dlt & Hdlt & Hbt) & (dlv & Hdlv & Hbv)).
  unfold training_epoch, epoch_events, epoch_close_events.
  destruct (_lr_scheduler s) eqn:Hsched; destruct (_reporter s) eqn:Hrep.
  all: etransitivity;
    [ prim; prim; prim;
      (eapply bind_ok; [eapply train_epoch_run; [exact Hdlt|exact Hbt]|]);
      prim;
      (eapply bind_ok;
         [eapply validate_epoch_run; [exact Hty|exact Hdlv|exact Hbv]|]);
      prim; prim; simp_state; rewrite Hsched, Hrep; prim; prim; prim;
      reflexivity
    | reflexivity ].
Qed.

Lemma ready_after_epoch (s : Session) (ty : string)
    (train_batches val_batches : list Batch) :
  ready env s ty train_batches val_batches ->
  ready env (after_epoch s) ty train_batches val_batches.
Proof. intros H. exact H. Qed.

Lemma start_training_run (s : Session) (ty : string)
    (train_batches val_batches : list Batch) :
  ready env s ty train_batches val_batches ->
  _start_training env s
  = mkOutcome (inr tt)
      (fold_left (fun s _ => after_epoch s) (py_range (epochs (_config s))) s)
      (flat_map (epoch_events s ty train_batches val_batches)
         (py_range (epochs (_config s)))
       ++ [EvSaveWeights]).
Proof.
  intros Hready. unfold _start_training. etransitivity.
  - prim.
    eapply bind_ok; [|reflexivity].
    apply (for_each_run (fun s => ready env s ty train_batches val_batches)
             (training_epoch env) (fun _ s => after_epoch s)
             (fun epoch s => epoch_events s ty train_batches val_batches epoch)).
    + intros epoch s0 H0. apply training_epoch_run, H0.
    + intros _ s0 H0. apply ready_after_epoch, H0.
    + intros epoch _ s0 _. reflexivity.
    + exact Hready.
  - reflexivity.
Qed.

End Epochs.

(** ** Classes of events *)

Lemma micro_events_are_batch_events (s : Session) (x : list Features)
    (y : list Label) (q : Z) :
  Forall (fun ev => is_batch_event ev = true) (micro_events s x y q).
Proof.
  unfold micro_events, forward_events.
  destruct (_forward s), (_model_training s); repeat constructor.
Qed.

Lemma Forall_flat_map_intro {A B : Type} (P : B -> Prop) (f : A -> list B)
    (l : list A) :
  (forall x, Forall P (f x)) -> Forall P (flat_map f l).
Proof.
  intros H. induction l as [|x l IH]; cbn [flat_map].
  - constructor.
  - apply Forall_app. split; [apply H|exact IH].
Qed.

Lemma batch_fun_events_are_batch_events (s : Session)
    (features : list Features) (label : list Label) :
  Forall (fun ev => is_batch_event ev = true) (batch_fun_events s features label).
Proof.
  unfold batch_fun_events. destruct (_batch_fun s).
  - apply micro_events_are_batch_events.
  - apply Forall_flat_map_intro. intros step.
    apply micro_events_are_batch_events.
Qed.

Lemma batch_event_is_pass_event (ev : event) :
  is_batch_event ev = true -> is_pass_event ev = true.
Proof. destruct ev; cbn; congruence. Qed.

Lemma train_batch_events_are_pass_events (s : Session) (b : Batch) :
  Forall (fun ev => is_pass_event ev = true) (train_batch_events s b).
Proof.
  destruct b as [[features label] indices]. unfold train_batch_events.
  constructor; [reflexivity|].
  apply Forall_app. split.
  - eapply Forall_impl; [|apply batch_fun_events_are_batch_events].
    apply batch_event_is_pass_event.
  - unfold update_events. destruct (mixed_precision (_config s));
      repeat constructor.
Qed.

Lemma validate_batch_events_are_pass_events (mode : Z) (s : Session) (b : Batch) :
  Forall (fun ev => is_pass_event ev = true) (validate_batch_events mode s b).
Proof.
  destruct b as [[features label] indices]. unfold validate_batch_events.
  apply Forall_app. split.
  - eapply Forall_impl; [|apply batch_fun_events_are_batch_events].
    apply batch_event_is_pass_event.
  - repeat constructor.
Qed.

Lemma train_pass_events_are_pass_events (s : Session) (bs : list Batch) :
  Forall (fun ev => is_pass_event ev = true) (train_pass_events s bs).
Proof.
  unfold train_pass_events. constructor; [reflexivity|].
  apply Forall_flat_map_intro. intros b.
  apply train_batch_events_are_pass_events.
Qed.

Lemma validation_pass_events_are_pass_events (ty : string) (s : Session)
    (bs : list Batch) :
  Forall (fun ev => is_pass_event ev = true) (validation_pass_events ty s bs).
Proof.
  unfold validation_pass_events. constructor; [reflexivity|].
  apply Forall_flat_map_intro. intros b.
  apply validate_batch_events_are_pass_events.
Qed.

Lemma pass_event_is_no_scheduler_step (ev : event) :
  is_pass_event ev = true -> is_scheduler_step ev = false.
Proof. destruct ev; cbn; congruence. Qed.

Lemma begun_epochs_app (t t' : list event) :
  begun_epochs (t ++ t') = begun_epochs t ++ begun_epochs t'.
Proof.
  induction t as [|ev t IH]; [reflexivity|].
  destruct ev; cbn [app begun_epochs]; rewrite IH; reflexivity.
Qed.

Lemma begun_epochs_pass (t : list event) :
  Forall (fun ev => is_pass_event ev = true) t -> begun_epochs t = [].
Proof.
  induction 1 as [|ev t Hev _ IH]; [reflexivity|].
  destruct ev; cbn in Hev; try discriminate; cbn [begun_epochs]; exact IH.
Qed.

Lemma filter_none {A : Type} (f : A -> bool) (l : list A) :
  Forall (fun x => f x = false) l -> filter f l = [].
Proof.
  induction 1 as [|x l Hx _ IH]; [reflexivity|].
  cbn [filter]. rewrite Hx. exact IH.
Qed.

Lemma begun_epochs_epoch (s : Session) (ty : string)
    (train_batches val_batches : list Batch) (epoch : Z) :
  begun_epochs (epoch_events s ty train_batches val_batches epoch) = [epoch].
Proof.
  unfold epoch_events, epoch_close_events.
  rewrite !begun_epochs_app.
  rewrite (begun_epochs_pass _ (train_pass_events_are_pass_events s _)).
  rewrite (begun_epochs_pass _ (validation_pass_events_are_pass_events ty s _)).
  destruct (_lr_scheduler s), (_reporter s); reflexivity.
Qed.

Lemma scheduler_steps_epoch (s : Session) (ty : string)
    (train_batches val_batches : list Batch) (epoch : Z) :
  filter is_scheduler_step (epoch_events s ty train_batches val_batches epoch)
  = if _lr_scheduler s then [EvSchedulerStep] else [].
Proof.
  unfold epoch_events, epoch_close_events.
  rewrite !filter_app.
  rewrite (filter_none is_scheduler_step (train_pass_events s train_batches)).
  2:{ eapply Forall_impl; [|apply train_pass_events_are_pass_events].
      apply pass_event_is_no_scheduler_step. }
  rewrite (filter_none is_scheduler_step (validation_pass_events ty s val_batches)).
  2:{ eapply Forall_impl; [|apply validation_pass_events_are_pass_events].
      apply pass_event_is_no_scheduler_step. }
  destruct (_lr_scheduler s), (_reporter s); reflexivity.
Qed.

Lemma length_py_range (n : Z) : List.length (py_range n) = Z.to_nat n.
Proof. unfold py_range. rewrite length_map, length_seq. reflexivity. Qed.
Lemma scheduler_steps_of_epochs (s : Session) (ty : string)
    (train_batches val_batches : list Batch) (l : list Z) :
  filter is_scheduler_step
    (flat_map (epoch_events s ty train_batches val_batches) l ++ [EvSaveWeights])
  = repeat EvSchedulerStep (if _lr_scheduler s then List.length l else 0%nat).
Proof.
  rewrite filter_app. cbn [filter is_scheduler_step]. rewrite app_nil_r.
  induction l as [|epoch l IH]; cbn [flat_map].
  - destruct (_lr_scheduler s); reflexivity.
  - rewrite filter_app, IH, scheduler_steps_epoch.
    destruct (_lr_scheduler s); reflexivity.
Qed.

Lemma begun_epochs_of_epochs (s : Session) (ty : string)
    (train_batches val_batches : list Batch) (l : list Z) :
  begun_epochs
    (flat_map (epoch_events s ty train_batches val_batches) l ++ [EvSaveWeights])
  = l.
Proof.
  rewrite begun_epochs_app. cbn [begun_epochs]. rewrite app_nil_r.
  induction l as [|epoch l IH]; cbn [flat_map]; [reflexivity|].
  rewrite begun_epochs_app, IH, begun_epochs_epoch. reflexivity.
Qed.

(** C1, what the code does: the epoch loop of [_start_training] is
    [range(epochs)]; on a session that is ready to train it begins the
    epochs 0, 1, ..., epochs - 1, whatever [_starting_epoch] holds. *)
Theorem epoch_loop_ignores_starting_epoch (env : Env) (s : Session)
    (ty : string) (train_batches val_batches : list Batch) :
  ready env s ty train_batches val_batches ->
  value (_start_training env s) = inr tt /\
  begun_epochs (emitted (_start_training env s))
    = py_range (epochs (_config s)).
Proof.
  intros Hready.
  rewrite (start_training_run env s ty train_batches val_batches Hready).
  cbn [value emitted]. split; [reflexivity|].
  apply begun_epochs_of_epochs.
Qed.

Lemma epoch_loop_ignores_starting_epoch_witness :
  _starting_epoch (demo_session demo_config 4) = 4 /\
  value (_start_training demo_env (demo_session demo_config 4)) = inr tt /\
  begun_epochs (emitted (_start_training demo_env (demo_session demo_config 4)))
    = [0; 1; 2; 3; 4; 5; 6; 7; 8; 9].
Proof.
  split; [reflexivity|].
  refine (epoch_loop_ignores_starting_epoch demo_env (demo_session demo_config 4)
            "training"
            (demo_batches (demo_session demo_config 4) "train")
            (demo_batches (demo_session demo_config 4) "val") _).
  split; [reflexivity|].
  split; eexists; (split; [reflexivity|vm_compute; reflexivity]).
Defined.

(** C5: on a session that is ready to train, every epoch completes and its
    trace is the training pass, the validation pass, [end_epoch], then the
    step of the schedule if there is one, then the report or the checkpoint,
    then the reset of the metrics; neither pass steps the schedule.  Over
    the whole loop the schedule is stepped once per epoch, and never when no
    schedule is configured. *)
Theorem scheduler_steps_once_per_epoch_after_validation (env : Env)
    (s : Session) (ty : string) (train_batches val_batches : list Batch) :
  ready env s ty train_batches val_batches ->
  (forall epoch,
     value (training_epoch env epoch s) = inr tt /\
     emitted (training_epoch env epoch s)
     = [EvLrUpdate; EvBeginEpoch epoch; EvBeginEpochMode 0]
       ++ emitted (_train_epoch env s)
       ++ [EvBeginEpochMode 1]
       ++ emitted (_validate_epoch env (final (_train_epoch env s)))
       ++ [EvEndEpoch]
       ++ (if _lr_scheduler s then [EvSchedulerStep] else [])
       ++ [if _reporter s then EvReporter epoch else EvSaveCheckpoint epoch;
           EvResetAll]) /\
  Forall (fun ev => is_scheduler_step ev = false) (emitted (_train_epoch env s)) /\
  Forall (fun ev => is_scheduler_step ev = false)
    (emitted (_validate_epoch env (final (_train_epoch env s)))) /\
  value (_start_training env s) = inr tt /\
  filter is_scheduler_step (emitted (_start_training env s))
  = repeat EvSchedulerStep
      (if _lr_scheduler s then Z.to_nat (epochs (_config s)) else 0%nat).
Proof.
  intros Hready.
  pose proof Hready as (Hty & (dlt & Hdlt & Hbt) & (dlv & Hdlv & Hbv)).
  rewrite (start_training_run env s ty train_batches val_batches Hready).
  rewrite (train_epoch_run env s dlt train_batches Hdlt Hbt).
  cbn [value emitted final].
  erewrite validate_epoch_run; [|exact Hty|exact Hdlv|exact Hbv].
  cbn [value emitted final].
  split; [|split; [|split; [|split]]].
  - intros epoch.
    rewrite (training_epoch_run env s ty train_batches val_batches epoch Hready).
    cbn [value emitted]. split; reflexivity.
  - eapply Forall_impl; [|apply train_pass_events_are_pass_events].
    apply pass_event_is_no_scheduler_step.
  - eapply Forall_impl; [|apply validation_pass_events_are_pass_events].
    apply pass_event_is_no_scheduler_step.
  - reflexivity.
  - rewrite scheduler_steps_of_epochs, length_py_range. reflexivity.
Qed.

Lemma scheduler_steps_once_per_epoch_after_validation_witness :
  _lr_scheduler (demo_session demo_config 0) = true /\
  (forall epoch,
     value (training_epoch demo_env epoch (demo_session demo_config 0)) = inr tt /\
     emitted (training_epoch demo_env epoch (demo_session demo_config 0))
     = [EvLrUpdate; EvBeginEpoch epoch; EvBeginEpochMode 0]
       ++ emitted (_train_epoch demo_env (demo_session demo_config 0))
       ++ [EvBeginEpochMode 1]
       ++ emitted (_validate_epoch demo_env
                     (final (_train_epoch demo_env (demo_session demo_config 0))))
       ++ [EvEndEpoch; EvSchedulerStep; EvSaveCheckpoint epoch; EvResetAll]) /\
  Forall (fun ev => is_scheduler_step ev = false)
    (emitted (_train_epoch demo_env (demo_session demo_config 0))) /\
  Forall (fun ev => is_scheduler_step ev = false)
    (emitted (_validate_epoch demo_env
                (final (_train_epoch demo_env (demo_session demo_config 0))))) /\
  value (_start_training demo_env (demo_session demo_config 0)) = inr tt /\
  filter is_scheduler_step
    (emitted (_start_training demo_env (demo_session demo_config 0)))
  = repeat EvSchedulerStep 10.
Proof.
  split; [reflexivity|].
  refine (scheduler_steps_once_per_epoch_after_validation demo_env
            (demo_session demo_config 0) "training"
            (demo_batches (demo_session demo_config 0) "train")
            (demo_batches (demo_session demo_config 0) "val") _).
  split; [reflexivity|].
  split; eexists; (split; [reflexivity|vm_compute; reflexivity]).
Defined.

Lemma forward_count_micro (s : Session) (x : list Features) (y : list Label)
    (q : Z) :
  List.length (filter is_forward (micro_events s x y q)) = 1%nat.
Proof.
  unfold micro_events, forward_events.
  destruct (_forward s), (_model_training s); reflexivity.
Qed.

Lemma forward_count_batch (s : Session) (features : list Features)
    (label : list Label) :
  List.length (filter is_forward (batch_fun_events s features label))
  = match _batch_fun s with
    | single_batch_ref => 1%nat
    | single_batch_accum_ref => Z.to_nat (_gradient_accumulation_steps s)
    end.
Proof.
  unfold batch_fun_events. destruct (_batch_fun s).
  - apply forward_count_micro.
  - rewrite <- length_py_range.
    induction (py_range (_gradient_accumulation_steps s)) as [|step l IH];
      [reflexivity|].
    cbn [flat_map]. rewrite filter_app, length_app, forward_count_micro, IH.
    reflexivity.
Qed.

(** C4: a training pass whose loader yields the batches [bs] completes, and
    its trace is the trace of [train_batch] for every batch in turn.  For
    every batch, the trace of [train_batch] is: one [zero_grad], then the
    events of the batch function (only forward, backward and metric updates;
    one forward pass per micro-batch), then one parameter update (loss-scaler
    step and update under mixed precision, else one optimizer step), then
    the progress update. *)
Theorem train_batch_zeroes_once_updates_once (env : Env) (s : Session)
    (dl : DataLoader) (bs : list Batch) :
  dict_get (_data_loader s) "train" = inr dl ->
  loader_batches env dl = inr bs ->
  value (_train_epoch env s) = inr tt /\
  emitted (_train_epoch env s)
  = EvModelTrain
    :: flat_map (fun b => emitted (train_batch env b (set_model_training true s))) bs /\
  forall (s' : Session) (features : list Features) (label : list Label)
         (indices : list nat),
    value (train_batch env (features, label, indices) s') = inr tt /\
    emitted (train_batch env (features, label, indices) s')
    = EvZeroGrad
      :: emitted (call_batch_fun env features label s')
      ++ (if mixed_precision (_config s') then [EvScalerStep; EvScalerUpdate]
          else [EvOptimizerStep])
      ++ [EvUpdateEpochMode 0] /\
    Forall (fun ev => is_batch_event ev = true)
      (emitted (call_batch_fun env features label s')) /\
    List.length (filter is_forward (emitted (call_batch_fun env features label s')))
    = match _batch_fun s' with
      | single_batch_ref => 1%nat
      | single_batch_accum_ref => Z.to_nat (_gradient_accumulation_steps s')
      end.
Proof.
  intros Hdl Hbs.
  rewrite (train_epoch_run env s dl bs Hdl Hbs). cbn [value emitted].
  split; [reflexivity|]. split.
  - unfold train_pass_events. f_equal. apply flat_map_ext. intros b.
    rewrite train_batch_run. reflexivity.
  - intros s' features label indices.
    rewrite train_batch_run, call_batch_fun_run. cbn [value emitted].
    split; [reflexivity|]. split; [reflexivity|]. split.
    + apply batch_fun_events_are_batch_events.
    + apply forward_count_batch.
Qed.

Lemma train_batch_zeroes_once_updates_once_witness :
  value (_train_epoch demo_env (demo_session demo_config 0)) = inr tt /\
  emitted (_train_epoch demo_env (demo_session demo_config 0))
  = EvModelTrain
    :: flat_map (fun b => emitted (train_batch demo_env b
                                     (set_model_training true
                                        (demo_session demo_config 0))))
         (demo_batches (demo_session demo_config 0) "train") /\
  forall (s' : Session) (features : list Features) (label : list Label)
         (indices : list nat),
    value (train_batch demo_env (features, label, indices) s') = inr tt /\
    emitted (train_batch demo_env (features, label, indices) s')
    = EvZeroGrad
      :: emitted (call_batch_fun demo_env features label s')
      ++ (if mixed_precision (_config s') then [EvScalerStep; EvScalerUpdate]
          else [EvOptimizerStep])
      ++ [EvUpdateEpochMode 0] /\
    Forall (fun ev => is_batch_event ev = true)
      (emitted (call_batch_fun demo_env features label s')) /\
    List.length (filter is_forward
                   (emitted (call_batch_fun demo_env features label s')))
    = match _batch_fun s' with
      | single_batch_ref => 1%nat
      | single_batch_accum_ref => Z.to_nat (_gradient_accumulation_steps s')
      end.
Proof.
  refine (train_batch_zeroes_once_updates_once demo_env
            (demo_session demo_config 0)
            (demo_loader 4 true)
            (demo_batches (demo_session demo_config 0) "train") _ _).
  - reflexivity.
  - vm_compute. reflexivity.
Defined.

Example train_epoch_demo_trace :
  emitted (_train_epoch demo_env (demo_session demo_config 0))
  = [EvModelTrain; EvZeroGrad;
     EvForward 2 2; EvBackward false; EvUpdateMetrics true 2;
     EvForward 2 2; EvBackward false; EvUpdateMetrics true 2;
     EvOptimizerStep; EvUpdateEpochMode 0].
Proof. vm_compute. reflexivity. Qed.

(** ** Micro-batch slices *)

Section Slices.

Context {A : Type}.

Lemma firstn_plus (n m : nat) (l : list A) :
  firstn (n + m) l = firstn n l ++ firstn m (skipn n l).
Proof.
  revert l. induction n as [|n IH]; intros l; [reflexivity|].
  destruct l as [|x l]; cbn [Nat.add firstn skipn app].
  - rewrite firstn_nil. reflexivity.
  - rewrite IH. reflexivity.
Qed.

(** A slice [l[lo : lo + a]] with non-negative bounds is a window of [a]
    elements after the first [lo], cut off at the end of [l]. *)
Lemma py_slice_window (l : list A) (lo a : Z) :
  0 <= lo -> 0 <= a ->
  py_slice l lo (lo + a) = firstn (Z.to_nat a) (skipn (Z.to_nat lo) l).
Proof.
  intros Hlo Ha. unfold py_slice, slice_bound.
  destruct (Z.ltb_spec lo 0) as [|_]; [lia|].
  destruct (Z.ltb_spec (lo + a) 0) as [|_]; [lia|].
  set (len := Z.of_nat (List.length l)).
  destruct (Z.le_gt_cases len lo) as [Hout|Hin].
  - rewrite (Z.min_r lo len), (Z.min_r (lo + a) len) by lia.
    rewrite Z.sub_diag. cbn [Z.to_nat firstn].
    rewrite skipn_all2 by (subst len; lia).
    rewrite firstn_nil. reflexivity.
  - rewrite (Z.min_l lo len) by lia.
    destruct (Z.le_gt_cases len (lo + a)) as [Hshort|Hlong].
    + rewrite (Z.min_r (lo + a) len) by lia.
      rewrite !firstn_all2; [reflexivity| |];
        rewrite length_skipn; subst len; lia.
    + rewrite (Z.min_l (lo + a) len) by lia.
      f_equal. lia.
Qed.

Lemma windows_concat (a : nat) (l : list A) (k : nat) :
  List.concat (map (fun i => firstn a (skipn (i * a) l)) (seq 0 k))
  = firstn (k * a) l.
Proof.
  induction k as [|k IH]; [reflexivity|].
  rewrite seq_S, map_app, concat_app, IH. cbn [Nat.add map List.concat].
  rewrite app_nil_r.
  replace (S k * a)%nat with (k * a + a)%nat by lia.
  symmetry. apply firstn_plus.
Qed.

(** The micro-batches of [_single_batch_accum] are, one after the other, the
    first [steps * grad_accum_step] elements of the batch. *)
Lemma micro_batches_concat (s : Session) (l : list A) :
  0 <= grad_accum_step (_config s) ->
  List.concat (map (micro_batch s l) (py_range (_gradient_accumulation_steps s)))
  = firstn (Z.to_nat (_gradient_accumulation_steps s)
            * Z.to_nat (grad_accum_step (_config s))) l.
Proof.
  intros Hstep. unfold py_range. rewrite map_map.
  rewrite <- windows_concat. f_equal.
  apply map_ext. intros i. unfold micro_batch.
  rewrite py_slice_window by lia.
  f_equal. f_equal. lia.
Qed.

End Slices.

Lemma forwarded_samples_app (t t' : list event) :
  forwarded_samples (t ++ t')
  = (forwarded_samples t + forwarded_samples t')%nat.
Proof.
  induction t as [|ev t IH]; [reflexivity|].
  destruct ev; cbn [app forwarded_samples]; rewrite IH; lia.
Qed.

Lemma forwarded_samples_micro (s : Session) (x : list Features)
    (y : list Label) (q : Z) :
  forwarded_samples (micro_events s x y q) = List.length x.
Proof.
  unfold micro_events, forward_events.
  destruct (_forward s), (_model_training s); cbn; lia.
Qed.

Lemma forwarded_samples_accum (s : Session) (features : list Features)
    (label : list Label) (steps : list Z) :
  forwarded_samples
    (flat_map (fun step =>
                 micro_events s (micro_batch s features step)
                   (micro_batch s label step)
                   (Z.of_nat (List.length (micro_batch s label step))))
       steps)
  = List.length (List.concat (map (micro_batch s features) steps)).
Proof.
  induction steps as [|step steps IH]; [reflexivity|].
  cbn [flat_map map List.concat].
  rewrite forwarded_samples_app, length_app, forwarded_samples_micro, IH.
  reflexivity.
Qed.

(** C6, what the code does: with the accumulating strategy the micro-batch
    slices of any batch are the first
    [_gradient_accumulation_steps * grad_accum_step] elements of the batch,
    however long the batch is; that many samples at most go through the
    model. *)
Theorem accum_slices_cover_fixed_prefix (env : Env) (s : Session)
    (features : list Features) (label : list Label) :
  _batch_fun s = single_batch_accum_ref ->
  0 <= grad_accum_step (_config s) ->
  List.concat (map (micro_batch s features)
            (py_range (_gradient_accumulation_steps s)))
  = firstn (Z.to_nat (_gradient_accumulation_steps s)
            * Z.to_nat (grad_accum_step (_config s))) features /\
  forwarded_samples (emitted (call_batch_fun env features label s))
  = Nat.min (Z.to_nat (_gradient_accumulation_steps s)
             * Z.to_nat (grad_accum_step (_config s)))
      (List.length features).
Proof.
  intros Hfun Hstep. split.
  - apply micro_batches_concat, Hstep.
  - rewrite call_batch_fun_run. cbn [emitted].
    unfold batch_fun_events. rewrite Hfun.
    rewrite forwarded_samples_accum, micro_batches_concat by exact Hstep.
    apply length_firstn.
Qed.

Lemma accum_slices_cover_fixed_prefix_witness :
  test_batch_size (_config (demo_session demo_config 0)) = 6 /\
  List.concat (map (micro_batch (demo_session demo_config 0)
                 [[1%Q]; [2%Q]; [3%Q]; [4%Q]; [5%Q]; [6%Q]])
            (py_range (_gradient_accumulation_steps (demo_session demo_config 0))))
  = firstn (2 * 2) [[1%Q]; [2%Q]; [3%Q]; [4%Q]; [5%Q]; [6%Q]] /\
  forwarded_samples
    (emitted (call_batch_fun demo_env
                [[1%Q]; [2%Q]; [3%Q]; [4%Q]; [5%Q]; [6%Q]] [0; 1; 0; 1; 0; 1]
                (demo_session demo_config 0)))
  = Nat.min (2 * 2) 6.
Proof.
  split; [reflexivity|].
  refine (accum_slices_cover_fixed_prefix demo_env (demo_session demo_config 0)
            [[1%Q]; [2%Q]; [3%Q]; [4%Q]; [5%Q]; [6%Q]] [0; 1; 0; 1; 0; 1] _ _).
  - reflexivity.
  - simpl. lia.
Defined.

(** The validation pass of the demo session: the loader yields one batch of
    [test_batch_size = 6] samples, and the two micro-batches of two samples
    that [batch_size = 4] and [grad_accum_step = 2] give leave the last two
    samples out. *)
Example validation_batch_left_unprocessed :
  Forall (fun b => batch_len b = 6%nat)
    (demo_batches (demo_session demo_config 0) "val") /\
  emitted (_validate_epoch demo_env (demo_session demo_config 0))
  = [EvModelEval; EvForward 2 2; EvUpdateMetrics false 2;
     EvForward 2 2; EvUpdateMetrics false 2; EvUpdateEpochMode 1] /\
  forwarded_samples
    (emitted (_validate_epoch demo_env (demo_session demo_config 0))) = 4%nat.
Proof. vm_compute. repeat constructor. Qed.

(** With [test_batch_size = 3] the second slice is [2:4]: its end lies
    beyond the batch, and the slice holds one sample. *)
Example validation_slice_end_beyond_batch :
  emitted (_validate_epoch demo_env
             (demo_session (with_sizes 4 2 3 demo_config) 0))
  = [EvModelEval;
     EvForward 2 2; EvUpdateMetrics false 2;
     EvForward 1 1; EvUpdateMetrics false 1; EvUpdateEpochMode 1;
     EvForward 2 2; EvUpdateMetrics false 2;
     EvForward 1 1; EvUpdateMetrics false 1; EvUpdateEpochMode 1].
Proof. vm_compute. reflexivity. Qed.

(** A batch of the configured size with an exact ratio is covered exactly. *)
Lemma accum_covers_full_batch (s : Session) (features : list Features) :
  0 < grad_accum_step (_config s) ->
  0 <= batch_size (_config s) ->
  batch_size (_config s) mod grad_accum_step (_config s) = 0 ->
  _gradient_accumulation_steps s
    = batch_size (_config s) / grad_accum_step (_config s) ->
  Z.of_nat (List.length features) = batch_size (_config s) ->
  List.concat (map (micro_batch s features)
            (py_range (_gradient_accumulation_steps s)))
  = features.
Proof.
  intros Hstep Hsize Hmod Hsteps Hlen.
  rewrite micro_batches_concat by lia.
  apply firstn_all2.
  apply Z.div_exact in Hmod; [|lia].
  rewrite <- Hsteps in Hmod.
  assert (0 <= _gradient_accumulation_steps s)
    by (rewrite Hsteps; apply Z.div_pos; lia).
  nia.
Qed.

(** ** Metrics of one batch under the two strategies *)

(** ** Aggregation *)

Lemma inject_Z_nonzero (z : Z) : z <> 0 -> ~ (inject_Z z == 0)%Q.
Proof. intros Hz H. apply Hz. unfold Qeq in H. cbn in H. lia. Qed.

Lemma sum_Q_app (l l' : list Q) : (sum_Q (l ++ l') == sum_Q l + sum_Q l')%Q.
Proof.
  unfold sum_Q. induction l as [|x l IH]; cbn [app fold_right].
  - symmetry. apply Qplus_0_l.
  - rewrite IH. apply Qplus_assoc.
Qed.

(** The running weighted mean after observations of equal weight [w]:
    the mean times the number of observations is the sum of the values. *)
Lemma update_mean_fold (w : Z) (vs : list Q) :
  0 < w ->
  forall (m : MeanMetric) (j : Z),
    0 <= j ->
    running_count m = j * w ->
    running_count (fold_left (fun m v => update_mean m v w) vs m)
    = (j + Z.of_nat (List.length vs)) * w /\
    (mean_value (fold_left (fun m v => update_mean m v w) vs m)
     * inject_Z (j + Z.of_nat (List.length vs))
     == mean_value m * inject_Z j + sum_Q vs)%Q.
Proof.
  intros Hw. induction vs as [|v vs IH]; intros m j Hj Hrc.
  - cbn [fold_left List.length sum_Q fold_right Z.of_nat].
    rewrite Z.add_0_r. split; [exact Hrc|ring].
  - cbn [fold_left].
    destruct (IH (update_mean m v w) (j + 1)) as [Hcount Hmean].
    + lia.
    + cbn [update_mean running_count]. rewrite Hrc. ring.
    + replace (j + Z.of_nat (List.length (v :: vs)))
        with (j + 1 + Z.of_nat (List.length vs))
        by (cbn [List.length]; lia).
      split; [exact Hcount|].
      rewrite Hmean. cbn [update_mean mean_value sum_Q fold_right].
      fold (sum_Q vs). rewrite Hrc.
      assert (Hd : ~ (inject_Z (j * w + w) == 0)%Q)
        by (apply inject_Z_nonzero; nia).
      assert (Hprod : (inject_Z w * inject_Z (j + 1) == inject_Z (j * w + w))%Q).
      { rewrite <- inject_Z_mult. replace (w * (j + 1)) with (j * w + w) by ring.
        reflexivity. }
      assert (Hj1 : (inject_Z (j + 1) == inject_Z j + 1)%Q).
      { rewrite inject_Z_plus. reflexivity. }
      transitivity
        (mean_value m * inject_Z (j + 1)
         + (v - mean_value m) * (inject_Z w * inject_Z (j + 1))
           / inject_Z (j * w + w) + sum_Q vs)%Q.
      * field. exact Hd.
      * rewrite Hprod, Hj1. field. exact Hd.
Qed.

Lemma micro_batch_window {A : Type} (s : Session) (l : list A) (i : nat) :
  0 <= grad_accum_step (_config s) ->
  micro_batch s l (Z.of_nat i)
  = firstn (Z.to_nat (grad_accum_step (_config s)))
      (skipn (i * Z.to_nat (grad_accum_step (_config s))) l).
Proof.
  intros Hstep. unfold micro_batch.
  rewrite py_slice_window by lia.
  f_equal. f_equal. lia.
Qed.

Lemma skipn_combine {A B : Type} (n : nat) (l : list A) (l' : list B) :
  skipn n (combine l l') = combine (skipn n l) (skipn n l').
Proof.
  revert l l'. induction n as [|n IH]; intros l l'; [reflexivity|].
  destruct l as [|x l]; [reflexivity|].
  destruct l' as [|y l']; cbn [combine skipn].
  - destruct (skipn n l); reflexivity.
  - apply IH.
Qed.

(** A window of the paired predictions and labels is the pairing of the
    windows. *)
Lemma window_combine {A B C : Type} (f : A -> C) (a n : nat) (l : list A)
    (l' : list B) :
  combine (map f (firstn a (skipn n l))) (firstn a (skipn n l'))
  = firstn a (skipn n (combine (map f l) l')).
Proof.
  rewrite skipn_combine, combine_firstn, skipn_map, firstn_map. reflexivity.
Qed.

Lemma length_window {A : Type} (a i k : nat) (l : list A) :
  List.length l = (k * a)%nat -> (i < k)%nat ->
  List.length (firstn a (skipn (i * a) l)) = a.
Proof.
  intros Hlen Hi. rewrite length_firstn, length_skipn. nia.
Qed.

Lemma sum_Q_windows {A : Type} (g : A -> Q) (a : nat) (l : list A) (k : nat) :
  (sum_Q (map (fun i => sum_Q (map g (firstn a (skipn (i * a) l)))) (seq 0 k))
   == sum_Q (map g (firstn (k * a) l)))%Q.
Proof.
  induction k as [|k IH]; [reflexivity|].
  rewrite seq_S, map_app, sum_Q_app, IH. cbn [Nat.add map sum_Q fold_right].
  replace (S k * a)%nat with (k * a + a)%nat by lia.
  rewrite firstn_plus, map_app, sum_Q_app.
  unfold sum_Q. ring.
Qed.

Lemma count_true_app (l l' : list bool) :
  count_true (l ++ l') = count_true l + count_true l'.
Proof. unfold count_true. rewrite filter_app, length_app. lia. Qed.

Lemma sum_Z_app (l l' : list Z) :
  fold_right Z.add 0 (l ++ l') = fold_right Z.add 0 l + fold_right Z.add 0 l'.
Proof.
  induction l as [|x l IH]; cbn [app fold_right]; [reflexivity|].
  rewrite IH. ring.
Qed.

Lemma count_true_windows {A : Type} (h : A -> bool) (a : nat) (l : list A)
    (k : nat) :
  fold_right Z.add 0
    (map (fun i => count_true (map h (firstn a (skipn (i * a) l)))) (seq 0 k))
  = count_true (map h (firstn (k * a) l)).
Proof.
  induction k as [|k IH]; [reflexivity|].
  rewrite seq_S, map_app, sum_Z_app, IH. cbn [Nat.add map fold_right].
  replace (S k * a)%nat with (k * a + a)%nat by lia.
  rewrite firstn_plus, map_app, count_true_app. ring.
Qed.

Lemma fold_left_map {A B C : Type} (f : A -> C -> A) (g : B -> C) (l : list B)
    (a : A) :
  fold_left f (map g l) a = fold_left (fun acc x => f acc (g x)) l a.
Proof.
  revert a. induction l as [|x l IH]; intros a; [reflexivity|].
  cbn [map fold_left]. apply IH.
Qed.

Lemma fold_left_ext_in {A B : Type} (f g : A -> B -> A) (l : list B) (a : A) :
  (forall acc x, In x l -> f acc x = g acc x) ->
  fold_left f l a = fold_left g l a.
Proof.
  revert a. induction l as [|x l IH]; intros a H; [reflexivity|].
  cbn [fold_left]. rewrite H by (left; reflexivity).
  apply IH. intros acc y Hy. apply H. right. exact Hy.
Qed.

Section ModeFolds.

Context {I : Type}.
Variables (V : I -> Q) (P : I -> list Prediction) (Y : I -> list Label)
          (C : I -> Z).

Lemma m_loss_fold (idx : list I) (mm : ModeMetrics) :
  m_loss (fold_left (fun mm i => update_mode mm (V i) (P i) (Y i) (C i)) idx mm)
  = fold_left (fun m i => update_mean m (V i) (C i)) idx (m_loss mm).
Proof.
  revert mm. induction idx as [|i idx IH]; intros mm; [reflexivity|].
  cbn [fold_left]. rewrite IH. reflexivity.
Qed.

Lemma m_accuracy_fold (idx : list I) (mm : ModeMetrics) :
  m_accuracy
    (fold_left (fun mm i => update_mode mm (V i) (P i) (Y i) (C i)) idx mm)
  = fold_left (fun h i =>
                 update_hits h
                   (map (fun p => argmax (fst p) =? snd p) (combine (P i) (Y i)))
                   (C i))
      idx (m_accuracy mm).
Proof.
  revert mm. induction idx as [|i idx IH]; intros mm; [reflexivity|].
  cbn [fold_left]. rewrite IH. reflexivity.
Qed.

Lemma m_top5_accuracy_fold (idx : list I) (mm : ModeMetrics) :
  m_top5_accuracy
    (fold_left (fun mm i => update_mode mm (V i) (P i) (Y i) (C i)) idx mm)
  = fold_left (fun h i =>
                 update_hits h
                   (map (fun p => in_top_k 5 (fst p) (snd p)) (combine (P i) (Y i)))
                   (C i))
      idx (m_top5_accuracy mm).
Proof.
  revert mm. induction idx as [|i idx IH]; intros mm; [reflexivity|].
  cbn [fold_left]. rewrite IH. reflexivity.
Qed.

End ModeFolds.

Lemma update_hits_fold {I : Type} (M : I -> list bool) (w : Z) (idx : list I)
    (h : HitMetric) :
  fold_left (fun h i => update_hits h (M i) w) idx h
  = mkHit (hits h + fold_right Z.add 0 (map (fun i => count_true (M i)) idx))
      (seen h + Z.of_nat (List.length idx) * w).
Proof.
  revert h. induction idx as [|i idx IH]; intros h.
  - cbn [fold_left map fold_right List.length Z.of_nat].
    destruct h as [hh ss]. cbn [hits seen]. f_equal; ring.
  - cbn [fold_left]. rewrite IH. cbn [update_hits hits seen map fold_right].
    f_equal; [ring|]. cbn [List.length]. lia.
Qed.

Lemma sum_Q_scale {I : Type} (g : I -> Q) (c : Q) (idx : list I) :
  (sum_Q (map (fun i => g i / c / c) idx) == sum_Q (map g idx) / c / c)%Q.
Proof.
  unfold sum_Q, Qdiv.
  induction idx as [|i idx IH]; cbn [map fold_right]; [ring|].
  rewrite IH. ring.
Qed.

Lemma sum_Q_ext {I : Type} (g g' : I -> Q) (idx : list I) :
  (forall i, In i idx -> (g i == g' i)%Q) ->
  (sum_Q (map g idx) == sum_Q (map g' idx))%Q.
Proof.
  unfold sum_Q. induction idx as [|i idx IH]; intros H; cbn [map fold_right].
  - reflexivity.
  - rewrite (H i) by (left; reflexivity).
    rewrite IH by (intros j Hj; apply H; right; exact Hj). reflexivity.
Qed.

Section Aggregation.

Variable env : Env.

Lemma mode_of_observe (s : Session) (m : MetricsContainer)
    (x : list Features) (y : list Label) (q : Z) :
  mode_of (_model_training s) (observe env s m x y q)
  = update_mode (mode_of (_model_training s) m)
      (loss_function (cross_entropy env) (map (model env) x) y / inject_Z q)%Q
      (map (model env) x) y (Z.of_nat (List.length y)).
Proof. unfold observe, mode_of. destruct (_model_training s); reflexivity. Qed.

Lemma mode_of_fold {I : Type} (s : Session) (X : I -> list Features)
    (Y : I -> list Label) (D : I -> Z) (idx : list I) (m : MetricsContainer) :
  mode_of (_model_training s)
    (fold_left (fun m i => observe env s m (X i) (Y i) (D i)) idx m)
  = fold_left
      (fun mm i =>
         update_mode mm
           (loss_function (cross_entropy env) (map (model env) (X i)) (Y i)
            / inject_Z (D i))%Q
           (map (model env) (X i)) (Y i) (Z.of_nat (List.length (Y i))))
      idx (mode_of (_model_training s) m).
Proof.
  revert m. induction idx as [|i idx IH]; intros m; [reflexivity|].
  cbn [fold_left]. rewrite IH, mode_of_observe. reflexivity.
Qed.

(** The metrics of the accumulating strategy over a batch of
    [steps * grad_accum_step] samples, as a fold over the windows. *)
Lemma accum_mode_metrics (s : Session) (features : list Features)
    (label : list Label) (a k : nat) :
  _batch_fun s = single_batch_accum_ref ->
  grad_accum_step (_config s) = Z.of_nat a ->
  _gradient_accumulation_steps s = Z.of_nat k ->
  List.length label = (k * a)%nat ->
  mode_of (_model_training s) (batch_fun_metrics env s features label)
  = fold_left
      (fun mm i =>
         update_mode mm
           (loss_function (cross_entropy env)
              (map (model env) (firstn a (skipn (i * a) features)))
              (firstn a (skipn (i * a) label))
            / inject_Z (Z.of_nat a))%Q
           (map (model env) (firstn a (skipn (i * a) features)))
           (firstn a (skipn (i * a) label)) (Z.of_nat a))
      (seq 0 k) (mode_of (_model_training s) (_metrics s)).
Proof.
  intros Hfun Ha Hk Hlen.
  unfold batch_fun_metrics. rewrite Hfun, Hk. unfold py_range.
  rewrite Nat2Z.id, fold_left_map.
  rewrite (mode_of_fold s (fun i => micro_batch s features (Z.of_nat i))
             (fun i => micro_batch s label (Z.of_nat i))
             (fun i => Z.of_nat (List.length (micro_batch s label (Z.of_nat i))))).
  apply fold_left_ext_in. intros mm i Hi.
  apply in_seq in Hi.
  rewrite !micro_batch_window by lia.
  rewrite Ha, Nat2Z.id.
  rewrite (length_window a i k label Hlen) by lia.
  reflexivity.
Qed.

Lemma loss_of_windows (features : list Features) (label : list Label)
    (a k : nat) :
  List.length features = (k * a)%nat ->
  List.length label = (k * a)%nat ->
  (sum_Q
     (map (fun i =>
             loss_function (cross_entropy env)
               (map (model env) (firstn a (skipn (i * a) features)))
               (firstn a (skipn (i * a) label))
             / inject_Z (Z.of_nat a))
        (seq 0 k))
   == sum_Q (map (fun p => cross_entropy env (fst p) (snd p))
               (combine (map (model env) features) label))
      / inject_Z (Z.of_nat a) / inject_Z (Z.of_nat a))%Q.
Proof.
  intros Hf Hl.
  rewrite <- (firstn_all2 (n := (k * a)%nat)
                (combine (map (model env) features) label))
    by (rewrite length_combine, length_map; lia).
  rewrite <- (sum_Q_windows (fun p => cross_entropy env (fst p) (snd p)) a _ k).
  rewrite <- sum_Q_scale.
  apply sum_Q_ext. intros i Hi. apply in_seq in Hi.
  unfold loss_function.
  rewrite window_combine, (length_window a i k label Hl) by lia.
  reflexivity.
Qed.

Lemma hits_of_windows (h : Prediction * Label -> bool)
    (features : list Features) (label : list Label) (a k : nat) :
  List.length features = (k * a)%nat ->
  List.length label = (k * a)%nat ->
  fold_right Z.add 0
    (map (fun i =>
            count_true
              (map h (combine
                        (map (model env) (firstn a (skipn (i * a) features)))
                        (firstn a (skipn (i * a) label)))))
       (seq 0 k))
  = count_true (map h (combine (map (model env) features) label)).
Proof.
  intros Hf Hl.
  rewrite <- (firstn_all2 (n := (k * a)%nat)
                (combine (map (model env) features) label))
    by (rewrite length_combine, length_map; lia).
  rewrite <- (count_true_windows h a _ k).
  f_equal. apply map_ext. intros i. rewrite window_combine. reflexivity.
Qed.

End Aggregation.

(** C2, in general: on a batch of [steps * grad_accum_step] samples and
    freshly reset metrics, the accumulating strategy leaves the same
    running count and the same accuracy counters as the simple strategy,
    and a loss that is the loss of the simple strategy divided by the step
    size. *)
Theorem accumulated_loss_is_simple_loss_over_step_size (env : Env)
    (simple accum : Session) (features : list Features) (label : list Label) :
  _batch_fun simple = single_batch_ref ->
  _batch_fun accum = single_batch_accum_ref ->
  _model_training simple = _model_training accum ->
  _metrics simple = zero_metrics ->
  _metrics accum = zero_metrics ->
  0 < grad_accum_step (_config accum) ->
  0 < _gradient_accumulation_steps accum ->
  Z.of_nat (List.length features)
    = _gradient_accumulation_steps accum * grad_accum_step (_config accum) ->
  Z.of_nat (List.length label)
    = _gradient_accumulation_steps accum * grad_accum_step (_config accum) ->
  (mean_value (m_loss (mode_of (_model_training accum)
     (_metrics (final (call_batch_fun env features label accum)))))
   * inject_Z (grad_accum_step (_config accum))
   == mean_value (m_loss (mode_of (_model_training accum)
        (_metrics (final (call_batch_fun env features label simple))))))%Q /\
  running_count (m_loss (mode_of (_model_training accum)
     (_metrics (final (call_batch_fun env features label accum)))))
  = running_count (m_loss (mode_of (_model_training accum)
      (_metrics (final (call_batch_fun env features label simple))))) /\
  m_accuracy (mode_of (_model_training accum)
     (_metrics (final (call_batch_fun env features label accum))))
  = m_accuracy (mode_of (_model_training accum)
      (_metrics (final (call_batch_fun env features label simple)))) /\
  m_top5_accuracy (mode_of (_model_training accum)
     (_metrics (final (call_batch_fun env features label accum))))
  = m_top5_accuracy (mode_of (_model_training accum)
      (_metrics (final (call_batch_fun env features label simple)))).
Proof.
  intros Hsimple Haccum Hmode Hm1 Hm2 Hstep Hsteps Hf Hl.
  set (a := Z.to_nat (grad_accum_step (_config accum))).
  set (k := Z.to_nat (_gradient_accumulation_steps accum)).
  assert (Ha : grad_accum_step (_config accum) = Z.of_nat a) by (subst a; lia).
  assert (Hk : _gradient_accumulation_steps accum = Z.of_nat k) by (subst k; lia).
  assert (Hfn : List.length features = (k * a)%nat) by nia.
  assert (Hln : List.length label = (k * a)%nat) by nia.
  rewrite !call_batch_fun_run. cbn [final _metrics set_metrics].
  rewrite (accum_mode_metrics env accum features label a k Haccum Ha Hk Hln).
  rewrite Hm2.
  unfold batch_fun_metrics at 1 2 3 4. rewrite Hsimple, Hm1, <- Hmode.
  rewrite !mode_of_observe.
  replace (mode_of (_model_training simple) zero_metrics) with zero_mode
    by (unfold mode_of; destruct (_model_training simple); reflexivity).
  rewrite m_loss_fold, m_accuracy_fold, m_top5_accuracy_fold.
  rewrite !update_hits_fold.
  rewrite !(hits_of_windows env _ features label a k Hfn Hln).
  rewrite <- (fold_left_map (fun m v => update_mean m v (Z.of_nat a))
                (fun i =>
                   (loss_function (cross_entropy env)
                      (map (model env) (firstn a (skipn (i * a) features)))
                      (firstn a (skipn (i * a) label))
                    / inject_Z (Z.of_nat a))%Q)).
  destruct (update_mean_fold (Z.of_nat a)
              (map (fun i =>
                      (loss_function (cross_entropy env)
                         (map (model env) (firstn a (skipn (i * a) features)))
                         (firstn a (skipn (i * a) label))
                       / inject_Z (Z.of_nat a))%Q) (seq 0 k))
              ltac:(lia) (m_loss zero_mode) 0 ltac:(lia) eq_refl)
    as [Hcount Hmean].
  rewrite length_map, length_seq in Hcount, Hmean.
  rewrite (loss_of_windows env features label a k Hfn Hln) in Hmean.
  cbn [m_loss zero_mode mean_value] in Hcount, Hmean.
  cbn [update_mode m_loss m_accuracy m_top5_accuracy update_mean update_hits
       zero_mode mean_value running_count hits seen].
  rewrite Hcount, length_seq.
  assert (Hka : Z.of_nat (List.length label) = Z.of_nat k * Z.of_nat a) by lia.
  split; [|split; [|split]].
  - rewrite Ha. unfold loss_function.
    set (S := sum_Q (map (fun p => cross_entropy env (fst p) (snd p))
                       (combine (map (model env) features) label))) in *.
    set (mean := mean_value _) in *.
    rewrite Hka, Z.add_0_l.
    rewrite Z.add_0_l in Hmean.
    rewrite inject_Z_mult.
    assert (Hk0 : ~ (inject_Z (Z.of_nat k) == 0)%Q)
      by (apply inject_Z_nonzero; lia).
    assert (Ha0 : ~ (inject_Z (Z.of_nat a) == 0)%Q)
      by (apply inject_Z_nonzero; lia).
    assert (Hmean' : (mean == S / inject_Z (Z.of_nat a) / inject_Z (Z.of_nat a)
                             / inject_Z (Z.of_nat k))%Q).
    { apply (Qmult_inj_r _ _ (inject_Z (Z.of_nat k)) Hk0).
      rewrite Hmean. field. split; assumption. }
    rewrite Hmean'. field. split; assumption.
  - lia.
  - rewrite Hka. reflexivity.
  - rewrite Hka. reflexivity.
Qed.

Lemma accumulated_loss_is_simple_loss_over_step_size_witness :
  (mean_value (m_loss (mode_of true
     (_metrics (final (call_batch_fun demo_env demo_features demo_labels
                         demo_accum)))))
   * inject_Z 2
   == mean_value (m_loss (mode_of true
        (_metrics (final (call_batch_fun demo_env demo_features demo_labels
                            demo_simple))))))%Q /\
  running_count (m_loss (mode_of true
     (_metrics (final (call_batch_fun demo_env demo_features demo_labels
                         demo_accum)))))
  = running_count (m_loss (mode_of true
      (_metrics (final (call_batch_fun demo_env demo_features demo_labels
                          demo_simple))))) /\
  m_accuracy (mode_of true
     (_metrics (final (call_batch_fun demo_env demo_features demo_labels
                         demo_accum))))
  = m_accuracy (mode_of true
      (_metrics (final (call_batch_fun demo_env demo_features demo_labels
                          demo_simple)))) /\
  m_top5_accuracy (mode_of true
     (_metrics (final (call_batch_fun demo_env demo_features demo_labels
                         demo_accum))))
  = m_top5_accuracy (mode_of true
      (_metrics (final (call_batch_fun demo_env demo_features demo_labels
                          demo_simple)))).
Proof.
  refine (accumulated_loss_is_simple_loss_over_step_size demo_env
            demo_simple demo_accum demo_features demo_labels
            eq_refl eq_refl eq_refl eq_refl eq_refl _ _ eq_refl eq_refl).
  - vm_compute. reflexivity.
  - vm_compute. reflexivity.
Defined.

(** The same at a concrete batch: four samples with losses 1, 2, 3 and 4.  The
    simple strategy reports the mean loss 5/2 with weight 4.  The
    accumulating strategy with step size 2 reports, for each micro-batch,
    the mean loss divided by the label count (3/4, then 7/4) with weight 2,
    so the aggregated loss is 5/4; the accuracy counters agree. *)
Example accumulated_loss_differs_from_simple :
  _batch_fun demo_simple = single_batch_ref /\
  _batch_fun demo_accum = single_batch_accum_ref /\
  (mean_value (m_loss (training_metrics (_metrics
     (final (call_batch_fun demo_env demo_features demo_labels demo_simple)))))
   == 5 # 2)%Q /\
  (mean_value (m_loss (training_metrics (_metrics
     (final (call_batch_fun demo_env demo_features demo_labels demo_accum)))))
   == 5 # 4)%Q /\
  running_count (m_loss (training_metrics (_metrics
     (final (call_batch_fun demo_env demo_features demo_labels demo_simple)))))
  = running_count (m_loss (training_metrics (_metrics
     (final (call_batch_fun demo_env demo_features demo_labels demo_accum))))) /\
  m_accuracy (training_metrics (_metrics
     (final (call_batch_fun demo_env demo_features demo_labels demo_simple))))
  = m_accuracy (training_metrics (_metrics
     (final (call_batch_fun demo_env demo_features demo_labels demo_accum)))) /\
  ~ (mean_value (m_loss (training_metrics (_metrics
       (final (call_batch_fun demo_env demo_features demo_labels demo_simple)))))
     == mean_value (m_loss (training_metrics (_metrics
       (final (call_batch_fun demo_env demo_features demo_labels demo_accum))))))%Q.
Proof.
  split; [reflexivity|]. split; [reflexivity|].
  split; [vm_compute; reflexivity|]. split; [vm_compute; reflexivity|].
  split; [vm_compute; reflexivity|]. split; [vm_compute; reflexivity|].
  vm_compute. discriminate.
Qed.

(** * Further properties *)

(** ** Construction: identity of the session *)

Lemma py_or_not_empty (x : option string) (default : string) :
  default <> "" -> py_or x default <> "".
Proof.
  intros Hd. unfold py_or. destruct x as [t|]; [|exact Hd].
  destruct (String.eqb_spec t ""); assumption.
Qed.

Lemma py_or_keeps (t default : string) :
  t <> "" -> py_or (Some t) default = t.
Proof.
  intros Ht. unfold py_or. destruct (String.eqb_spec t ""); congruence.
Qed.

Lemma prefix_append (p s : string) : String.prefix p (String.append p s) = true.
Proof.
  induction p as [|c p IH]; cbn.
  - destruct s; reflexivity.
  - destruct (Ascii.ascii_dec c c); [exact IH|congruence].
Qed.

(** X1: a fresh session (no session id configured) keeps the configuration
    as given, is no resume, starts at epoch 0 without loaders, and always has
    a session type: the configured one, or "training" when none or the empty
    string is configured; it is never the empty string.  In debug mode its
    id starts with "debug_". *)
Theorem init_fresh_identity (env : Env) (config : Config) (s : Session) :
  session_id config = None ->
  Session__init__ env config = inr s ->
  is_resume s = false /\
  _config s = config /\
  _starting_epoch s = 0 /\
  _data_loader s = [] /\
  (exists ty,
     _session_type s = Some ty /\ ty <> "" /\
     (forall t, session_type config = Some t -> t <> "" -> ty = t) /\
     (session_type config = None \/ session_type config = Some "" ->
      ty = "training")) /\
  (debug config = true -> String.prefix "debug_" (_session_id s) = true) /\
  log_path s = path_join env (out_path config) (_session_id s) "logs" /\
  checkpoint_path s
    = path_join env (out_path config) (_session_id s) "checkpoints" /\
  config_path s = path_join env (out_path config) (_session_id s) "config.yaml".
Proof.
  intros Hsid Hinit.
  pose proof (init_inversion env config s Hinit) as Hinv.
  rewrite Hsid in Hinv.
  destruct Hinv as ((Hres & Hcfg & Hty) & _ & Hdl & Hstart & _).
  split; [exact Hres|]. split; [exact Hcfg|]. split; [exact Hstart|].
  split; [exact Hdl|]. split.
  - exists (py_or (session_type config) "training").
    split; [exact Hty|]. split; [apply py_or_not_empty; discriminate|]. split.
    + intros t Ht Hne. rewrite Ht. apply py_or_keeps, Hne.
    + intros [Hnone|Hempty]; [rewrite Hnone|rewrite Hempty]; reflexivity.
  - revert Hinit. unfold Session__init__. rewrite Hsid.
    set (sid := strftime env _).
    assert (Hprefix : debug config = true ->
                      String.prefix "debug_"
                        (if debug config then String.append "debug_" sid else sid)
                      = true)
      by (intros Hdebug; rewrite Hdebug; apply prefix_append).
    revert Hprefix.
    generalize (if debug config then String.append "debug_" sid else sid).
    intros id Hprefix. cbn [rbind].
    destruct (batch_size config =? grad_accum_step config); cbn [rbind].
    + destruct (mixed_precision config); intros [= <-];
        cbn [_session_id log_path checkpoint_path config_path];
        repeat split; exact Hprefix.
    + unfold py_floordiv.
      destruct (grad_accum_step config =? 0); cbn [rbind]; [discriminate|].
      destruct (mixed_precision config); intros [= <-];
        cbn [_session_id log_path checkpoint_path config_path];
        repeat split; exact Hprefix.
Qed.

Lemma init_fresh_identity_witness :
  exists s,
    Session__init__ demo_env (with_session_type (Some "") demo_config) = inr s /\
    is_resume s = false /\
    _config s = with_session_type (Some "") demo_config /\
    _starting_epoch s = 0 /\
    _data_loader s = [] /\
    (exists ty,
       _session_type s = Some ty /\ ty <> "" /\
       (forall t, Some "" = Some t -> t <> "" -> ty = t) /\
       (Some "" = None \/ Some "" = Some "" -> ty = "training")) /\
    (false = true -> String.prefix "debug_" (_session_id s) = true) /\
    log_path s = path_join demo_env "out" (_session_id s) "logs" /\
    checkpoint_path s = path_join demo_env "out" (_session_id s) "checkpoints" /\
    config_path s = path_join demo_env "out" (_session_id s) "config.yaml".
Proof.
  eexists. split; [reflexivity|].
  lazymatch goal with
  | |- is_resume ?s = _ /\ _ =>
      exact (init_fresh_identity demo_env
               (with_session_type (Some "") demo_config) s eq_refl eq_refl)
  end.
Defined.

(** X2: a fresh configuration fails to construct in exactly one case, a
    zero accumulation step size that differs from the batch size, and then
    with [ZeroDivisionError]. *)
Theorem init_fresh_fails_iff_zero_step (env : Env) (config : Config) (e : exn) :
  session_id config = None ->
  (Session__init__ env config = inl e <->
   e = ZeroDivisionError /\
   grad_accum_step config = 0 /\ batch_size config <> 0).
Proof.
  intros Hsid. split.
  - intros Hfail.
    destruct (Z.eq_dec (grad_accum_step config) 0) as [Hz|Hnz].
    + destruct (Z.eq_dec (batch_size config) 0) as [Hb|Hb].
      * destruct (init_fresh_total env config Hsid) as [s Hs];
          [right; congruence|congruence].
      * split; [|split; assumption].
        revert Hfail. unfold Session__init__. rewrite Hsid. cbn [rbind].
        destruct (Z.eqb_spec (batch_size config) (grad_accum_step config));
          [congruence|].
        unfold py_floordiv. rewrite Hz. cbn. congruence.
    + destruct (init_fresh_total env config Hsid) as [s Hs];
        [left; exact Hnz|congruence].
  - intros (-> & Hz & Hb).
    unfold Session__init__. rewrite Hsid. cbn [rbind].
    destruct (Z.eqb_spec (batch_size config) (grad_accum_step config));
      [congruence|].
    unfold py_floordiv. rewrite Hz. reflexivity.
Qed.

Lemma init_fresh_fails_iff_zero_step_witness :
  Session__init__ demo_env (with_sizes 10 0 6 demo_config)
    = inl ZeroDivisionError <->
  ZeroDivisionError = ZeroDivisionError /\
  grad_accum_step (with_sizes 10 0 6 demo_config) = 0 /\
  batch_size (with_sizes 10 0 6 demo_config) <> 0.
Proof.
  exact (init_fresh_fails_iff_zero_step demo_env (with_sizes 10 0 6 demo_config)
           ZeroDivisionError eq_refl).
Defined.



(** The configuration passed in asks for the accumulating strategy (sizes 4
    and 2); the saved one has equal sizes, and the resumed session runs the
    simple strategy. *)
Example resume_takes_strategy_from_saved_configuration :
  exists s,
    Session__init__
      (with_saved_configuration (with_sizes 8 8 6 demo_config) demo_env)
      (with_session_id (Some "old") demo_config) = inr s /\
    batch_size (_config s) = 8 /\ _batch_fun s = single_batch_ref.
Proof. eexists. split; [reflexivity|]. split; reflexivity. Qed.

(** ** data_input.py *)

Lemma inr_inj {A B : Type} (x y : B) : @inr A B x = inr y -> x = y.
Proof. intros H. injection H as H. exact H. Qed.



Example dataset_debug_keyword :
  SkeletonDataset__len__
    (match SkeletonDataset__init__ demo_env [PStr "x.npy"; PStr "y.npy"]
             [("debug", PBool true)] with
     | inr ds => ds
     | inl _ => mkDataset [] []
     end) = 6%nat.
Proof. reflexivity. Qed.

(** X5: [__getitem__] returns the features and the label stored at the item
    and the item itself; it raises [IndexError], and nothing else, exactly
    when the item lies beyond the features or beyond the labels.  [__len__]
    counts the labels only. *)
Theorem dataset_getitem (ds : SkeletonDataset) (item : nat) :
  SkeletonDataset__len__ ds = List.length (labels_data ds) /\
  (forall f l i,
     SkeletonDataset__getitem__ ds item = inr (f, l, i) ->
     i = item /\
     nth_error (features_data ds) item = Some f /\
     nth_error (labels_data ds) item = Some l) /\
  ((item < List.length (features_data ds))%nat ->
   (item < SkeletonDataset__len__ ds)%nat ->
   exists f l, SkeletonDataset__getitem__ ds item = inr (f, l, item)) /\
  ((List.length (features_data ds) <= item)%nat \/
   (SkeletonDataset__len__ ds <= item)%nat ->
   SkeletonDataset__getitem__ ds item = inl IndexError).
Proof.
  unfold SkeletonDataset__getitem__, SkeletonDataset__len__.
  split; [reflexivity|]. split; [|split].
  - intros f l i.
    destruct (nth_error (features_data ds) item) as [f'|];
      [|discriminate].
    destruct (nth_error (labels_data ds) item) as [l'|]; [|discriminate].
    intros [= <- <- <-]. repeat split.
  - intros Hf Hl.
    apply nth_error_Some in Hf. apply nth_error_Some in Hl.
    destruct (nth_error (features_data ds) item) as [f|]; [|congruence].
    destruct (nth_error (labels_data ds) item) as [l|]; [|congruence].
    exists f, l. reflexivity.
  - intros [Hf|Hl].
    + apply nth_error_None in Hf. rewrite Hf. reflexivity.
    + apply nth_error_None in Hl. rewrite Hl.
      destruct (nth_error (features_data ds) item); reflexivity.
Qed.

Lemma dataset_getitem_witness :
  exists f l,
    SkeletonDataset__getitem__
      (mkDataset [[1%Q]; [2%Q]] [0; 1; 0]) 1 = inr (f, l, 1%nat).
Proof.
  destruct (dataset_getitem (mkDataset [[1%Q]; [2%Q]] [0; 1; 0]) 1)
    as (_ & _ & Hin & _).
  apply Hin; cbn; lia.
Defined.

Example dataset_longer_labels :
  SkeletonDataset__len__ (mkDataset [[1%Q]; [2%Q]] [0; 1; 0]) = 3%nat /\
  SkeletonDataset__getitem__ (mkDataset [[1%Q]; [2%Q]] [0; 1; 0]) 2
  = inl IndexError.
Proof. split; reflexivity. Qed.


(** ** Fetching a batch *)

Lemma collate_components (samples : list (Features * Label * nat)) :
  collate samples
  = (map (fun x => fst (fst x)) samples, map (fun x => snd (fst x)) samples,
     map snd samples).
Proof.
  induction samples as [|[[f l] i] rest IH]; [reflexivity|].
  cbn [collate map fst snd]. rewrite IH. reflexivity.
Qed.

Lemma fetch_samples_spec (ds : SkeletonDataset) (idxs : list nat)
    (samples : list (Features * Label * nat)) :
  fetch_samples ds idxs = inr samples ->
  map snd samples = idxs /\
  Forall2 (fun i x => SkeletonDataset__getitem__ ds i = inr x) idxs samples.
Proof.
  revert samples. induction idxs as [|i idxs IH]; intros samples.
  - intros H. apply inr_inj in H. subst samples. split; constructor.
  - cbn [fetch_samples].
    destruct (SkeletonDataset__getitem__ ds i) as [e|x] eqn:Hx;
      cbn [rbind]; [discriminate|].
    destruct (fetch_samples ds idxs) as [e|xs]; cbn [rbind]; [discriminate|].
    intros H. apply inr_inj in H. subst samples.
    destruct (IH xs eq_refl) as [Hidx Hall].
    destruct x as [[f l] j].
    destruct (dataset_getitem ds i) as (_ & Hget & _).
    destruct (Hget f l j Hx) as (-> & _ & _).
    split; [cbn [map snd]; rewrite Hidx; reflexivity|].
    constructor; [exact Hx|exact Hall].
Qed.

(** X6: a batch that was fetched for the indices [idxs] has one feature
    tensor and one label per index, in the order of [idxs], each the entry of
    the dataset at that index, and it carries [idxs] as its indices. *)
Theorem fetch_batch_contents (ds : SkeletonDataset) (idxs : list nat)
    (features : list Features) (label : list Label) (indices : list nat) :
  fetch_batch ds idxs = inr (features, label, indices) ->
  indices = idxs /\
  List.length features = List.length idxs /\
  List.length label = List.length idxs /\
  forall k i,
    nth_error idxs k = Some i ->
    nth_error features k = nth_error (features_data ds) i /\
    nth_error label k = nth_error (labels_data ds) i /\
    (i < SkeletonDataset__len__ ds)%nat.
Proof.
  unfold fetch_batch.
  destruct (fetch_samples ds idxs) as [e|samples] eqn:Hs; cbn [rbind];
    [discriminate|].
  intros H. apply inr_inj in H. rewrite collate_components in H.
  injection H as <- <- <-.
  destruct (fetch_samples_spec ds idxs samples Hs) as [Hidx Hall].
  split; [exact Hidx|].
  pose proof (Forall2_length Hall) as Hlen.
  split; [rewrite length_map; lia|]. split; [rewrite length_map; lia|].
  intros k i Hk. clear Hs Hidx Hlen.
  revert k Hk. induction Hall as [|j x idxs samples Hx _ IH]; intros k Hk.
  - destruct k; discriminate.
  - destruct k as [|k].
    + cbn [nth_error] in Hk. injection Hk as ->.
      destruct x as [[f l] j'].
      destruct (dataset_getitem ds i) as (_ & Hget & _).
      destruct (Hget f l j' Hx) as (_ & Hf & Hl).
      cbn [map nth_error fst snd]. rewrite Hf, Hl.
      repeat split. unfold SkeletonDataset__len__.
      apply nth_error_Some. congruence.
    + cbn [map nth_error]. apply IH. exact Hk.
Qed.

Lemma fetch_batch_contents_witness :
  [1; 0]%nat = [1; 0]%nat /\
  List.length [[2%Q]; [1%Q]] = List.length [1; 0]%nat /\
  List.length [1; 0] = List.length [1; 0]%nat /\
  forall k i,
    nth_error [1; 0]%nat k = Some i ->
    nth_error [[2%Q]; [1%Q]] k
    = nth_error (features_data (mkDataset [[1%Q]; [2%Q]] [0; 1])) i /\
    nth_error [1; 0] k = nth_error (labels_data (mkDataset [[1%Q]; [2%Q]] [0; 1])) i /\
    (i < SkeletonDataset__len__ (mkDataset [[1%Q]; [2%Q]] [0%Z; 1%Z]))%nat.
Proof.
  exact (fetch_batch_contents (mkDataset [[1%Q]; [2%Q]] [0; 1]) [1; 0]%nat
           [[2%Q]; [1%Q]] [1; 0] [1; 0]%nat eq_refl).
Defined.

(** X7: fetching fails with [IndexError], and with nothing else, exactly
    when one of the indices lies beyond the features or beyond the labels. *)
Theorem fetch_batch_fails_on_bad_index (ds : SkeletonDataset) (idxs : list nat) :
  (forall e, fetch_batch ds idxs = inl e -> e = IndexError) /\
  ((exists e, fetch_batch ds idxs = inl e) <->
   exists i, In i idxs /\
     ((List.length (features_data ds) <= i)%nat \/
      (SkeletonDataset__len__ ds <= i)%nat)).
Proof.
  unfold fetch_batch.
  assert (Hsamples :
    (forall e, fetch_samples ds idxs = inl e -> e = IndexError) /\
    ((exists e, fetch_samples ds idxs = inl e) <->
     exists i, In i idxs /\
       ((List.length (features_data ds) <= i)%nat \/
        (SkeletonDataset__len__ ds <= i)%nat))).
  { induction idxs as [|i idxs [IHe IHiff]].
    - split; [discriminate|]. split.
      + intros [e He]. discriminate.
      + intros (i & [] & _).
    - cbn [fetch_samples].
      destruct (dataset_getitem ds i) as (_ & _ & Hin & Hout).
      destruct (le_lt_dec (List.length (features_data ds)) i) as [Hf|Hf].
      { rewrite (Hout (or_introl Hf)). cbn [rbind]. split.
        - intros e [= <-]. reflexivity.
        - split; [|eexists; reflexivity].
          intros _. exists i. split; [left; reflexivity|left; exact Hf]. }
      destruct (le_lt_dec (SkeletonDataset__len__ ds) i) as [Hl|Hl].
      { rewrite (Hout (or_intror Hl)). cbn [rbind]. split.
        - intros e [= <-]. reflexivity.
        - split; [|eexists; reflexivity].
          intros _. exists i. split; [left; reflexivity|right; exact Hl]. }
      destruct (Hin Hf Hl) as (f & l & Hget). rewrite Hget. cbn [rbind].
      destruct (fetch_samples ds idxs) as [e|xs]; cbn [rbind].
      + split.
        * intros e' [= <-]. apply IHe. reflexivity.
        * split; [|eexists; reflexivity].
          intros _. destruct IHiff as [IHiff _].
          destruct (IHiff (ex_intro _ e eq_refl)) as (j & Hj & Hbad).
          exists j. split; [right; exact Hj|exact Hbad].
      + split; [discriminate|]. split.
        * intros [e He]. discriminate.
        * intros (j & [<-|Hj] & Hbad).
          -- destruct Hbad; lia.
          -- destruct IHiff as [_ IHiff].
             destruct (IHiff (ex_intro _ j (conj Hj Hbad))) as [e He].
             discriminate. }
  destruct Hsamples as [He Hiff].
  destruct (fetch_samples ds idxs) as [e|xs]; cbn [rbind].
  - split.
    + intros e' [= <-]. apply He. reflexivity.
    + split; [|eexists; reflexivity].
      intros _. apply Hiff. eexists. reflexivity.
  - split; [discriminate|]. split.
    + intros [e He']. discriminate.
    + intros Hbad. apply Hiff in Hbad. destruct Hbad as [e He']. discriminate.
Qed.

(** ** Precision strategy *)

Lemma micro_events_follow_precision (s : Session) (x : list Features)
    (y : list Label) (q : Z) :
  _forward s = (if mixed_precision (_config s) then amp_forward_ref
                else default_forward_ref) ->
  Forall (fun ev => follows_precision (mixed_precision (_config s)) ev = true)
    (micro_events s x y q) /\
  List.length (filter is_autocast (micro_events s x y q))
  = (if mixed_precision (_config s) then 1%nat else 0%nat).
Proof.
  intros Hfwd. unfold micro_events, forward_events. rewrite Hfwd.
  destruct (mixed_precision (_config s)), (_model_training s);
    split; repeat constructor.
Qed.

Lemma batch_fun_events_follow_precision (s : Session)
    (features : list Features) (label : list Label) :
  _forward s = (if mixed_precision (_config s) then amp_forward_ref
                else default_forward_ref) ->
  Forall (fun ev => follows_precision (mixed_precision (_config s)) ev = true)
    (batch_fun_events s features label) /\
  List.length (filter is_autocast (batch_fun_events s features label))
  = (if mixed_precision (_config s)
     then List.length (filter is_forward (batch_fun_events s features label))
     else 0%nat).
Proof.
  intros Hfwd. unfold batch_fun_events. destruct (_batch_fun s).
  - destruct (micro_events_follow_precision s features label 1 Hfwd)
      as [Hall Hcount].
    split; [exact Hall|]. rewrite Hcount, forward_count_micro. reflexivity.
  - induction (py_range (_gradient_accumulation_steps s)) as [|step l [IHa IHc]].
    + split; [constructor|]. destruct (mixed_precision (_config s)); reflexivity.
    + cbn [flat_map].
      destruct (micro_events_follow_precision s (micro_batch s features step)
                  (micro_batch s label step)
                  (Z.of_nat (List.length (micro_batch s label step))) Hfwd)
        as [Hall Hcount].
      split; [apply Forall_app; split; assumption|].
      rewrite !filter_app, !length_app, Hcount, IHc, forward_count_micro.
      destruct (mixed_precision (_config s)); reflexivity.
Qed.

(** X8: in a constructed session the precision strategy is one setting for
    the whole batch: under mixed precision every forward pass of a training
    batch runs under autocast, every backward pass goes through the loss
    scaler and the update is the scaler's step and update; without it there
    is no autocast, the backward pass is plain and the update is one
    optimizer step.  This holds whatever the metrics and the mode of the
    model are by then. *)
Theorem precision_is_consistent (env : Env) (config : Config) (s : Session)
    (m : MetricsContainer) (training : bool) (b : Batch) :
  Session__init__ env config = inr s ->
  Forall (fun ev => follows_precision (mixed_precision (_config s)) ev = true)
    (emitted (train_batch env b (set_model_training training (set_metrics m s)))) /\
  List.length
    (filter is_autocast
       (emitted (train_batch env b (set_model_training training (set_metrics m s)))))
  = (if mixed_precision (_config s)
     then List.length
            (filter is_forward
               (emitted (train_batch env b
                           (set_model_training training (set_metrics m s)))))
     else 0%nat).
Proof.
  intros Hinit. apply init_inversion in Hinit.
  destruct Hinit as (_ & _ & _ & _ & _ & Hfwd).
  rewrite train_batch_run. cbn [emitted].
  destruct b as [[features label] indices]. unfold train_batch_events.
  set (s' := set_model_training training (set_metrics m s)).
  assert (Hfwd' : _forward s' = (if mixed_precision (_config s') then amp_forward_ref
                                 else default_forward_ref)) by exact Hfwd.
  destruct (batch_fun_events_follow_precision s' features label Hfwd')
    as [Hall Hcount].
  change (mixed_precision (_config s)) with (mixed_precision (_config s')).
  split.
  - constructor; [reflexivity|].
    apply Forall_app. split; [exact Hall|].
    unfold update_events.
    destruct (mixed_precision (_config s')); repeat constructor.
  - cbn [filter is_autocast is_forward].
    rewrite !filter_app, !length_app, Hcount. unfold update_events.
    destruct (mixed_precision (_config s')); cbn; lia.
Qed.

Lemma precision_is_consistent_witness :
  exists s,
    Session__init__ demo_env (with_flags false false true demo_config) = inr s /\
    Forall (fun ev => follows_precision (mixed_precision (_config s)) ev = true)
      (emitted (train_batch demo_env (demo_features, demo_labels, [0; 1; 2; 3]%nat)
                  (set_model_training true (set_metrics zero_metrics s)))) /\
    List.length
      (filter is_autocast
         (emitted (train_batch demo_env
                     (demo_features, demo_labels, [0; 1; 2; 3]%nat)
                     (set_model_training true (set_metrics zero_metrics s)))))
    = (if mixed_precision (_config s)
       then List.length
              (filter is_forward
                 (emitted (train_batch demo_env
                             (demo_features, demo_labels, [0; 1; 2; 3]%nat)
                             (set_model_training true (set_metrics zero_metrics s)))))
       else 0%nat).
Proof.
  eexists. split; [reflexivity|].
  lazymatch goal with
  | |- context [set_metrics zero_metrics ?s] =>
      exact (precision_is_consistent demo_env
               (with_flags false false true demo_config) s zero_metrics true
               (demo_features, demo_labels, [0; 1; 2; 3]%nat) eq_refl)
  end.
Defined.

Example mixed_precision_batch_trace :
  exists s,
    Session__init__ demo_env (with_flags false false true demo_config) = inr s /\
    emitted (train_batch demo_env (demo_features, demo_labels, [0; 1; 2; 3]%nat) s)
    = [EvZeroGrad;
       EvAutocast; EvForward 2 2; EvBackward true; EvUpdateMetrics true 2;
       EvAutocast; EvForward 2 2; EvBackward true; EvUpdateMetrics true 2;
       EvScalerStep; EvScalerUpdate; EvUpdateEpochMode 0].
Proof. eexists. split; [reflexivity|]. vm_compute. reflexivity. Qed.

(** ** Passes that may fail *)

Section Traces.

(** A property of traces that holds of the empty trace and of the
    concatenation of two traces that have it. *)
Variable Q : list event -> Prop.
Hypothesis Q_nil : Q [].
Hypothesis Q_app : forall t t', Q t -> Q t' -> Q (t ++ t').

Lemma bind_trace {A B : Type} (m : M A) (k : A -> M B) (s : Session) :
  Q (emitted (m s)) ->
  (forall a, value (m s) = inr a -> Q (emitted (k a (final (m s))))) ->
  Q (emitted (bind m k s)).
Proof.
  intros Hm Hk. unfold bind.
  destruct (value (m s)) as [e|a] eqn:Hv; cbn [emitted]; [exact Hm|].
  apply Q_app; [exact Hm|apply Hk; reflexivity].
Qed.

Lemma for_each_trace {A : Type} (Inv : Session -> Prop) (body : A -> M unit) :
  (forall x s, Inv s -> Q (emitted (body x s)) /\ Inv (final (body x s))) ->
  forall (l : list A) (s : Session), Inv s -> Q (emitted (for_each l body s)).
Proof.
  intros Hbody l. induction l as [|x l IH]; intros s Hs.
  - exact Q_nil.
  - cbn [for_each]. destruct (Hbody x s Hs) as [Hq Hinv].
    apply bind_trace; [exact Hq|]. intros _ _. apply IH, Hinv.
Qed.

Lemma for_batches_trace (env : Env) (Inv : Session -> Prop)
    (body : Batch -> M unit) (dl : DataLoader) :
  (forall b s, Inv s -> Q (emitted (body b s)) /\ Inv (final (body b s))) ->
  forall s, Inv s -> Q (emitted (for_batches env dl body s)).
Proof.
  intros Hbody s Hs. unfold for_batches.
  apply (for_each_trace Inv); [|exact Hs].
  intros idxs s0 Hs0.
  destruct (fetch_batch (dl_dataset dl) idxs) as [e|b]; cbn [lift].
  - split; [exact Q_nil|exact Hs0].
  - rewrite bind_ret_l. apply Hbody, Hs0.
Qed.

End Traces.

Section Passes.

Variable env : Env.

(** A validation pass either stops before the first batch, for want of a
    session type or of a loader, or it runs the batches of its loader. *)
Lemma validate_epoch_cases (s : Session) :
  (exists e,
     _validate_epoch env s
     = mkOutcome (inl e) (set_model_training false s) [EvModelEval]) \/
  (exists dl mode,
     _validate_epoch env s
     = mkOutcome
         (value (for_batches env dl (validate_batch env mode)
                   (set_model_training false s)))
         (final (for_batches env dl (validate_batch env mode)
                   (set_model_training false s)))
         (EvModelEval
          :: emitted (for_batches env dl (validate_batch env mode)
                        (set_model_training false s)))).
Proof.
  unfold _validate_epoch.
  destruct (_session_type s) as [ty|] eqn:Hty.
  - destruct (dict_get (_data_loader s) "val") as [e|dl] eqn:Hdl.
    + left. exists e. etransitivity.
      * prim. prim.
        eapply bind_ok; [apply getattr_session_type_some; exact Hty|].
        prim. rewrite Hdl. apply bind_err. reflexivity.
      * reflexivity.
    + right. exists dl, (if String.eqb ty "training" then 1 else 0).
      etransitivity.
      * prim. prim.
        eapply bind_ok; [apply getattr_session_type_some; exact Hty|].
        prim. rewrite Hdl. prim. symmetry. apply outcome_eta.
      * reflexivity.
  - left. exists (AttributeError "_session_type"). etransitivity.
    + prim. prim. apply bind_err.
      apply getattr_session_type_none. exact Hty.
    + reflexivity.
Qed.


End Passes.

Section PassProperties.

Variable env : Env.

Lemma batch_fun_events_evaluation (s : Session) (features : list Features)
    (label : list Label) :
  _model_training s = false ->
  Forall (fun ev => is_evaluation_event ev = true)
    (batch_fun_events s features label).
Proof.
  intros Hmode.
  assert (Hmicro : forall x y q,
            Forall (fun ev => is_evaluation_event ev = true)
              (micro_events s x y q)).
  { intros x y q. unfold micro_events, forward_events. rewrite Hmode.
    destruct (_forward s); repeat constructor. }
  unfold batch_fun_events. destruct (_batch_fun s).
  - apply Hmicro.
  - apply Forall_flat_map_intro. intros step. apply Hmicro.
Qed.

(** X9: a validation pass computes no gradient and updates no parameter,
    on any session and also when it fails on the way: its trace has no
    [zero_grad], no backward pass, no optimizer or loss-scaler step and no
    switch to training mode, and every metric update in it goes to the
    validation metrics. *)
Theorem validation_pass_touches_no_gradient (s : Session) :
  Forall (fun ev => is_evaluation_event ev = true)
    (emitted (_validate_epoch env s)).
Proof.
  destruct (validate_epoch_cases env s) as [[e ->]|(dl & mode & ->)];
    cbn [emitted].
  - repeat constructor.
  - constructor; [reflexivity|].
    apply (for_batches_trace (Forall (fun ev => is_evaluation_event ev = true))
             (Forall_nil _)
             (fun t t' Ht Ht' => proj2 (Forall_app _ t t') (conj Ht Ht'))
             env (fun s => _model_training s = false)); [|reflexivity].
    intros b s0 Hs0. rewrite validate_batch_run. cbn [emitted final].
    split; [|exact Hs0].
    destruct b as [[features label] indices]. unfold validate_batch_events.
    apply Forall_app. split.
    + apply batch_fun_events_evaluation, Hs0.
    + repeat constructor.
Qed.






End PassProperties.

(** A pass over a loader whose second batch cannot be fetched: the first
    batch is trained on in full, and the pass stops with [IndexError]. *)
Example training_pass_stops_between_batches :
  value (_train_epoch demo_env
           (set_data_loader "train"
              (mkDataLoader (mkDataset [[1%Q]; [2%Q]; [3%Q]] [0; 1; 0; 1]) 2
                 false true)
              (demo_session (with_sizes 2 2 6 demo_config) 0)))
  = inl IndexError /\
  emitted (_train_epoch demo_env
             (set_data_loader "train"
                (mkDataLoader (mkDataset [[1%Q]; [2%Q]; [3%Q]] [0; 1; 0; 1]) 2
                   false true)
                (demo_session (with_sizes 2 2 6 demo_config) 0)))
  = [EvModelTrain; EvZeroGrad; EvForward 2 1; EvBackward false;
     EvUpdateMetrics true 2; EvOptimizerStep; EvUpdateEpochMode 0].
Proof. vm_compute. split; reflexivity. Qed.

(** ** Coverage of the data by a pass *)

Lemma fetch_all_spec (ds : SkeletonDataset) (groups : list (list nat))
    (bs : list Batch) :
  fetch_all ds groups = inr bs ->
  Forall2 (fun idxs b => fetch_batch ds idxs = inr b) groups bs.
Proof.
  revert bs. induction groups as [|idxs groups IH]; intros bs.
  - intros H. apply inr_inj in H. subst bs. constructor.
  - cbn [fetch_all].
    destruct (fetch_batch ds idxs) as [e|b] eqn:Hb; cbn [rbind]; [discriminate|].
    destruct (fetch_all ds groups) as [e|bs']; cbn [rbind]; [discriminate|].
    intros H. apply inr_inj in H. subst bs.
    constructor; [exact Hb|apply IH; reflexivity].
Qed.

Lemma fetched_batch_lengths (ds : SkeletonDataset) (idxs : list nat) (b : Batch) :
  fetch_batch ds idxs = inr b ->
  List.length (fst (fst b)) = List.length idxs /\
  List.length (snd (fst b)) = List.length idxs.
Proof.
  destruct b as [[features label] indices]. intros Hb.
  destruct (fetch_batch_contents ds idxs features label indices Hb)
    as (_ & Hf & Hl & _).
  split; assumption.
Qed.

(** With [drop_last] every batch of the loader has the loader's size. *)
Lemma drop_last_batches_are_full (env : Env) (dl : DataLoader) (bs : list Batch) :
  dl_drop_last dl = true ->
  loader_batches env dl = inr bs ->
  Forall (fun b =>
            List.length (fst (fst b)) = Z.to_nat (dl_batch_size dl) /\
            List.length (snd (fst b)) = Z.to_nat (dl_batch_size dl)) bs.
Proof.
  intros Hdrop Hbs. unfold loader_batches in Hbs.
  apply fetch_all_spec in Hbs.
  assert (Hgroups : Forall (fun g => List.length g = Z.to_nat (dl_batch_size dl))
                      (loader_index_batches env dl)).
  { unfold loader_index_batches. rewrite Hdrop.
    apply Forall_forall. intros g Hg. apply filter_In in Hg.
    destruct Hg as [_ Hg]. apply Nat.eqb_eq in Hg. exact Hg. }
  induction Hbs as [|g b groups bs Hb _ IH]; [constructor|].
  inversion Hgroups as [|? ? Hg Hrest]; subst.
  constructor; [|apply IH, Hrest].
  destruct (fetched_batch_lengths _ _ _ Hb) as [Hf Hl].
  rewrite Hf, Hl, Hg. split; reflexivity.
Qed.

Lemma forwarded_samples_train_batch (s : Session) (b : Batch) :
  forwarded_samples (train_batch_events s b)
  = forwarded_samples (batch_fun_events s (fst (fst b)) (snd (fst b))).
Proof.
  destruct b as [[features label] indices]. unfold train_batch_events.
  cbn [forwarded_samples fst snd].
  rewrite !forwarded_samples_app. unfold update_events.
  destruct (mixed_precision (_config s)); cbn; lia.
Qed.

Lemma forwarded_samples_validate_batch (mode : Z) (s : Session) (b : Batch) :
  forwarded_samples (validate_batch_events mode s b)
  = forwarded_samples (batch_fun_events s (fst (fst b)) (snd (fst b))).
Proof.
  destruct b as [[features label] indices]. unfold validate_batch_events.
  cbn [fst snd]. rewrite forwarded_samples_app. cbn. lia.
Qed.

Lemma forwarded_samples_flat_map {A : Type} (f : A -> list event)
    (g : A -> nat) (l : list A) :
  Forall (fun x => forwarded_samples (f x) = g x) l ->
  forwarded_samples (flat_map f l) = list_sum (map g l).
Proof.
  induction 1 as [|x l Hx _ IH]; [reflexivity|].
  cbn [flat_map map list_sum fold_right].
  rewrite forwarded_samples_app, Hx. fold (list_sum (map g l)).
  rewrite IH. reflexivity.
Qed.

Lemma list_sum_constant {A : Type} (g : A -> nat) (c : nat) (l : list A) :
  Forall (fun x => g x = c) l -> list_sum (map g l) = (List.length l * c)%nat.
Proof.
  induction 1 as [|x l Hx _ IH]; [reflexivity|].
  cbn [map list_sum fold_right List.length]. fold (list_sum (map g l)).
  rewrite Hx, IH. lia.
Qed.

(** X11: with the accumulating strategy, an exact ratio of batch size and
    step size, and the training loader dropping the incomplete last batch,
    a training pass puts every sample of every batch through the model
    exactly once: the micro-batches of each batch are the batch, cut in
    order. *)
Theorem accum_training_pass_covers_every_batch (env : Env) (s : Session)
    (dl : DataLoader) (bs : list Batch) :
  _batch_fun s = single_batch_accum_ref ->
  0 < grad_accum_step (_config s) ->
  0 <= batch_size (_config s) ->
  batch_size (_config s) mod grad_accum_step (_config s) = 0 ->
  _gradient_accumulation_steps s
    = batch_size (_config s) / grad_accum_step (_config s) ->
  dict_get (_data_loader s) "train" = inr dl ->
  dl_drop_last dl = true ->
  dl_batch_size dl = batch_size (_config s) ->
  loader_batches env dl = inr bs ->
  Forall (fun b =>
            List.concat (map (micro_batch s (fst (fst b)))
                           (py_range (_gradient_accumulation_steps s)))
            = fst (fst b) /\
            List.concat (map (micro_batch s (snd (fst b)))
                           (py_range (_gradient_accumulation_steps s)))
            = snd (fst b)) bs /\
  forwarded_samples (emitted (_train_epoch env s))
  = (List.length bs * Z.to_nat (batch_size (_config s)))%nat.
Proof.
  intros Hfun Hstep Hsize Hmod Hsteps Hdl Hdrop Hbsize Hbs.
  pose proof (drop_last_batches_are_full env dl bs Hdrop Hbs) as Hfull.
  rewrite Hbsize in Hfull.
  assert (Hcover : forall A (l : list A),
            List.length l = Z.to_nat (batch_size (_config s)) ->
            List.concat (map (micro_batch s l)
                           (py_range (_gradient_accumulation_steps s))) = l).
  { intros A l Hl. rewrite micro_batches_concat by lia.
    apply firstn_all2.
    apply Z.div_exact in Hmod; [|lia]. rewrite <- Hsteps in Hmod.
    assert (0 <= _gradient_accumulation_steps s)
      by (rewrite Hsteps; apply Z.div_pos; lia).
    nia. }
  split.
  - eapply Forall_impl; [|exact Hfull].
    intros b [Hf Hl]. split; apply Hcover; assumption.
  - rewrite (train_epoch_run env s dl bs Hdl Hbs). cbn [emitted].
    unfold train_pass_events. cbn [forwarded_samples].
    rewrite (forwarded_samples_flat_map _
               (fun _ => Z.to_nat (batch_size (_config s)))).
    + apply list_sum_constant. apply Forall_forall. reflexivity.
    + eapply Forall_impl; [|exact Hfull].
      intros b [Hf Hl]. rewrite forwarded_samples_train_batch.
      unfold batch_fun_events. cbn [_batch_fun set_model_training].
      rewrite Hfun.
      change (forwarded_samples
                (flat_map
                   (fun step =>
                      micro_events (set_model_training true s)
                        (micro_batch (set_model_training true s) (fst (fst b)) step)
                        (micro_batch (set_model_training true s) (snd (fst b)) step)
                        (Z.of_nat
                           (List.length
                              (micro_batch (set_model_training true s)
                                 (snd (fst b)) step))))
                   (py_range (_gradient_accumulation_steps s)))
              = Z.to_nat (batch_size (_config s))).
      rewrite forwarded_samples_accum.
      change (List.length
                (List.concat
                   (map (micro_batch s (fst (fst b)))
                      (py_range (_gradient_accumulation_steps s))))
              = Z.to_nat (batch_size (_config s))).
      rewrite (Hcover _ _ Hf). exact Hf.
Qed.

Lemma accum_training_pass_covers_every_batch_witness :
  Forall (fun b =>
            List.concat (map (micro_batch (demo_session demo_config 0) (fst (fst b)))
                           (py_range (_gradient_accumulation_steps
                                        (demo_session demo_config 0))))
            = fst (fst b) /\
            List.concat (map (micro_batch (demo_session demo_config 0) (snd (fst b)))
                           (py_range (_gradient_accumulation_steps
                                        (demo_session demo_config 0))))
            = snd (fst b))
    (demo_batches (demo_session demo_config 0) "train") /\
  forwarded_samples (emitted (_train_epoch demo_env (demo_session demo_config 0)))
  = (List.length (demo_batches (demo_session demo_config 0) "train")
     * Z.to_nat 4)%nat.
Proof.
  refine (accum_training_pass_covers_every_batch demo_env
            (demo_session demo_config 0) (demo_loader 4 true)
            (demo_batches (demo_session demo_config 0) "train")
            eq_refl _ _ eq_refl eq_refl eq_refl eq_refl eq_refl _).
  - vm_compute. reflexivity.
  - vm_compute. discriminate.
  - vm_compute. reflexivity.
Defined.

Lemma chunks_aux_concat {A : Type} (k : nat) (fuel : nat) (l : list A) :
  (0 < k)%nat -> (List.length l <= fuel)%nat ->
  List.concat (chunks_aux fuel k l) = l.
Proof.
  intros Hk. revert l. induction fuel as [|fuel IH]; intros l Hl.
  - destruct l; [reflexivity|cbn in Hl; lia].
  - destruct l as [|x l]; [reflexivity|].
    cbn [chunks_aux List.concat].
    rewrite IH.
    + apply firstn_skipn.
    + rewrite length_skipn. cbn [List.length] in *. lia.
Qed.

Lemma chunks_concat {A : Type} (k : nat) (l : list A) :
  (0 < k)%nat -> List.concat (chunks k l) = l.
Proof. intros Hk. apply chunks_aux_concat; [exact Hk|lia]. Qed.

Lemma fetched_features_total (ds : SkeletonDataset) (groups : list (list nat))
    (bs : list Batch) :
  Forall2 (fun idxs b => fetch_batch ds idxs = inr b) groups bs ->
  list_sum (map (fun b => List.length (fst (fst b))) bs)
  = List.length (List.concat groups).
Proof.
  induction 1 as [|g b groups bs Hb _ IH]; [reflexivity|].
  cbn [map list_sum fold_right List.concat].
  fold (list_sum (map (fun b => List.length (fst (fst b))) bs)).
  rewrite length_app, IH.
  destruct (fetched_batch_lengths _ _ _ Hb) as [Hf _]. rewrite Hf. reflexivity.
Qed.

(** X12: with the simple strategy, a validation pass over a loader that
    neither shuffles nor drops the last batch puts every sample of the
    validation dataset through the model exactly once, whatever the batch
    size is and also when the last batch is incomplete. *)
Theorem simple_validation_pass_covers_dataset (env : Env) (s : Session)
    (ty : string) (dl : DataLoader) (bs : list Batch) :
  _batch_fun s = single_batch_ref ->
  _session_type s = Some ty ->
  dict_get (_data_loader s) "val" = inr dl ->
  dl_shuffle dl = false ->
  dl_drop_last dl = false ->
  0 < dl_batch_size dl ->
  loader_batches env dl = inr bs ->
  forwarded_samples (emitted (_validate_epoch env s))
  = SkeletonDataset__len__ (dl_dataset dl).
Proof.
  intros Hfun Hty Hdl Hshuffle Hdrop Hsize Hbs.
  rewrite (validate_epoch_run env s ty dl bs Hty Hdl Hbs). cbn [emitted].
  unfold validation_pass_events. cbn [forwarded_samples].
  rewrite (forwarded_samples_flat_map _
             (fun b : Batch => List.length (fst (fst b)))).
  - unfold loader_batches in Hbs. apply fetch_all_spec in Hbs.
    transitivity (List.length (List.concat (loader_index_batches env dl)));
      [exact (fetched_features_total _ _ _ Hbs)|].
    unfold loader_index_batches. rewrite Hshuffle, Hdrop.
    rewrite chunks_concat by lia. apply length_seq.
  - apply Forall_forall. intros b _.
    rewrite forwarded_samples_validate_batch.
    unfold batch_fun_events. cbn [_batch_fun set_model_training].
    rewrite Hfun. apply forwarded_samples_micro.
Qed.

Lemma simple_validation_pass_covers_dataset_witness :
  forwarded_samples
    (emitted (_validate_epoch demo_env
                (demo_session (with_sizes 4 4 4 demo_config) 0)))
  = SkeletonDataset__len__ (dl_dataset (demo_loader 4 false)).
Proof.
  refine (simple_validation_pass_covers_dataset demo_env
            (demo_session (with_sizes 4 4 4 demo_config) 0) "training"
            (demo_loader 4 false)
            (demo_batches (demo_session (with_sizes 4 4 4 demo_config) 0) "val")
            eq_refl eq_refl eq_refl eq_refl eq_refl _ _).
  - vm_compute. reflexivity.
  - vm_compute. reflexivity.
Defined.

Example simple_validation_partial_last_batch :
  emitted (_validate_epoch demo_env
             (demo_session (with_sizes 4 4 4 demo_config) 0))
  = [EvModelEval;
     EvForward 4 1; EvUpdateMetrics false 4; EvUpdateEpochMode 1;
     EvForward 2 1; EvUpdateMetrics false 2; EvUpdateEpochMode 1].
Proof. vm_compute. reflexivity. Qed.

(** ** The epoch loop: checkpoints, reports and what it leaves behind *)

Lemma saved_epochs_app (t t' : list event) :
  saved_epochs (t ++ t') = saved_epochs t ++ saved_epochs t'.
Proof.
  induction t as [|ev t IH]; [reflexivity|].
  destruct ev; cbn [app saved_epochs]; rewrite IH; reflexivity.
Qed.

Lemma reported_epochs_app (t t' : list event) :
  reported_epochs (t ++ t') = reported_epochs t ++ reported_epochs t'.
Proof.
  induction t as [|ev t IH]; [reflexivity|].
  destruct ev; cbn [app reported_epochs]; rewrite IH; reflexivity.
Qed.

Lemma pass_events_save_and_report_nothing (t : list event) :
  Forall (fun ev => is_pass_event ev = true) t ->
  saved_epochs t = [] /\ reported_epochs t = [].
Proof.
  induction 1 as [|ev t Hev _ [IHs IHr]]; [split; reflexivity|].
  destruct ev; cbn in Hev; try discriminate;
    cbn [saved_epochs reported_epochs]; split; assumption.
Qed.

Lemma saved_and_reported_of_epoch (s : Session) (ty : string)
    (train_batches val_batches : list Batch) (epoch : Z) :
  saved_epochs (epoch_events s ty train_batches val_batches epoch)
  = (if _reporter s then [] else [epoch]) /\
  reported_epochs (epoch_events s ty train_batches val_batches epoch)
  = (if _reporter s then [epoch] else []).
Proof.
  unfold epoch_events, epoch_close_events.
  rewrite !saved_epochs_app, !reported_epochs_app.
  destruct (pass_events_save_and_report_nothing _
              (train_pass_events_are_pass_events s train_batches)) as [-> ->].
  destruct (pass_events_save_and_report_nothing _
              (validation_pass_events_are_pass_events ty s val_batches))
    as [-> ->].
  destruct (_lr_scheduler s), (_reporter s); split; reflexivity.
Qed.

Lemma saved_and_reported_of_epochs (s : Session) (ty : string)
    (train_batches val_batches : list Batch) (l : list Z) :
  saved_epochs
    (flat_map (epoch_events s ty train_batches val_batches) l ++ [EvSaveWeights])
  = (if _reporter s then [] else l) /\
  reported_epochs
    (flat_map (epoch_events s ty train_batches val_batches) l ++ [EvSaveWeights])
  = (if _reporter s then l else []).
Proof.
  rewrite saved_epochs_app, reported_epochs_app.
  cbn [saved_epochs reported_epochs]. rewrite !app_nil_r.
  induction l as [|epoch l [IHs IHr]]; cbn [flat_map].
  - destruct (_reporter s); split; reflexivity.
  - rewrite saved_epochs_app, reported_epochs_app, IHs, IHr.
    destruct (saved_and_reported_of_epoch s ty train_batches val_batches epoch)
      as [-> ->].
    destruct (_reporter s); split; reflexivity.
Qed.


(** X13: on a session that is ready to train, the epoch loop either saves
    one checkpoint per epoch, for the epochs 0, 1, ... in order and under the
    epoch's own index, or, when a reporter was passed to [start], reports
    each epoch and saves no checkpoint at all; the final weights are saved
    once, as the last action, in both cases. *)
Theorem epoch_loop_checkpoints_or_reports (env : Env) (s : Session)
    (ty : string) (train_batches val_batches : list Batch) :
  ready env s ty train_batches val_batches ->
  saved_epochs (emitted (_start_training env s))
  = (if _reporter s then [] else py_range (epochs (_config s))) /\
  reported_epochs (emitted (_start_training env s))
  = (if _reporter s then py_range (epochs (_config s)) else []) /\
  (exists t, emitted (_start_training env s) = t ++ [EvSaveWeights] /\
             ~ In EvSaveWeights t).
Proof.
  intros Hready.
  rewrite (start_training_run env s ty train_batches val_batches Hready).
  cbn [emitted].
  destruct (saved_and_reported_of_epochs s ty train_batches val_batches
              (py_range (epochs (_config s)))) as [Hs Hr].
  split; [exact Hs|]. split; [exact Hr|].
  eexists. split; [reflexivity|].
  intros Hin. apply in_flat_map in Hin. destruct Hin as (epoch & _ & Hin).
  unfold epoch_events, epoch_close_events in Hin.
  repeat (apply in_app_or in Hin; destruct Hin as [Hin|Hin]).
  - cbn in Hin. intuition discriminate.
  - pose proof (train_pass_events_are_pass_events s train_batches) as Hall.
    rewrite Forall_forall in Hall. specialize (Hall _ Hin). discriminate.
  - cbn in Hin. intuition discriminate.
  - pose proof (validation_pass_events_are_pass_events ty s val_batches) as Hall.
    rewrite Forall_forall in Hall. specialize (Hall _ Hin). discriminate.
  - destruct (_lr_scheduler s), (_reporter s); cbn in Hin;
      intuition discriminate.
Qed.

Lemma epoch_loop_checkpoints_or_reports_witness :
  saved_epochs (emitted (_start_training demo_env
                           (demo_session (with_epochs 3 demo_config) 0)))
  = py_range 3 /\
  reported_epochs (emitted (_start_training demo_env
                              (demo_session (with_epochs 3 demo_config) 0)))
  = [] /\
  (exists t,
     emitted (_start_training demo_env
                (demo_session (with_epochs 3 demo_config) 0))
     = t ++ [EvSaveWeights] /\ ~ In EvSaveWeights t).
Proof.
  refine (epoch_loop_checkpoints_or_reports demo_env
            (demo_session (with_epochs 3 demo_config) 0) "training"
            (demo_batches (demo_session (with_epochs 3 demo_config) 0) "train")
            (demo_batches (demo_session (with_epochs 3 demo_config) 0) "val") _).
  split; [reflexivity|].
  split; eexists; (split; [reflexivity|vm_compute; reflexivity]).
Defined.





(** ** Edge cases of the batch functions and of the passes *)

(** X16: when the batch size is smaller than the accumulation step size,
    construction selects the accumulating strategy with zero micro-batches:
    the batch function then runs no forward pass and updates no metric, and
    a training batch is nothing but the gradient reset, the parameter update
    and the progress update. *)
Theorem small_batch_size_runs_no_micro_batch (env : Env) (config : Config)
    (s : Session) (m : MetricsContainer) (training : bool)
    (features : list Features) (label : list Label) (indices : list nat) :
  Session__init__ env config = inr s ->
  0 <= batch_size (_config s) < grad_accum_step (_config s) ->
  _batch_fun s = single_batch_accum_ref /\
  _gradient_accumulation_steps s = 0 /\
  call_batch_fun env features label
    (set_model_training training (set_metrics m s))
  = mkOutcome (inr tt) (set_model_training training (set_metrics m s)) [] /\
  emitted (train_batch env (features, label, indices)
             (set_model_training training (set_metrics m s)))
  = EvZeroGrad
    :: (if mixed_precision (_config s) then [EvScalerStep; EvScalerUpdate]
        else [EvOptimizerStep])
    ++ [EvUpdateEpochMode 0].
Proof.
  intros Hinit Hsmall. apply init_inversion in Hinit.
  destruct Hinit as (_ & Hstrat & _).
  destruct (Z.eqb_spec (batch_size (_config s)) (grad_accum_step (_config s)))
    as [Heq|Hne]; [lia|].
  destruct Hstrat as (Hfun & _ & Hsteps).
  rewrite Z.div_small in Hsteps by exact Hsmall.
  split; [exact Hfun|]. split; [exact Hsteps|].
  assert (Hev : batch_fun_events
                  (set_model_training training (set_metrics m s)) features label
                = []).
  { unfold batch_fun_events.
    cbn [_batch_fun _gradient_accumulation_steps set_model_training set_metrics].
    rewrite Hfun, Hsteps. reflexivity. }
  assert (Hmet : batch_fun_metrics env
                   (set_model_training training (set_metrics m s)) features label
                 = m).
  { unfold batch_fun_metrics.
    cbn [_batch_fun _gradient_accumulation_steps _metrics set_model_training
         set_metrics].
    rewrite Hfun, Hsteps. reflexivity. }
  split.
  - rewrite call_batch_fun_run, Hev, Hmet. destruct s; reflexivity.
  - rewrite train_batch_run. cbn [emitted]. unfold train_batch_events.
    rewrite Hev. reflexivity.
Qed.

Lemma small_batch_size_runs_no_micro_batch_witness :
  exists s,
    Session__init__ demo_env (with_sizes 2 4 6 demo_config) = inr s /\
    _batch_fun s = single_batch_accum_ref /\
    _gradient_accumulation_steps s = 0 /\
    call_batch_fun demo_env demo_features demo_labels
      (set_model_training true (set_metrics zero_metrics s))
    = mkOutcome (inr tt) (set_model_training true (set_metrics zero_metrics s)) [] /\
    emitted (train_batch demo_env (demo_features, demo_labels, [0; 1; 2; 3]%nat)
               (set_model_training true (set_metrics zero_metrics s)))
    = EvZeroGrad
      :: (if mixed_precision (_config s) then [EvScalerStep; EvScalerUpdate]
          else [EvOptimizerStep])
      ++ [EvUpdateEpochMode 0].
Proof.
  eexists. split; [reflexivity|].
  lazymatch goal with
  | |- _batch_fun ?s = _ /\ _ =>
      refine (small_batch_size_runs_no_micro_batch demo_env
                (with_sizes 2 4 6 demo_config) s zero_metrics true
                demo_features demo_labels [0; 1; 2; 3]%nat eq_refl _)
  end.
  vm_compute. split; [discriminate|reflexivity].
Defined.

(** ** What [start] does with a constructed session *)

Lemma initialize_model_load_fails (env : Env) (s : Session) (mc : ModelConfig)
    (e : exn) :
  is_resume s = true ->
  load_latest env (checkpoint_path s) = inl e ->
  _initialize_model env (Some mc) s
  = mkOutcome (inl e)
      (set_lr_scheduler (create_learning_rate_scheduler env (mc_lr_scheduler mc))
         (set_model_training true s))
      (init_events ++ [EvLoadLatest]).
Proof.
  intros Hres He. unfold _initialize_model. cbn. rewrite Hres. cbn.
  rewrite He. cbn.
  destruct (String.eqb (lr_scheduler (_config s)) "onecycle"); reflexivity.
Qed.

Lemma load_data_rejects_test_batch_size (env : Env) (s : Session) (ty : string) :
  _session_type s = Some ty ->
  String.eqb ty "training" = false ->
  test_batch_size (_config s) <= 0 ->
  _load_data env s
  = mkOutcome (inl (ValueError "batch_size should be a positive integer value"))
      s [].
Proof.
  intros Hty Hne Hpos. unfold _load_data.
  erewrite bind_run_inr by (apply getattr_session_type_some, Hty).
  assert (Hle : (test_batch_size (_config s) <=? 0) = true)
    by (apply Z.leb_le; lia).
  cbn. rewrite Hne. cbn. unfold DataLoader_new. rewrite Hle. reflexivity.
Qed.

Lemma start_rejects_test_batch_size (env : Env) (s : Session) (mc : ModelConfig)
    (r : bool) (ty : string) :
  is_resume s = false ->
  _session_type s = Some ty ->
  String.eqb ty "training" = false ->
  test_batch_size (_config s) <= 0 ->
  start env (Some mc) r s
  = mkOutcome (inl (ValueError "batch_size should be a positive integer value"))
      (set_lr_scheduler (create_learning_rate_scheduler env (mc_lr_scheduler mc))
         (set_model_training true s))
      init_events.
Proof.
  intros Hfresh Hty Hne Hpos. etransitivity.
  - unfold start.
    eapply bind_ok; [apply initialize_model_fresh, Hfresh|].
    apply bind_err. apply load_data_rejects_test_batch_size with (ty := ty).
    + exact Hty.
    + exact Hne.
    + exact Hpos.
  - reflexivity.
Qed.

Lemma init_events_are_set_up :
  Forall (fun ev => is_pass_event ev = false) init_events.
Proof. repeat constructor. Qed.

Lemma prologue_events_are_set_up (is_tuning : bool) (ty : string) :
  Forall (fun ev => is_pass_event ev = false) (prologue_events is_tuning ty).
Proof. destruct is_tuning; repeat constructor. Qed.

(** The ways [start] ends on a session that [__init__] built. *)
Lemma start_cases (env : Env) (config : Config) (s : Session)
    (cfg : option ModelConfig) (r : bool) :
  Session__init__ env config = inr s ->
  (exists e, value (start env cfg r s) = inl e /\
     (emitted (start env cfg r s) = firstn 5 init_events \/
      emitted (start env cfg r s) = init_events \/
      emitted (start env cfg r s) = init_events ++ [EvLoadLatest] \/
      exists ty,
        emitted (start env cfg r s)
        = init_events
          ++ EvDataLoader "val" (test_batch_size (_config s)) false false
          :: prologue_events (tuning (_config s)) ty) /\
     ~ (cfg <> None /\ _session_type s = Some "validation" /\
        0 < test_batch_size (_config s))) \/
  (value (start env cfg r s) = inr tt /\
   emitted (start env cfg r s)
   = init_events
     ++ EvDataLoader "val" (test_batch_size (_config s)) false false
     :: prologue_events (tuning (_config s)) "validation"
     ++ EvEndSession :: (if tuning (_config s) then [EvCloseLog] else []) /\
   cfg <> None /\ _session_type s = Some "validation" /\
   0 < test_batch_size (_config s)).
Proof.
  intros Hinit. pose proof (init_inversion env config s Hinit) as Hinv.
  destruct cfg as [mc|].
  2:{ left. rewrite start_without_model_config. cbn [value emitted].
      eexists. split; [reflexivity|]. split; [left; reflexivity|].
      intros [H _]. congruence. }
  destruct Hinv as [Hid _].
  destruct (session_id config) as [sid|].
  - destruct Hid as (Hres & Hty & _). left.
    destruct (load_latest env (checkpoint_path s)) as [e|cp] eqn:Hcp.
    + unfold start.
      erewrite bind_err by (apply initialize_model_load_fails; eassumption).
      cbn [value emitted]. eexists. split; [reflexivity|].
      split; [right; right; left; reflexivity|].
      intros (_ & H & _). congruence.
    + rewrite (start_resumed env s mc r cp Hres Hty Hcp). cbn [value emitted].
      eexists. split; [reflexivity|].
      split; [right; right; left; reflexivity|].
      intros (_ & H & _). congruence.
  - destruct Hid as (Hfresh & _ & Hty).
    destruct (String.eqb (py_or (session_type config) "training") "training")
      eqn:Htr.
    + left. apply String.eqb_eq in Htr. rewrite Htr in Hty.
      rewrite (start_training_fresh env s mc r Hfresh Hty). cbn [value emitted].
      eexists. split; [reflexivity|].
      split; [right; left; reflexivity|].
      intros (_ & H & _). congruence.
    + destruct (Z_lt_le_dec 0 (test_batch_size (_config s))) as [Hpos|Hpos].
      * rewrite (start_other env s mc r _ Hfresh Hty Htr Hpos).
        destruct (String.eqb (py_or (session_type config) "training")
                    "validation") eqn:Hval.
        -- right. apply String.eqb_eq in Hval. rewrite Hval in *.
           cbn [value emitted]. repeat split; try assumption. congruence.
        -- left. cbn [value emitted]. eexists. split; [reflexivity|].
           split; [right; right; right; eexists; reflexivity|].
           intros (_ & H & _). rewrite Hty in H. injection H as H.
           rewrite H in Hval. discriminate.
      * left.
        rewrite (start_rejects_test_batch_size env s mc r _ Hfresh Hty Htr Hpos).
        cbn [value emitted]. eexists. split; [reflexivity|].
        split; [right; left; reflexivity|].
        intros (_ & _ & H). lia.
Qed.

(** X17: whatever the configuration, a session that [__init__] built runs no
    training or validation pass when started, and saves neither weights nor
    checkpoints. [start] returns normally in exactly one case: a model
    configuration is given, the session type is "validation" and the test
    batch size is positive (the collaborators other than the checkpoint
    load are taken not to fail). *)
Theorem start_never_runs_a_pass (env : Env) (config : Config) (s : Session)
    (cfg : option ModelConfig) (reporter : bool) :
  Session__init__ env config = inr s ->
  (value (start env cfg reporter s) = inr tt <->
   cfg <> None /\ _session_type s = Some "validation" /\
   0 < test_batch_size (_config s)) /\
  Forall (fun ev => is_pass_event ev = false)
    (emitted (start env cfg reporter s)) /\
  ~ In EvSaveWeights (emitted (start env cfg reporter s)) /\
  saved_epochs (emitted (start env cfg reporter s)) = [].
Proof.
  intros Hinit.
  destruct (start_cases env config s cfg reporter Hinit)
    as [(e & Hv & Ht & Hno)|(Hv & Ht & Hyes)].
  - split; [split; [congruence|tauto]|].
    destruct Ht as [Ht|[Ht|[Ht|[ty Ht]]]]; rewrite Ht.
    + split; [repeat constructor|]. split; [|reflexivity].
      cbn. intuition discriminate.
    + split; [apply init_events_are_set_up|]. split; [|reflexivity].
      cbn. intuition discriminate.
    + split; [repeat constructor|]. split; [|reflexivity].
      cbn. intuition discriminate.
    + split; [|split].
      * apply Forall_app. split; [apply init_events_are_set_up|].
        constructor; [reflexivity|apply prologue_events_are_set_up].
      * destruct (tuning (_config s)); cbn; intuition discriminate.
      * destruct (tuning (_config s)); reflexivity.
  - split; [tauto|]. rewrite Ht. split; [|split].
    + apply Forall_app. split; [apply init_events_are_set_up|].
      constructor; [reflexivity|].
      apply Forall_app. split; [apply prologue_events_are_set_up|].
      destruct (tuning (_config s)); repeat constructor.
    + destruct (tuning (_config s)); cbn; intuition discriminate.
    + destruct (tuning (_config s)); reflexivity.
Qed.

Lemma start_never_runs_a_pass_witness :
  exists s,
    Session__init__ demo_env demo_config = inr s /\
    (value (start demo_env (Some demo_model_config) false s) = inr tt <->
     Some demo_model_config <> None /\ _session_type s = Some "validation" /\
     0 < test_batch_size (_config s)) /\
    Forall (fun ev => is_pass_event ev = false)
      (emitted (start demo_env (Some demo_model_config) false s)) /\
    ~ In EvSaveWeights (emitted (start demo_env (Some demo_model_config) false s)) /\
    saved_epochs (emitted (start demo_env (Some demo_model_config) false s)) = [].
Proof.
  eexists. split; [reflexivity|].
  lazymatch goal with
  | |- context [start _ _ _ ?s] =>
      exact (start_never_runs_a_pass demo_env demo_config s
               (Some demo_model_config) false eq_refl)
  end.
Defined.

(** X18: [start] leaves the log file open (opened and never closed) in
    exactly one situation: tuning is on and the session type is neither
    "training" nor "validation", so that the dispatch raises after the log
    was opened (a model configuration is given and the test batch size is
    positive, otherwise [start] fails before it opens the log). *)
Theorem start_leaves_log_open_iff (env : Env) (config : Config) (s : Session)
    (cfg : option ModelConfig) (reporter : bool) :
  Session__init__ env config = inr s ->
  (In EvOpenLog (emitted (start env cfg reporter s)) /\
   ~ In EvCloseLog (emitted (start env cfg reporter s))) <->
  (cfg <> None /\ tuning (_config s) = true /\
   0 < test_batch_size (_config s) /\
   exists ty, _session_type s = Some ty /\
              ty <> "training" /\ ty <> "validation").
Proof.
  intros Hinit. split.
  - intros [Hopen Hclose].
    pose proof (init_inversion env config s Hinit) as Hinv.
    destruct cfg as [mc|].
    2:{ rewrite start_without_model_config in Hopen. cbn in Hopen.
        exfalso. intuition discriminate. }
    destruct Hinv as [Hid _].
    destruct (session_id config) as [sid|].
    + destruct Hid as (Hres & Hty & _). exfalso.
      destruct (load_latest env (checkpoint_path s)) as [e|cp] eqn:Hcp.
      * unfold start in Hopen.
        erewrite bind_err in Hopen
          by (apply initialize_model_load_fails; eassumption).
        cbn in Hopen. intuition discriminate.
      * rewrite (start_resumed env s mc reporter cp Hres Hty Hcp) in Hopen.
        cbn in Hopen. intuition discriminate.
    + destruct Hid as (Hfresh & _ & Hty).
      destruct (String.eqb (py_or (session_type config) "training") "training")
        eqn:Htr.
      * exfalso. apply String.eqb_eq in Htr. rewrite Htr in Hty.
        rewrite (start_training_fresh env s mc reporter Hfresh Hty) in Hopen.
        cbn in Hopen. intuition discriminate.
      * destruct (Z_lt_le_dec 0 (test_batch_size (_config s))) as [Hpos|Hpos].
        2:{ exfalso.
            rewrite (start_rejects_test_batch_size env s mc reporter _
                       Hfresh Hty Htr Hpos) in Hopen.
            cbn in Hopen. intuition discriminate. }
        rewrite (start_other env s mc reporter _ Hfresh Hty Htr Hpos)
          in Hopen, Hclose.
        destruct (String.eqb (py_or (session_type config) "training")
                    "validation") eqn:Hval;
          destruct (tuning (_config s)) eqn:Htun;
          cbn in Hopen, Hclose.
        -- exfalso. apply Hclose. intuition.
        -- exfalso. intuition discriminate.
        -- split; [discriminate|]. split; [reflexivity|]. split; [exact Hpos|].
           eexists. split; [exact Hty|].
           split; apply String.eqb_neq; assumption.
        -- exfalso. intuition discriminate.
  - intros (Hcfg & Htun & Hpos & ty & Hty & Htr & Hval).
    destruct cfg as [mc|]; [|congruence].
    apply String.eqb_neq in Htr. apply String.eqb_neq in Hval.
    rewrite (start_other env s mc reporter ty
               (typed_session_is_fresh env config s ty Hinit Hty) Hty Htr Hpos).
    rewrite Hval, Htun. cbn. split; [intuition|]. intuition discriminate.
Qed.

Lemma start_leaves_log_open_iff_witness :
  exists s,
    Session__init__ demo_env
      (with_flags false true false (with_session_type (Some "foo") demo_config))
      = inr s /\
    ((In EvOpenLog (emitted (start demo_env (Some demo_model_config) false s)) /\
      ~ In EvCloseLog (emitted (start demo_env (Some demo_model_config) false s)))
     <->
     (Some demo_model_config <> None /\ tuning (_config s) = true /\
      0 < test_batch_size (_config s) /\
      exists ty, _session_type s = Some ty /\
                 ty <> "training" /\ ty <> "validation")).
Proof.
  eexists. split; [reflexivity|].
  lazymatch goal with
  | |- context [start _ _ _ ?s] =>
      exact (start_leaves_log_open_iff demo_env
               (with_flags false true false
                  (with_session_type (Some "foo") demo_config))
               s (Some demo_model_config) false eq_refl)
  end.
Defined.

(** X19: when a resumed session cannot load its latest checkpoint, [start]
    fails with the error of the checkpoint manager, right after the load was
    attempted: the starting epoch stays 0 and no data is loaded. *)
Theorem start_resumed_propagates_checkpoint_error (env : Env) (config : Config)
    (sid : string) (s : Session) (mc : ModelConfig) (reporter : bool) (e : exn) :
  session_id config = Some sid ->
  Session__init__ env config = inr s ->
  load_latest env (checkpoint_path s) = inl e ->
  value (start env (Some mc) reporter s) = inl e /\
  emitted (start env (Some mc) reporter s) = init_events ++ [EvLoadLatest] /\
  _starting_epoch (final (start env (Some mc) reporter s)) = 0 /\
  _data_loader (final (start env (Some mc) reporter s)) = [].
Proof.
  intros Hsid Hinit He.
  apply init_inversion in Hinit. rewrite Hsid in Hinit.
  destruct Hinit as ((Hres & _) & _ & Hdl & Hep & _).
  unfold start.
  erewrite bind_err by (apply initialize_model_load_fails; eassumption).
  cbn [value emitted final]. repeat split; assumption.
Qed.

Lemma start_resumed_propagates_checkpoint_error_witness :
  exists s,
    Session__init__ (without_checkpoint (ExternalError "no checkpoint") demo_env)
      (with_session_id (Some "old") demo_config) = inr s /\
    value (start (without_checkpoint (ExternalError "no checkpoint") demo_env)
             (Some demo_model_config) false s)
      = inl (ExternalError "no checkpoint") /\
    emitted (start (without_checkpoint (ExternalError "no checkpoint") demo_env)
               (Some demo_model_config) false s)
      = init_events ++ [EvLoadLatest] /\
    _starting_epoch
      (final (start (without_checkpoint (ExternalError "no checkpoint") demo_env)
                (Some demo_model_config) false s)) = 0 /\
    _data_loader
      (final (start (without_checkpoint (ExternalError "no checkpoint") demo_env)
                (Some demo_model_config) false s)) = [].
Proof.
  eexists. split; [reflexivity|].
  lazymatch goal with
  | |- context [start _ _ _ ?s] =>
      exact (start_resumed_propagates_checkpoint_error
               (without_checkpoint (ExternalError "no checkpoint") demo_env)
               (with_session_id (Some "old") demo_config) "old" s
               demo_model_config false (ExternalError "no checkpoint")
               eq_refl eq_refl eq_refl)
  end.
Defined.

Lemma train_epoch_without_loader (env : Env) (s : Session) (e : exn) :
  dict_get (_data_loader s) "train" = inl e ->
  _train_epoch env s
  = mkOutcome (inl e) (set_model_training true s) [EvModelTrain].
Proof.
  intros Hdl. unfold _train_epoch. etransitivity.
  - prim. prim. prim. rewrite Hdl. apply bind_err. reflexivity.
  - reflexivity.
Qed.

(** X20: a session whose type is not "training" is left by [start] with the
    validation loader alone: it holds the validation files in full, in file
    order and in batches of the test batch size.  A training pass on that
    session fails with [KeyError "train"] before any batch, and a validation
    pass runs every batch of the loader, with progress mode 0. *)
Theorem start_loads_only_validation_data (env : Env) (config : Config)
    (s : Session) (mc : ModelConfig) (reporter : bool) (ty : string) :
  Session__init__ env config = inr s ->
  _session_type s = Some ty ->
  ty <> "training" ->
  0 < test_batch_size (_config s) ->
  let s' := final (start env (Some mc) reporter s) in
  let dl := validation_loader env (_config s) in
  _data_loader s' = [("val", dl)] /\
  _num_validation_batches s' = Some (DataLoader_len dl) /\
  loader_index_batches env dl
  = chunks (Z.to_nat (test_batch_size (_config s)))
      (seq 0 (List.length
                (np_load_labels env (validation_labels_path (_config s))))) /\
  _train_epoch env s'
  = mkOutcome (inl (KeyError "train")) (set_model_training true s')
      [EvModelTrain] /\
  forall bs, loader_batches env dl = inr bs ->
    value (_validate_epoch env s') = inr tt /\
    emitted (_validate_epoch env s')
    = EvModelEval
      :: flat_map (validate_batch_events 0 (set_model_training false s')) bs.
Proof.
  intros Hinit Hty Htr Hpos s' dl.
  pose proof (init_inversion env config s Hinit) as (_ & _ & Hdl & _).
  apply String.eqb_neq in Htr.
  assert (Hs' : s' = set_metrics zero_metrics
                       (set_reporter reporter (loaded env mc s))).
  { unfold s'.
    rewrite (start_other env s mc reporter ty
               (typed_session_is_fresh env config s ty Hinit Hty) Hty Htr Hpos).
    destruct (String.eqb ty "validation"); reflexivity. }
  assert (Hloaders : _data_loader s' = [("val", dl)]).
  { rewrite Hs'. cbn. rewrite Hdl. reflexivity. }
  split; [exact Hloaders|].
  split; [rewrite Hs'; reflexivity|].
  split; [reflexivity|].
  split.
  - apply train_epoch_without_loader. rewrite Hloaders. reflexivity.
  - intros bs Hbs.
    assert (Hty' : _session_type s' = Some ty) by (rewrite Hs'; exact Hty).
    assert (Hval : dict_get (_data_loader s') "val" = inr dl)
      by (rewrite Hloaders; reflexivity).
    rewrite (validate_epoch_run env s' ty dl bs Hty' Hval Hbs).
    cbn [value emitted]. unfold validation_pass_events. rewrite Htr.
    split; reflexivity.
Qed.

Lemma start_loads_only_validation_data_witness :
  exists s,
    Session__init__ demo_env (with_session_type (Some "validation") demo_config)
      = inr s /\
    let s' := final (start demo_env (Some demo_model_config) false s) in
    let dl := validation_loader demo_env (_config s) in
    _data_loader s' = [("val", dl)] /\
    _num_validation_batches s' = Some (DataLoader_len dl) /\
    loader_index_batches demo_env dl
    = chunks (Z.to_nat (test_batch_size (_config s)))
        (seq 0 (List.length
                  (np_load_labels demo_env (validation_labels_path (_config s))))) /\
    _train_epoch demo_env s'
    = mkOutcome (inl (KeyError "train")) (set_model_training true s')
        [EvModelTrain] /\
    forall bs, loader_batches demo_env dl = inr bs ->
      value (_validate_epoch demo_env s') = inr tt /\
      emitted (_validate_epoch demo_env s')
      = EvModelEval
        :: flat_map (validate_batch_events 0 (set_model_training false s')) bs.
Proof.
  eexists. split; [reflexivity|].
  lazymatch goal with
  | |- context [start _ _ _ ?s] =>
      refine (start_loads_only_validation_data demo_env
                (with_session_type (Some "validation") demo_config) s
                demo_model_config false "validation" eq_refl eq_refl _ eq_refl)
  end.
  discriminate.
Defined.

(** ** The program entry *)


Example main_on_training_configuration :
  exists o,
    main_ended (main demo_env demo_config) = Started o /\
    value o = inl (TypeError "'NoneType' object is not subscriptable").
Proof. eexists. split; reflexivity. Qed.
